(** * modem.py: the AT-command protocol engine and the DHCP lease parser

    A shallow embedding of [modem.py] (a script that brings a cellular USB
    modem on line or off line over a serial control channel and then
    reconciles the host's address, default route and DNS entry), with the
    properties its specification states about it.

    Conventions of the embedding:
    - a Python [str] is a list of Unicode code points ([text]), a Python
      [bytes] is a list of [Byte.byte];
    - a Python exception is a value of [exn]; a function that can raise
      returns a [Result];
    - the serial port, the operating system and standard output are an
      explicit [World] threaded through a state-and-exception monad [M];
      the effects a raising call made before it raised stay in the world. *)

From Stdlib Require Import List NArith ZArith Bool Ascii String Lia.
Import ListNotations.

Set Implicit Arguments.

(** ** Exceptions and results *)

Inductive exn : Type :=
| ValueError            (* int() on a malformed literal *)
| StructError           (* struct.error: value out of range for "<L" *)
| IndexError            (* list index out of range *)
| UnboundLocalError     (* local variable referenced before assignment *)
| UnicodeDecodeError    (* bytes.decode("utf-8") on ill-formed input *)
| UnicodeEncodeError    (* str.encode on a lone surrogate *)
| AttributeError        (* method call on None *)
| NameError             (* global name not defined *)
| SerialException       (* serial.Serial could not open the port *)
| CalledProcessError.   (* subprocess.check_output: non-zero exit status *)

Inductive Result (A : Type) : Type :=
| Ret (a : A)
| Raise (e : exn).
Arguments Ret {A} a.
Arguments Raise {A} e.

Definition rbind {A B} (r : Result A) (k : A -> Result B) : Result B :=
  match r with
  | Ret a => k a
  | Raise e => Raise e
  end.

Declare Scope result_scope.
Delimit Scope result_scope with result.
Notation "'try!' x <- r ; k" := (rbind r (fun x => k))
  (at level 10, x name, r at level 100, k at level 200) : result_scope.

Fixpoint rmap {A B} (f : A -> Result B) (l : list A) : Result (list B) :=
  match l with
  | [] => Ret []
  | a :: l' =>
      rbind (f a) (fun b => rbind (rmap f l') (fun bs => Ret (b :: bs)))
  end.

(** ** Python text and bytes *)

Definition char := N.
Definition text := list char.
Definition bytes := list Byte.byte.

(** A string literal of the source, as text. *)
Definition lit (s : string) : text :=
  map N_of_ascii (list_ascii_of_string s).

Definition text_eqb (a b : text) : bool :=
  if list_eq_dec N.eq_dec a b then true else false.

Module Py.

Local Open Scope N_scope.

(** *** Character classes *)

(** [Py_ISSPACE]: the C-locale white space that [int()] skips. *)
Definition Py_ISSPACE (c : char) : bool :=
  ((9 <=? c) && (c <=? 13)) || (c =? 32).

(** [Py_UNICODE_ISSPACE]: what [str.split()] and [str.isspace] use. *)
Definition Py_UNICODE_ISSPACE (c : char) : bool :=
  ((9 <=? c) && (c <=? 13)) || ((28 <=? c) && (c <=? 32))
  || (c =? 133) || (c =? 160) || (c =? 5760)
  || ((8192 <=? c) && (c <=? 8202)) || (c =? 8232) || (c =? 8233)
  || (c =? 8239) || (c =? 8287) || (c =? 12288).

(** Code points of the digit zero of every decimal script (Unicode 14.0,
    general category Nd); each is followed by its digits one to nine. *)
Definition decimal_zeros : list char :=
  [ 48; 1632; 1776; 1984; 2406; 2534; 2662; 2790; 2918; 3046; 3174; 3302;
    3430; 3558; 3664; 3792; 3872; 4160; 4240; 6112; 6160; 6470; 6608; 6784;
    6800; 6992; 7088; 7232; 7248; 42528; 43216; 43264; 43472; 43504; 43600;
    44016; 65296; 66720; 68912; 69734; 69872; 69942; 70096; 70384; 70736;
    70864; 71248; 71360; 71472; 71904; 72016; 72784; 73040; 73120; 92768;
    92864; 93008; 120782; 120792; 120802; 120812; 120822; 123200; 123632;
    125264; 130032 ].

Definition Py_UNICODE_TODECIMAL (c : char) : option N :=
  match find (fun z => (z <=? c) && (c <? z + 10)) decimal_zeros with
  | Some z => Some (c - z)
  | None => None
  end.

(** *** Small list utilities *)

Fixpoint drop_while (p : char -> bool) (s : text) : text :=
  match s with
  | [] => []
  | c :: s' => if p c then drop_while p s' else s
  end.

Fixpoint take_while (p : char -> bool) (s : text) : text :=
  match s with
  | [] => []
  | c :: s' => if p c then c :: take_while p s' else []
  end.

Fixpoint starts_with (pat s : text) : bool :=
  match pat, s with
  | [], _ => true
  | _ :: _, [] => false
  | p :: pat', c :: s' => (p =? c) && starts_with pat' s'
  end.

(** [find_after pat s]: the text that follows the leftmost occurrence of
    the literal [pat] in [s], when there is one. *)
Fixpoint find_after (pat s : text) : option text :=
  if starts_with pat s then Some (skipn (List.length pat) s)
  else match s with
       | [] => None
       | _ :: s' => find_after pat s'
       end.

(** [re.search(pat, s) is not None] for a pattern without metacharacters. *)
Definition re_search (pat s : text) : bool :=
  match find_after pat s with Some _ => true | None => false end.

(** *** [str.split] *)

(** [s.split(sep)] for a one-character separator. *)
Fixpoint split (sep : char) (s : text) : list text :=
  match s with
  | [] => [[]]
  | c :: s' =>
      if c =? sep then [] :: split sep s'
      else match split sep s' with
           | f :: fs => (c :: f) :: fs
           | [] => [[c]]
           end
  end.

(** [s.split(sep, 1)]: cut at the leftmost separator only. *)
Fixpoint split1 (sep : char) (s : text) : list text :=
  match s with
  | [] => [[]]
  | c :: s' =>
      if c =? sep then [[]; s']
      else match split1 sep s' with
           | f :: fs => (c :: f) :: fs
           | [] => [[c]]
           end
  end.

(** [s.split()]: the maximal runs of non-space characters. *)
Fixpoint split_ws (s : text) : list text :=
  match s with
  | [] => []
  | c :: s' =>
      if Py_UNICODE_ISSPACE c then split_ws s'
      else match s' with
           | [] => [[c]]
           | d :: _ =>
               if Py_UNICODE_ISSPACE d then [c] :: split_ws s'
               else match split_ws s' with
                    | t :: ts => (c :: t) :: ts
                    | [] => [[c]]
                    end
           end
  end.

(** *** [int(s, base)] *)

(** [_PyLong_DigitValue]. *)
Definition digit_val (c : char) : option N :=
  if (48 <=? c) && (c <=? 57) then Some (c - 48)
  else if (97 <=? c) && (c <=? 122) then Some (c - 87)
  else if (65 <=? c) && (c <=? 90) then Some (c - 55)
  else None.

(** The digit loop of [PyLong_FromString]: digits below [base], with single
    underscores between them.  Gives the value, the number of digits and
    what follows; [None] on a doubled or a trailing underscore. *)
Fixpoint scan_digits (base : N) (prev_us : bool) (acc : Z) (n : nat)
    (s : text) : option (Z * nat * text) :=
  let stop := if prev_us then None else Some (acc, n, s) in
  match s with
  | [] => stop
  | c :: s' =>
      if c =? 95 then
        if prev_us then None else scan_digits base true acc n s'
      else match digit_val c with
           | Some d =>
               if d <? base
               then scan_digits base false
                      (acc * Z.of_N base + Z.of_N d)%Z (S n) s'
               else stop
           | None => stop
           end
  end.

Fixpoint transform (s : text) : text :=
  match s with
  | [] => []
  | c :: s' =>
      if c <? 127 then c :: transform s'
      else if Py_UNICODE_ISSPACE c then 32 :: transform s'
      else match Py_UNICODE_TODECIMAL c with
           | Some d => (48 + d) :: transform s'
           | None => [63]
           end
  end.

(** Non-ASCII spaces become a blank, non-ASCII decimal digits their ASCII
    digit; the text is cut at the first other non-ASCII character, which
    is replaced by a question mark. *)
Definition TransformDecimalAndSpaceToASCII (s : text) : text :=
  if forallb (fun c => c <? 128) s then s else transform s.

Definition is_binary_base (base : N) : bool :=
  (base =? 2) || (base =? 4) || (base =? 8) || (base =? 16) || (base =? 32).

Definition PyLong_FromString (base : N) (s : text) : Result Z :=
  let s1 := drop_while Py_ISSPACE s in
  let '(neg, s2) :=
    match s1 with
    | c :: r =>
        if c =? 43 then (false, r)
        else if c =? 45 then (true, r)
        else (false, s1)
    | [] => (false, s1)
    end in
  let s3 :=
    match s2 with
    | z :: x :: r =>
        if (base =? 16) && (z =? 48) && ((x =? 120) || (x =? 88))
        then match r with
             | u :: r' => if u =? 95 then r' else r
             | [] => r
             end
        else s2
    | _ => s2
    end in
  if starts_with [95] s3 then Raise ValueError
  else
    match scan_digits base false 0%Z 0%nat s3 with
    | None => Raise ValueError
    | Some (v, n, rest) =>
        if Nat.eqb n 0 then Raise ValueError
        else if negb (is_binary_base base) && Nat.ltb 4300 n
        then Raise ValueError
        else match drop_while Py_ISSPACE rest with
             | [] => Ret (if neg then (- v)%Z else v)
             | _ :: _ => Raise ValueError
             end
    end.

(** [int(s, base=base)] for [base] 10 or 16. *)
Definition int (base : N) (s : text) : Result Z :=
  PyLong_FromString base (TransformDecimalAndSpaceToASCII s).

(** *** [str(n)], [bin(n)], [str.count] *)

Fixpoint uint_text (u : Decimal.uint) : text :=
  match u with
  | Decimal.Nil => []
  | Decimal.D0 u' => 48 :: uint_text u'
  | Decimal.D1 u' => 49 :: uint_text u'
  | Decimal.D2 u' => 50 :: uint_text u'
  | Decimal.D3 u' => 51 :: uint_text u'
  | Decimal.D4 u' => 52 :: uint_text u'
  | Decimal.D5 u' => 53 :: uint_text u'
  | Decimal.D6 u' => 54 :: uint_text u'
  | Decimal.D7 u' => 55 :: uint_text u'
  | Decimal.D8 u' => 56 :: uint_text u'
  | Decimal.D9 u' => 57 :: uint_text u'
  end.

(** [str(n)] for a natural number. *)
Definition str_of_N (n : N) : text := uint_text (N.to_uint n).

Fixpoint pos_bits (p : positive) (acc : text) : text :=
  match p with
  | xH => 49 :: acc
  | xO q => pos_bits q (48 :: acc)
  | xI q => pos_bits q (49 :: acc)
  end.

(** [bin(n)]. *)
Definition bin (n : Z) : text :=
  match n with
  | Z0 => lit "0b0"
  | Zpos p => lit "0b" ++ pos_bits p []
  | Zneg p => lit "-0b" ++ pos_bits p []
  end.

(** [s.count(c)] for a one-character [c]. *)
Definition count (c : char) (s : text) : nat := count_occ N.eq_dec s c.

(** *** [struct.pack("<L", v)] and [socket.inet_ntoa] *)

(** Four octets, in the order they are stored. *)
Definition packed4 : Type := N * N * N * N.

Definition struct_pack_L (v : Z) : Result packed4 :=
  if ((0 <=? v) && (v <=? 4294967295))%Z then
    let n := Z.to_N v in
    Ret (N.land n 255, N.land (N.shiftr n 8) 255,
         N.land (N.shiftr n 16) 255, N.land (N.shiftr n 24) 255)
  else Raise StructError.

Definition inet_ntoa (p : packed4) : text :=
  let '(a, b, c, d) := p in
  str_of_N a ++ 46 :: str_of_N b ++ 46 :: str_of_N c ++ 46 :: str_of_N d.

(** *** UTF-8 *)

Definition is_cont (b : N) : bool := (128 <=? b) && (b <=? 191).

(** The strict decoder of [bytes.decode("utf-8")], on octet values: no
    overlong forms, no surrogates, nothing above U+10FFFF. *)
Fixpoint utf8_decode (bs : list N) : Result text :=
  match bs with
  | [] => Ret []
  | b0 :: r0 =>
      if b0 <? 128 then rbind (utf8_decode r0) (fun t => Ret (b0 :: t))
      else if (194 <=? b0) && (b0 <=? 223) then
        match r0 with
        | b1 :: r1 =>
            if is_cont b1
            then rbind (utf8_decode r1) (fun t =>
                   Ret (((b0 - 192) * 64 + (b1 - 128)) :: t))
            else Raise UnicodeDecodeError
        | _ => Raise UnicodeDecodeError
        end
      else if (224 <=? b0) && (b0 <=? 239) then
        match r0 with
        | b1 :: b2 :: r2 =>
            if is_cont b1 && is_cont b2
               && (negb (b0 =? 224) || (160 <=? b1))
               && (negb (b0 =? 237) || (b1 <=? 159))
            then rbind (utf8_decode r2) (fun t =>
                   Ret (((b0 - 224) * 4096 + (b1 - 128) * 64
                         + (b2 - 128)) :: t))
            else Raise UnicodeDecodeError
        | _ => Raise UnicodeDecodeError
        end
      else if (240 <=? b0) && (b0 <=? 244) then
        match r0 with
        | b1 :: b2 :: b3 :: r3 =>
            if is_cont b1 && is_cont b2 && is_cont b3
               && (negb (b0 =? 240) || (144 <=? b1))
               && (negb (b0 =? 244) || (b1 <=? 143))
            then rbind (utf8_decode r3) (fun t =>
                   Ret (((b0 - 240) * 262144 + (b1 - 128) * 4096
                         + (b2 - 128) * 64 + (b3 - 128)) :: t))
            else Raise UnicodeDecodeError
        | _ => Raise UnicodeDecodeError
        end
      else Raise UnicodeDecodeError
  end.

(** [b.decode("utf-8")]. *)
Definition decode (b : bytes) : Result text :=
  utf8_decode (map Byte.to_N b).

Definition octet (n : N) : Byte.byte :=
  match Byte.of_N n with Some b => b | None => Byte.x00 end.

Definition utf8_encode_char (c : char) : Result bytes :=
  if c <? 128 then Ret [octet c]
  else if c <? 2048 then Ret [octet (192 + c / 64); octet (128 + c mod 64)]
  else if (55296 <=? c) && (c <=? 57343) then Raise UnicodeEncodeError
  else if c <? 65536 then
    Ret [octet (224 + c / 4096); octet (128 + (c / 64) mod 64);
         octet (128 + c mod 64)]
  else
    Ret [octet (240 + c / 262144); octet (128 + (c / 4096) mod 64);
         octet (128 + (c / 64) mod 64); octet (128 + c mod 64)].

(** [str.encode(s)]. *)
Definition encode (s : text) : Result bytes :=
  rbind (rmap utf8_encode_char s) (fun l => Ret (List.concat l)).

End Py.

(** ** The lease parser *)

(** The dictionary [DhcpParse] returns. *)
Record Lease : Type := mkLease {
  IpAddr : text;
  Netmask : text;
  Gateway : text;
  DhcpServer : text;
  DnsPrimary : text;
  DnsSecondary : text;
  RxMaxBps : text;
  TxMaxBps : text;
  NetmaskBits : nat
}.

Local Open Scope result_scope.

(** One turn of the loop over the address fields:
    [socket.inet_ntoa(struct.pack("<L", int(field, base=16)))]. *)
Definition decode_address (field : text) : Result text :=
  try! v <- Py.int 16 field;
  try! p <- Py.struct_pack_L v;
  Ret (Py.inet_ntoa p).

(** [bin(int(x)).count('1')]. *)
Definition ones (x : text) : Result nat :=
  try! n <- Py.int 10 x;
  Ret (Py.count 49%N (Py.bin n)).

Definition DhcpParse (dhcp : text) : Result (option Lease) :=
  match Py.split1 58%N dhcp with
  | [_; payload] =>
      let field_array := Py.split 44%N payload in
      if Nat.leb 8 (List.length field_array) then
        try! ips <- rmap decode_address (firstn 6 field_array);
        try! bits <- rmap ones (Py.split 46%N (nth 1 ips []));
        let netmaskbits := list_sum bits in
        let txMaxBps := Py.split_ws (nth 7 field_array []) in
        match txMaxBps with
        | tx :: _ =>
            Ret (Some {| IpAddr := nth 0 ips [];
                         Netmask := nth 1 ips [];
                         Gateway := nth 2 ips [];
                         DhcpServer := nth 3 ips [];
                         DnsPrimary := nth 4 ips [];
                         DnsSecondary := nth 5 ips [];
                         RxMaxBps := nth 6 field_array [];
                         TxMaxBps := tx;
                         NetmaskBits := netmaskbits |})
        | [] => Raise IndexError
        end
      else Ret None
  | _ => Ret None
  end.

Definition CR : char := 13%N.
Definition LF : char := 10%N.

Definition DQUOTE : char := 34%N.
Definition SPACE : char := 32%N.

(** ** The world outside the script *)

(** What the script does to the serial port. *)
Inductive SerialEvent : Type :=
| SerOpen (device : text) (timeout : Z)
| SerWrite (data : bytes)
| SerRead (size : nat) (timeout : Z) (data : bytes).

(** What the script asks of the operating system: a command line handed to
    the shell ([subprocess.call(..., shell=True)]) or a program started with
    its argument vector ([subprocess.Popen], [subprocess.check_output]). *)
Inductive OsEvent : Type :=
| Shell (cmd : text)
| Spawn (argv : list text).

Inductive Output : Type :=
| Line (s : text)      (* print(s) *)
| Usage.               (* parser.print_help() *)

(** The scripts are what the environment will answer, in the order it is
    asked; the other fields are what the program has done so far.  The
    environment is taken to be this well behaved: once the port is open it
    accepts every write and every read comes back, with nothing when the
    time-out expires first; the programs the script names can be started.
    The exceptions left are those the statements of the script raise.
    - [open_script]: whether each [serial.Serial(...)] opens the port;
    - [read_script]: what the modem delivers to each [ser.read] before the
      time-out expires (nothing, once the script is used up);
    - [proc_script]: for each program whose output is captured, whether it
      exited with status zero and what it wrote. *)
Record World : Type := mkWorld {
  open_script : list bool;
  read_script : list bytes;
  proc_script : list (bool * bytes);
  ser_timeout : Z;
  ser_log : list SerialEvent;
  os_log : list OsEvent;
  stdout : list Output
}.

Definition M (A : Type) : Type := World -> Result A * World.

Definition ret {A} (a : A) : M A := fun w => (Ret a, w).
Definition raise {A} (e : exn) : M A := fun w => (Raise e, w).
Definition bind {A B} (m : M A) (k : A -> M B) : M B :=
  fun w => match m w with
           | (Ret a, w') => k a w'
           | (Raise e, w') => (Raise e, w')
           end.
Definition lift {A} (r : Result A) : M A := fun w => (r, w).

(** [try: m except e: h]. *)
Definition try_except {A} (m : M A) (handled : exn -> bool) (h : M A) : M A :=
  fun w => match m w with
           | (Raise e, w') => if handled e then h w' else (Raise e, w')
           | r => r
           end.

Declare Scope monad_scope.
Delimit Scope monad_scope with monad.
Notation "x <- m ;; k" := (bind m (fun x => k))
  (at level 61, m at next level, right associativity) : monad_scope.
Notation "m ;; k" := (bind m (fun _ => k))
  (at level 61, right associativity) : monad_scope.
Local Open Scope monad_scope.

Definition when (b : bool) (m : M unit) : M unit :=
  if b then m else ret tt.

Definition log_serial (e : SerialEvent) : M unit :=
  fun w => (Ret tt,
            mkWorld (open_script w) (read_script w) (proc_script w)
              (ser_timeout w) (ser_log w ++ [e]) (os_log w) (stdout w)).

Definition log_os (e : OsEvent) : M unit :=
  fun w => (Ret tt,
            mkWorld (open_script w) (read_script w) (proc_script w)
              (ser_timeout w) (ser_log w) (os_log w ++ [e]) (stdout w)).

Definition emit (o : Output) : M unit :=
  fun w => (Ret tt,
            mkWorld (open_script w) (read_script w) (proc_script w)
              (ser_timeout w) (ser_log w) (os_log w) (stdout w ++ [o])).

Definition print (s : text) : M unit := emit (Line s).

(** *** The serial port *)

(** The handle [serial.Serial] returns; [None] stands for Python's [None]. *)
Inductive Serial : Type := SerialPort.

(** [serial.Serial(device, timeout=t)]. *)
Definition serial_Serial (device : text) (t : Z) : M Serial :=
  fun w =>
    let opened := match open_script w with b :: _ => b | [] => false end in
    let w' := mkWorld (tl (open_script w)) (read_script w) (proc_script w)
                (if opened then t else ser_timeout w)
                (ser_log w) (os_log w) (stdout w) in
    if opened then (log_serial (SerOpen device t) ;; ret SerialPort) w'
    else (Raise SerialException, w').

(** Attribute access on [ser]. *)
Definition attr (ser : option Serial) : M unit :=
  match ser with
  | Some _ => ret tt
  | None => raise AttributeError
  end.

(** [ser.write(data)]. *)
Definition ser_write (ser : option Serial) (data : Result bytes) : M unit :=
  attr ser ;;
  d <- lift data ;;
  log_serial (SerWrite d).

(** [ser.read(size)]: at most [size] octets of what arrives in time. *)
Definition ser_read (ser : option Serial) (size : nat) : M bytes :=
  attr ser ;;
  fun w =>
    let data := firstn size (hd [] (read_script w)) in
    (log_serial (SerRead size (ser_timeout w) data) ;; ret data)
      (mkWorld (open_script w) (tl (read_script w)) (proc_script w)
         (ser_timeout w) (ser_log w) (os_log w) (stdout w)).

(** [ser.timeout]. *)
Definition get_timeout (ser : option Serial) : M Z :=
  attr ser ;;
  fun w => (Ret (ser_timeout w), w).

(** [ser.timeout = t]. *)
Definition set_timeout (ser : option Serial) (t : Z) : M unit :=
  attr ser ;;
  fun w => (Ret tt,
            mkWorld (open_script w) (read_script w) (proc_script w)
              t (ser_log w) (os_log w) (stdout w)).

(** *** Processes *)

Definition next_proc : M (bool * bytes) :=
  fun w => (Ret (hd (false, []) (proc_script w)),
            mkWorld (open_script w) (read_script w) (tl (proc_script w))
              (ser_timeout w) (ser_log w) (os_log w) (stdout w)).

(** [subprocess.check_output(argv, stderr=subprocess.STDOUT)]. *)
Definition check_output (argv : list text) : M bytes :=
  log_os (Spawn argv) ;;
  r <- next_proc ;;
  if fst r then ret (snd r) else raise CalledProcessError.

(** [subprocess.call(cmd, shell=True, ...)]; the status is not looked at. *)
Definition call_shell (cmd : text) : M unit := log_os (Shell cmd).

(** [subprocess.Popen(argv, ...)]. *)
Definition Popen (argv : list text) : M unit := log_os (Spawn argv).

(** [p.communicate()[0]] of the last process of a pipeline. *)
Definition communicate : M bytes :=
  r <- next_proc ;; ret (snd r).

(** *** Local variables that may be unbound *)

(** Reading a local variable: [None] is a name not yet assigned. *)
Definition load {A} (v : option A) : M A :=
  match v with
  | Some a => ret a
  | None => raise UnboundLocalError
  end.

(** [if s2: s = s2.decode("utf-8")], from the current binding of [s]. *)
Definition decode_if_any (s : option text) (s2 : bytes) : M (option text) :=
  match s2 with
  | [] => ret s
  | _ :: _ => t <- lift (Py.decode s2) ;; ret (Some t)
  end.

(** ** The script *)

(** Script configuration parameters. *)
Definition dev : text := lit "wwan0".
Definition dev_at : text := lit "/dev/ttyUSB0".
Definition ifconfig : text := lit "/sbin/ifconfig".
Definition carrier : text := lit "h2g2".

Definition is_digit_or_dot (c : char) : bool :=
  ((48 <=? c) && (c <=? 57) || (c =? 46))%N.

(** The group that [re.search] captures for the literal [label] followed by
    a run of digits and dots, when the pattern matches. *)
Definition search_address (label s : text) : option text :=
  match Py.find_after label s with
  | Some rest => Some (Py.take_while is_digit_or_dot rest)
  | None => None
  end.

(** [g[g.rfind(' ')+1:]]. *)
Definition after_last_space (g : text) : text :=
  rev (Py.take_while (fun c => negb (c =? SPACE)%N) (rev g)).

(** The dictionary [GetGatewayInfo] returns. *)
Record GatewayInfo : Type := mkGatewayInfo {
  gw_IpAddr : text;
  gw_Device : text
}.

Section Protocol.

(** The global [verbose]: 0 - none, 1 - errors, 2 - all. *)
Variable verbose : nat.

Definition OpenModem (device : text) : M (option Serial) :=
  try_except
    (ser <- serial_Serial device 2 ;; ret (Some ser))
    (fun e => match e with SerialException => true | _ => false end)
    (when (1 <=? verbose) (print (lit "Failed to open serial port")) ;;
     ret None).

Definition GetInterface (device : text) : M (option bytes) :=
  try_except
    (interface <- check_output [ifconfig; device] ;; ret (Some interface))
    (fun e => match e with CalledProcessError => true | _ => false end)
    (when (1 <=? verbose)
       (print (device ++ lit ": Failed to find interface using "
               ++ ifconfig ++ lit ", check modem")) ;;
     ret None).

Definition GetIpAddr (ifout : bytes) : M (option text) :=
  s <- lift (Py.decode ifout) ;;
  ret (search_address (lit "inet ") s).

Definition GetIpMask (ifout : bytes) : M (option text) :=
  s <- lift (Py.decode ifout) ;;
  ret (search_address (lit "netmask ") s).

Definition ModemOk (ser : option Serial) : M bool :=
  ser_write ser (Py.encode (lit "AT" ++ [CR])) ;;
  s2 <- ser_read ser 10 ;;
  s <- decode_if_any None s2 ;;
  when (2 <=? verbose)
    (s' <- load s ;; print (lit "ModemOk:" ++ s')) ;;
  s' <- load s ;;
  if negb (Py.re_search (lit "OK") s') then ret false
  else ret true.

Definition ModemHangup (ser : option Serial) : M bool :=
  ser_write ser (Py.encode (lit "AT^NDISDUP=1,0" ++ [CR])) ;;
  s2 <- ser_read ser 20 ;;
  s <- decode_if_any None s2 ;;
  when (2 <=? verbose)
    (s' <- load s ;; print (lit "ModemHangup:" ++ s')) ;;
  s' <- load s ;;
  if negb (Py.re_search (lit "OK") s') then
    if negb (Py.re_search (lit "ERROR") s') then
      t <- get_timeout ser ;;
      set_timeout ser 20 ;;
      s2 <- ser_read ser 10 ;;
      s <- decode_if_any s s2 ;;
      set_timeout ser t ;;
      s' <- load s ;;
      if negb (Py.re_search (lit "OK") s') then
        when (1 <=? verbose) (print (lit "ModemHangup Error:" ++ s')) ;;
        ret false
      else
        when (2 <=? verbose)
          (print (lit "ModemHangup Delayed Response:" ++ s')) ;;
        ret true
    else
      when (1 <=? verbose) (print (lit "ModemHangup Error:" ++ s')) ;;
      ret false
  else ret true.

Definition ModemConnect (ser : option Serial) : M bool :=
  ser_write ser
    (Py.encode (lit "AT^NDISDUP=1,1," ++ [DQUOTE] ++ carrier
                ++ [DQUOTE; CR])) ;;
  s2 <- ser_read ser 30 ;;
  s <- decode_if_any None s2 ;;
  when (2 <=? verbose)
    (s' <- load s ;; print (lit "ModemConnect:" ++ s')) ;;
  s' <- load s ;;
  if negb (Py.re_search (lit "OK") s') then
    when (1 <=? verbose) (print (lit "ModemConnect Error:" ++ s')) ;;
    ret false
  else ret true.

Definition ModemDhcpStatus (ser : option Serial) : M (option Lease) :=
  ser_write ser (Py.encode (lit "AT^DHCP?" ++ [CR])) ;;
  s2 <- ser_read ser 100 ;;
  s <- decode_if_any None s2 ;;
  when (2 <=? verbose)
    (s' <- load s ;; print (lit "ModemDhcpStatus:" ++ s')) ;;
  s' <- load s ;;
  if negb (Py.re_search (lit "OK") s') then ret None
  else lift (DhcpParse s').

Definition EraseInterfaceIpAddress (dev : text) : M unit :=
  ifStatus <- GetInterface dev ;;
  match ifStatus with
  | Some _ =>
      call_shell (lit "/sbin/ip addr flush dev " ++ dev) ;;
      when (2 <=? verbose)
        (print (lit "Erased " ++ dev ++ lit " IP address"))
  | None => ret tt
  end.

Definition UpdateInterfaceIpAddress (dev : text)
    (dhcpStatus : option Lease) : M unit :=
  match dhcpStatus with
  | None => ret tt
  | Some status =>
      ifStatus <- GetInterface dev ;;
      match ifStatus with
      | Some ifout =>
          addr <- GetIpAddr ifout ;;
          netmask <- GetIpMask ifout ;;
          let same (v : option text) (x : text) :=
            match v with Some a => text_eqb a x | None => false end in
          if negb (same addr (IpAddr status))
             || negb (same netmask (Netmask status))
          then
            call_shell (lit "/sbin/ip addr flush dev " ++ dev) ;;
            call_shell (lit "/sbin/ip address add " ++ IpAddr status
                        ++ lit "/"
                        ++ Py.str_of_N (N.of_nat (NetmaskBits status))
                        ++ lit " dev " ++ dev) ;;
            when (2 <=? verbose)
              (print (lit "Setup " ++ dev ++ lit " IP address to "
                      ++ IpAddr status ++ lit "/"
                      ++ Py.str_of_N (N.of_nat (NetmaskBits status))))
          else ret tt
      | None => ret tt
      end
  end.

Definition GetGatewayInfo (dev : text) : M (option GatewayInfo) :=
  routes <-
    match dev with
    | _ :: _ =>
        try_except
          (Popen [lit "/sbin/route"] ;;
           Popen [lit "/bin/grep"; lit " " ++ dev ++ lit "$"] ;;
           r <- communicate ;;
           ret (Some r))
          (fun e => match e with CalledProcessError => true | _ => false end)
          (when (1 <=? verbose) (raise NameError) ;; ret None)
    | [] =>
        try_except
          (r <- check_output [lit "/sbin/route"] ;; ret (Some r))
          (fun e => match e with CalledProcessError => true | _ => false end)
          (when (1 <=? verbose) (raise NameError) ;; ret None)
    end ;;
  match routes with
  | None => ret None
  | Some routes =>
      s <- lift (Py.decode routes) ;;
      match Py.find_after (lit "default") s with
      | Some rest =>
          let group1 :=
            Py.take_while (fun c => negb (c =? LF)%N)
              (Py.drop_while (fun c => (c =? SPACE)%N) rest) in
          let gateway := Py.take_while is_digit_or_dot group1 in
          when (2 <=? verbose)
            (print (lit "Current gateway: " ++ gateway)) ;;
          let gateway_dev := after_last_space group1 in
          when (2 <=? verbose)
            (print (lit "Current gateway device: " ++ gateway_dev)) ;;
          ret (Some (mkGatewayInfo gateway gateway_dev))
      | None => ret None
      end
  end.

Definition RemoveGateway (gateway dev : text) : M unit :=
  call_shell (lit "/sbin/route delete default gw " ++ gateway
              ++ lit " " ++ dev) ;;
  when (2 <=? verbose)
    (print (lit "RemoveGateway: deleted gateway to " ++ gateway
            ++ lit " " ++ dev)).

Definition SetGateway (gateway dev : text) : M unit :=
  currentGateway <- GetGatewayInfo dev ;;
  proceed <-
    match currentGateway with
    | Some cur =>
        if text_eqb (gw_IpAddr cur) gateway then
          when (2 <=? verbose)
            (print (lit "SetGateway: gateway already set to " ++ gateway)) ;;
          ret false
        else
          RemoveGateway (gw_IpAddr cur) (gw_Device cur) ;;
          ret true
    | None => ret true
    end ;;
  if proceed : bool then
    call_shell (lit "/sbin/ip route add default via " ++ gateway) ;;
    when (2 <=? verbose) (print (lit "Setup new gateway to " ++ gateway))
  else ret tt.

Definition AddDns (dns dev : text) : M unit :=
  Popen [lit "/bin/echo"; lit "nameserver " ++ dns] ;;
  Popen [lit "/sbin/resolvconf"; lit "-a"; dev ++ lit ".modem"] ;;
  when (2 <=? verbose)
    (print (lit "AddDns: added DNS " ++ dns ++ lit " for " ++ dev)).

Definition RmDns (dev : text) : M unit :=
  call_shell (lit "/sbin/resolvconf -d " ++ dev ++ lit ".modem") ;;
  when (2 <=? verbose) (print (lit "RmDns: removed DNS for " ++ dev)).

(** *** Main program *)

(** The body of [if args.connect:]. *)
Definition connect_flow : M unit :=
  when (2 <=? verbose) (print (lit "Connecting with modem")) ;;
  ser <- OpenModem dev_at ;;
  match ser with
  | Some _ =>
      ok <- ModemOk ser ;;
      ok <- ModemConnect ser ;;
      status <- ModemDhcpStatus ser ;;
      match status with
      | Some st =>
          UpdateInterfaceIpAddress dev status ;;
          SetGateway (Gateway st) dev ;;
          AddDns (DnsPrimary st) dev
      | None => ret tt
      end
  | None => ret tt
  end.

(** What follows the hangup in the body of [if args.disconnect:]. *)
Definition teardown : M unit :=
  EraseInterfaceIpAddress dev ;;
  currentGateway <- GetGatewayInfo dev ;;
  match currentGateway with
  | Some cur => RemoveGateway (gw_IpAddr cur) dev
  | None => ret tt
  end ;;
  RmDns dev.

(** The body of [if args.disconnect:]. *)
Definition disconnect_flow : M unit :=
  ser <- OpenModem dev_at ;;
  ok <- ModemHangup ser ;;
  teardown.

End Protocol.

(** The parsed command line: how many times each option was given
    ([action='count']; zero stands for [None]). *)
Record Args : Type := mkArgs {
  arg_connect : nat;
  arg_disconnect : nat;
  arg_verbosity : nat
}.

Definition given (n : nat) : bool := negb (Nat.eqb n 0).

(** The statements of the main program after [parser.parse_args()], up to
    but not including [exit(0)]. *)
Definition script (args : Args) : M unit :=
  let verbose := if given (arg_verbosity args) then arg_verbosity args else 0 in
  when (given (arg_connect args)) (connect_flow verbose) ;;
  when (given (arg_disconnect args)) (disconnect_flow verbose) ;;
  when (negb (given (arg_connect args)) && negb (given (arg_disconnect args)))
    (emit Usage).

(** The exit status of the process: [exit(0)] when the script gets there,
    1 when an exception goes uncaught. *)
Definition main (args : Args) (w : World) : nat * World :=
  match script args w with
  | (Ret _, w') => (0, w')
  | (Raise _, w') => (1, w')
  end.

(** ** Vocabulary of the specification *)

(** An IPv4 address, as its four octets in the order they are written. *)
Definition ipv4 (a : Py.packed4) : Prop :=
  let '(o0, o1, o2, o3) := a in
  (o0 < 256 /\ o1 < 256 /\ o2 < 256 /\ o3 < 256)%N.

(** Dotted-decimal notation. *)
Definition dotted_decimal (a : Py.packed4) : text :=
  let '(o0, o1, o2, o3) := a in
  Py.str_of_N o0 ++ lit "." ++ Py.str_of_N o1 ++ lit "."
  ++ Py.str_of_N o2 ++ lit "." ++ Py.str_of_N o3.

(** A hexadecimal digit, in lower or in upper case. *)
Definition hex_digit (lower : bool) (d : N) : char :=
  (if d <? 10 then 48 + d else if lower then 87 + d else 55 + d)%N.

Definition hex_octet (lower : bool) (o : N) : text :=
  [hex_digit lower (o / 16); hex_digit lower (o mod 16)]%N.

(** The wire format of an address in the DHCP status line, as the
    specification describes it: the 32-bit word that holds the octets in
    little-endian order, written as eight hexadecimal digits, so that the
    octets appear in reverse of the order in which the address is written. *)
Definition little_endian_hex (lower : bool) (a : Py.packed4) : text :=
  let '(o0, o1, o2, o3) := a in
  hex_octet lower o3 ++ hex_octet lower o2 ++ hex_octet lower o1
  ++ hex_octet lower o0.

(** [sep.join(fields)]. *)
Fixpoint join (sep : char) (fields : list text) : text :=
  match fields with
  | [] => []
  | [f] => f
  | f :: fs => f ++ sep :: join sep fs
  end.

Fixpoint pos_popcount (p : positive) : nat :=
  match p with
  | xH => 1
  | xO q => pos_popcount q
  | xI q => S (pos_popcount q)
  end.

(** The number of bits set in [n]. *)
Definition popcount (n : N) : nat :=
  match n with
  | N0 => 0
  | Npos p => pos_popcount p
  end.

(** The number of leading ones of a 32-bit mask written as four octets: the
    length of its contiguous prefix. *)
Definition prefix_length (a : Py.packed4) : nat :=
  let '(o0, o1, o2, o3) := a in
  let word := (o0 * 16777216 + o1 * 65536 + o2 * 256 + o3)%N in
  List.length
    (Py.take_while (fun i => N.testbit word i)
       (map N.of_nat (rev (seq 0 32)))).

(** The text a protocol step works on after a read that starts from no
    binding of [s]: the decoded octets, when some arrived and they are
    well-formed UTF-8. *)
Definition heard (data : bytes) : option text :=
  match data with
  | [] => None
  | _ :: _ =>
      match Py.decode data with
      | Ret s => Some s
      | Raise _ => None
      end
  end.

(** The octets of a command of the source. *)
Definition command (s : text) : bytes :=
  match Py.encode s with
  | Ret b => b
  | Raise _ => []
  end.

Definition probe_command : bytes := command (lit "AT" ++ [CR]).
Definition hangup_command : bytes := command (lit "AT^NDISDUP=1,0" ++ [CR]).
Definition connect_command : bytes :=
  command (lit "AT^NDISDUP=1,1," ++ [DQUOTE] ++ carrier ++ [DQUOTE; CR]).
Definition dhcp_command : bytes := command (lit "AT^DHCP?" ++ [CR]).

(** Octets of an ASCII literal, and of a line ending. *)
Definition octets (s : string) : bytes := list_byte_of_string s.
Definition CRLF : bytes := [Byte.x0d; Byte.x0a].

(** The population count of a mask, octet by octet. *)
Definition mask_bits (a : Py.packed4) : nat :=
  let '(o0, o1, o2, o3) := a in
  popcount o0 + popcount o1 + popcount o2 + popcount o3.

(** The 32-bit word whose little-endian octets are [a]. *)
Definition word_of (a : Py.packed4) : N :=
  let '(o0, o1, o2, o3) := a in
  (o0 + 256 * o1 + 65536 * o2 + 16777216 * o3)%N.

(** The value of a sequence of hexadecimal digits, most significant first. *)
Fixpoint digits_value (acc : Z) (ds : list N) : Z :=
  match ds with
  | [] => acc
  | d :: ds' => digits_value (acc * 16 + Z.of_N d) ds'
  end.

Definition is_digit (c : char) : bool := ((48 <=? c) && (c <=? 57))%N.

(** [p] holds of every number below [n]. *)
Definition all_below (n : nat) (p : N -> bool) : bool :=
  forallb p (map N.of_nat (seq 0 n)).

(** The address of the default route in a route listing: what
    [GetGatewayInfo] reports as ['IpAddr']. *)
Definition default_gateway (routes : text) : option text :=
  match Py.find_after (lit "default") routes with
  | Some rest =>
      Some (Py.take_while is_digit_or_dot
              (Py.take_while (fun c => negb (c =? LF)%N)
                 (Py.drop_while (fun c => (c =? SPACE)%N) rest)))
  | None => None
  end.

(** [m] never changes the component [f] of the world, whether it returns
    or raises. *)
Definition preserves {T A} (f : World -> T) (m : M A) : Prop :=
  forall w, f (snd (m w)) = f w.

(** ** Scenarios *)

(** A fresh process: nothing done yet, and the environment scripted. *)
Definition scenario (opens : list bool) (reads : list bytes)
    (procs : list (bool * bytes)) : World :=
  mkWorld opens reads procs 0 [] [] [].

Definition reply (s : string) : bytes := CRLF ++ octets s ++ CRLF.

Definition dhcp_reply (payload : string) : bytes :=
  CRLF ++ octets payload ++ CRLF ++ CRLF ++ octets "OK" ++ CRLF.

Definition good_lease : string :=
  "^DHCP: 0100000A,00FFFFFF,0200000A,0200000A,08080808,04040808,100000000,50000000".

Definition ifconfig_output : bytes :=
  octets "wwan0: flags=4163  mtu 1500" ++ [Byte.x0a]
  ++ octets "        inet 10.0.0.9  netmask 255.255.255.0" ++ [Byte.x0a].

Definition route_output : bytes :=
  octets "default         10.0.0.254      0.0.0.0         UG    0      0        0 wwan0"
  ++ [Byte.x0a].

(** The serial port cannot be opened. *)
Definition no_port : World := scenario [false] [] [].

(** The port opens and the modem sends nothing. *)
Definition silent_modem : World := scenario [true] [] [].

(** An open session on which nothing arrives. *)
Definition silent_line : World := mkWorld [] [] [] 2 [] [] [].

(** The modem answers the probe and the connect, then reports a lease whose
    first address is not hexadecimal. *)
Definition garbled_lease : World :=
  scenario [true]
    [reply "OK"; reply "OK";
     dhcp_reply "^DHCP: 0100000G,00FFFFFF,0200000A,0200000A,08080808,04040808,100000000,50000000"]
    [].

(** The modem answers the probe, rejects the connect, and still reports the
    lease of a link that is up. *)
Definition connect_rejected : World :=
  scenario [true]
    [reply "OK"; reply "ERROR"; dhcp_reply good_lease]
    [(true, ifconfig_output); (true, route_output)].

(** The modem echoes the hangup command and confirms it only later. *)
Definition hangup_delayed : World :=
  mkWorld [] [octets "AT^NDISDUP=1,0" ++ [Byte.x0d]; reply "OK"] [] 2 [] [] [].

(** The modem rejects the hangup command. *)
Definition hangup_rejected : World :=
  scenario [true] [reply "ERROR"]
    [(true, ifconfig_output); (true, route_output)].

(** The lease that [good_lease] describes. *)
Definition sample_lease : Lease :=
  {| IpAddr := lit "10.0.0.1";
     Netmask := lit "255.255.255.0";
     Gateway := lit "10.0.0.2";
     DhcpServer := lit "10.0.0.2";
     DnsPrimary := lit "8.8.8.8";
     DnsSecondary := lit "8.8.4.4";
     RxMaxBps := lit "100000000";
     TxMaxBps := lit "50000000";
     NetmaskBits := 24 |}.

(** An open session on which nothing arrives within the first read of the
    hangup, and the confirmation arrives afterwards. *)
Definition hangup_unanswered : World :=
  mkWorld [] [[]; reply "OK"] [] 2 [] [] [].

(** The modem echoes the hangup command and then sends an octet that is not
    UTF-8. *)
Definition hangup_garbled : World :=
  mkWorld [] [octets "AT^NDISDUP=1,0" ++ [Byte.x0d]; [Byte.xff]] [] 2 [] [] [].

(** The port opens and the modem sends nothing, on a host whose interface
    and default route are up. *)
Definition disconnect_unanswered : World :=
  scenario [true] [] [(true, ifconfig_output); (true, route_output)].

(** The port cannot be opened, on a host whose interface and default route
    are up. *)
Definition disconnect_no_port : World :=
  scenario [false] [] [(true, ifconfig_output); (true, route_output)].

(** ** Vocabulary of the further properties *)

(** White space that [int()] strips. *)
Definition blank (pad : text) : Prop := forallb Py.Py_ISSPACE pad = true.

(** [pat] occurs in [s]. *)
Definition occurs (pat s : text) : Prop :=
  exists pre post, s = pre ++ pat ++ post.

(** What [GetGatewayInfo] reads in a route listing: the address and the
    device of the first line that mentions [default]. *)
Definition gateway_info (routes : text) : option GatewayInfo :=
  match Py.find_after (lit "default") routes with
  | Some rest =>
      let group1 :=
        Py.take_while (fun c => negb (c =? LF)%N)
          (Py.drop_while (fun c => (c =? SPACE)%N) rest) in
      Some (mkGatewayInfo (Py.take_while is_digit_or_dot group1)
              (after_last_space group1))
  | None => None
  end.

(** The outcome of the next program whose output is captured. *)
Definition next_outcome (w : World) : bool * bytes :=
  hd (false, []) (proc_script w).

(** [label] is followed by [x] in [s], as [GetIpAddr] and [GetIpMask] see
    it. *)
Definition shows (label s x : text) : bool :=
  match search_address label s with
  | Some a => text_eqb a x
  | None => false
  end.

(** The interface already has the address and the netmask of the lease. *)
Definition up_to_date (s : text) (lease : Lease) : bool :=
  shows (lit "inet ") s (IpAddr lease)
  && shows (lit "netmask ") s (Netmask lease).

(** The commands of the reconciler. *)
Definition flush_command (d : text) : OsEvent :=
  Shell (lit "/sbin/ip addr flush dev " ++ d).

Definition add_address_command (d : text) (lease : Lease) : OsEvent :=
  Shell (lit "/sbin/ip address add " ++ IpAddr lease ++ lit "/"
         ++ Py.str_of_N (N.of_nat (NetmaskBits lease)) ++ lit " dev " ++ d).

Definition route_query (d : text) : list OsEvent :=
  [Spawn [lit "/sbin/route"]; Spawn [lit "/bin/grep"; lit " " ++ d ++ lit "$"]].

Definition delete_route_command (gw d : text) : OsEvent :=
  Shell (lit "/sbin/route delete default gw " ++ gw ++ lit " " ++ d).

Definition add_route_command (gw : text) : OsEvent :=
  Shell (lit "/sbin/ip route add default via " ++ gw).

(** What [UpdateInterfaceIpAddress] issues after its query, given what
    [ifconfig] printed. *)
Definition address_commands (d s : text) (lease : Lease) : list OsEvent :=
  if up_to_date s lease then []
  else [flush_command d; add_address_command d lease].

(** What [SetGateway] issues after its query, given the route listing. *)
Definition gateway_commands (gateway s : text) : list OsEvent :=
  match gateway_info s with
  | Some cur =>
      if text_eqb (gw_IpAddr cur) gateway then []
      else [delete_route_command (gw_IpAddr cur) (gw_Device cur);
            add_route_command gateway]
  | None => [add_route_command gateway]
  end.

(** Whether [ModemHangup] goes on to its delayed read, given the first
    read. *)
Definition awaits_completion (first : bytes) : bool :=
  match heard first with
  | Some s =>
      negb (Py.re_search (lit "OK") s) && negb (Py.re_search (lit "ERROR") s)
  | None => false
  end.

(** What a search for [label] followed by digits and dots finds in [s]:
    the run that follows the leftmost occurrence of [label], or nothing when
    [label] does not occur. *)
Definition found_after (label s : text) (o : option text) : Prop :=
  match o with
  | Some a =>
      exists pre post,
        s = pre ++ label ++ a ++ post
        /\ forallb is_digit_or_dot a = true
        /\ match post with
           | c :: _ => is_digit_or_dot c = false
           | [] => True
           end
        /\ forall pre' post', s = pre' ++ label ++ post' ->
                              List.length pre <= List.length pre'
  | None => ~ occurs label s
  end.

(** What [AddDns] starts. *)
Definition add_dns_commands (dns d : text) : list OsEvent :=
  [Spawn [lit "/bin/echo"; lit "nameserver " ++ dns];
   Spawn [lit "/sbin/resolvconf"; lit "-a"; d ++ lit ".modem"]].

(** The modem answers the probe, accepts the connect and reports a lease. *)
Definition connect_accepted : World :=
  scenario [true]
    [reply "OK"; reply "OK"; dhcp_reply good_lease]
    [(true, ifconfig_output); (true, route_output)].

(** An open session on which the hangup is confirmed at once. *)
Definition hangup_confirmed : World :=
  mkWorld [] [reply "OK"] [] 2 [] [] [].

(** The next program to run lists a default route through the modem. *)
Definition route_listed : World := scenario [] [] [(true, route_output)].

(** The text that octets carry when they are UTF-8. *)
Definition text_of (data : bytes) : text :=
  match Py.decode data with
  | Ret s => s
  | Raise _ => []
  end.

(** The eight fields of [good_lease]. *)
Definition lease_fields : list text :=
  [lit "0100000A"; lit "00FFFFFF"; lit "0200000A"; lit "0200000A";
   lit "08080808"; lit "04040808"; lit "100000000"; lit "50000000"].

(** * Proofs *)

Local Open Scope result_scope.
Local Open Scope monad_scope.

(** * The lease parser *)

(** ** Facts about the Python built-ins *)

Section Splitting.

Variable sep : char.

Lemma split_field f rest :
  ~ In sep f -> Py.split sep (f ++ sep :: rest) = f :: Py.split sep rest.
Proof.
  induction f as [|c f IH]; simpl; intros Hf.
  - now rewrite N.eqb_refl.
  - destruct (N.eqb_spec c sep) as [->|_]; [tauto|].
    rewrite IH by tauto. reflexivity.
Qed.

Lemma split_last f : ~ In sep f -> Py.split sep f = [f].
Proof.
  induction f as [|c f IH]; simpl; intros Hf; [reflexivity|].
  destruct (N.eqb_spec c sep) as [->|_]; [tauto|].
  rewrite IH by tauto. reflexivity.
Qed.

Lemma split_join fields :
  fields <> [] -> Forall (fun f => ~ In sep f) fields ->
  Py.split sep (join sep fields) = fields.
Proof.
  induction fields as [|f fs IH]; [congruence|]. intros _ Hall.
  inversion Hall as [|? ? Hf Hfs]; subst.
  destruct fs as [|g fs].
  - simpl. now apply split_last.
  - change (join sep (f :: g :: fs)) with (f ++ sep :: join sep (g :: fs)).
    rewrite split_field by assumption. f_equal. apply IH; [discriminate|assumption].
Qed.

Lemma split1_field f rest :
  ~ In sep f -> Py.split1 sep (f ++ sep :: rest) = [f; rest].
Proof.
  induction f as [|c f IH]; simpl; intros Hf.
  - now rewrite N.eqb_refl.
  - destruct (N.eqb_spec c sep) as [->|_]; [tauto|].
    rewrite IH by tauto. reflexivity.
Qed.

End Splitting.

(** Decimal numerals. *)

Lemma uint_text_digits u : forallb is_digit (Py.uint_text u) = true.
Proof. induction u; simpl; auto. Qed.

Lemma str_of_N_no_dot n : ~ In 46%N (Py.str_of_N n).
Proof.
  unfold Py.str_of_N. intros Hin.
  pose proof (uint_text_digits (N.to_uint n)) as H.
  rewrite forallb_forall in H. apply H in Hin. discriminate.
Qed.

(** Bounded quantification over octets, by enumeration. *)

Lemma all_below_spec n p :
  all_below n p = true -> forall x, (x < N.of_nat n)%N -> p x = true.
Proof.
  unfold all_below. rewrite forallb_forall. intros H x Hx.
  apply H. apply in_map_iff. exists (N.to_nat x). split; [apply N2Nat.id|].
  apply in_seq. lia.
Qed.

Lemma ones_octet o :
  (o < 256)%N -> ones (Py.str_of_N o) = Ret (popcount o).
Proof.
  intros Ho.
  pose proof (@all_below_spec 256
    (fun o => match ones (Py.str_of_N o) with
              | Ret n => Nat.eqb n (popcount o)
              | Raise _ => false
              end)) as H.
  specialize (H ltac:(vm_compute; reflexivity) o Ho). cbv beta in H.
  destruct (ones (Py.str_of_N o)); [|discriminate].
  apply Nat.eqb_eq in H. now subst.
Qed.

Lemma netmaskbits_dotted a b c d :
  (a < 256)%N -> (b < 256)%N -> (c < 256)%N -> (d < 256)%N ->
  rmap ones (Py.split 46%N (Py.inet_ntoa (a, b, c, d)))
  = Ret [popcount a; popcount b; popcount c; popcount d].
Proof.
  intros Ha Hb Hc Hd. unfold Py.inet_ntoa.
  rewrite !split_field, split_last by apply str_of_N_no_dot.
  simpl. rewrite !ones_octet by assumption. reflexivity.
Qed.

(** Hexadecimal numerals. *)

Lemma hex_digit_props lower d :
  (d < 16)%N ->
  let c := hex_digit lower d in
  Py.digit_val c = Some d /\ (c <? 128)%N = true /\ Py.Py_ISSPACE c = false
  /\ (c =? 43)%N = false /\ (c =? 45)%N = false /\ (c =? 95)%N = false
  /\ (c =? 120)%N = false /\ (c =? 88)%N = false /\ (c =? 44)%N = false.
Proof.
  intros Hd.
  assert (H : (let c := hex_digit lower d in
       match Py.digit_val c with Some d' => (d' =? d)%N | None => false end
       && (c <? 128)%N && negb (Py.Py_ISSPACE c)
       && negb (c =? 43)%N && negb (c =? 45)%N && negb (c =? 95)%N
       && negb (c =? 120)%N && negb (c =? 88)%N && negb (c =? 44)%N) = true).
  { revert d Hd. apply (@all_below_spec 16).
    destruct lower; vm_compute; reflexivity. }
  cbv zeta in *. repeat rewrite andb_true_iff in H.
  repeat rewrite negb_true_iff in H.
  destruct H as [[[[[[[[H1 H2] H3] H4] H5] H6] H7] H8] H9].
  destruct (Py.digit_val (hex_digit lower d)) as [d'|]; [|discriminate].
  apply N.eqb_eq in H1. subst. tauto.
Qed.

Lemma scan_hex_digits lower ds : forall acc n,
  Forall (fun d => (d < 16)%N) ds ->
  Py.scan_digits 16 false acc n (map (hex_digit lower) ds)
  = Some (digits_value acc ds, n + List.length ds, []).
Proof.
  induction ds as [|d ds IH]; intros acc n Hall; simpl.
  - now rewrite Nat.add_0_r.
  - inversion Hall as [|? ? Hd Hds]; subst.
    destruct (hex_digit_props lower Hd) as (Hv & _ & _ & _ & _ & Hus & _).
    rewrite Hus, Hv. apply N.ltb_lt in Hd. rewrite Hd.
    rewrite IH by assumption. now rewrite Nat.add_succ_r.
Qed.

Lemma int_hex_digits lower d ds :
  Forall (fun d => (d < 16)%N) (d :: ds) ->
  Py.int 16 (map (hex_digit lower) (d :: ds))
  = Ret (digits_value 0 (d :: ds)).
Proof.
  intros Hall.
  assert (Hascii : forallb (fun c => (c <? 128)%N)
                     (map (hex_digit lower) (d :: ds)) = true).
  { rewrite forallb_forall. intros c Hc.
    apply in_map_iff in Hc as (x & <- & Hx).
    rewrite Forall_forall in Hall. apply (hex_digit_props lower (Hall x Hx)). }
  unfold Py.int, Py.TransformDecimalAndSpaceToASCII. rewrite Hascii.
  unfold Py.PyLong_FromString.
  inversion Hall as [|? ? Hd Hds]; subst.
  destruct (hex_digit_props lower Hd)
    as (_ & _ & Hsp & Hplus & Hminus & Hus & _).
  cbn [map Py.drop_while]. rewrite Hsp, Hplus, Hminus.
  cbv beta iota zeta.
  match goal with
  | |- context [Py.scan_digits 16 false 0%Z 0 ?s3] =>
      assert (Hs3 : s3 = map (hex_digit lower) (d :: ds))
  end.
  { (* no [0x] prefix: the second character is a digit *)
    destruct ds as [|e ds]; [reflexivity|]. cbn [map].
    inversion Hds as [|? ? He _]; subst.
    destruct (hex_digit_props lower He)
      as (_ & _ & _ & _ & _ & _ & Hx & HX & _).
    rewrite Hx, HX. now rewrite andb_false_r. }
  rewrite Hs3. cbn [map Py.starts_with].
  rewrite (N.eqb_sym 95 (hex_digit lower d)), Hus. cbn [andb].
  change (hex_digit lower d :: map (hex_digit lower) ds)
    with (map (hex_digit lower) (d :: ds)).
  rewrite scan_hex_digits by assumption. reflexivity.
Qed.

(** Packing and unpacking a 32-bit word. *)

Lemma low_octet n : N.land n 255 = (n mod 256)%N.
Proof. change 255%N with (N.ones 8). now rewrite N.land_ones. Qed.

Lemma struct_pack_word a :
  ipv4 a -> Py.struct_pack_L (Z.of_N (word_of a)) = Ret a.
Proof.
  destruct a as [[[o0 o1] o2] o3]. unfold ipv4, word_of, Py.struct_pack_L.
  intros (H0 & H1 & H2 & H3).
  replace ((0 <=? _)%Z && _) with true
    by (symmetry; apply andb_true_iff; split; apply Z.leb_le; lia).
  rewrite N2Z.id, !low_octet, !N.shiftr_div_pow2.
  change (2 ^ 8)%N with 256%N. change (2 ^ 16)%N with 65536%N.
  change (2 ^ 24)%N with 16777216%N.
  set (n := (o0 + 256 * o1 + 65536 * o2 + 16777216 * o3)%N).
  assert (E0 : (n mod 256 = o0)%N)
    by (symmetry; apply (N.mod_unique _ 256 (o1 + 256 * o2 + 65536 * o3)); lia).
  assert (E1 : ((n / 256) mod 256 = o1)%N).
  { rewrite <- (N.div_unique n 256 (o1 + 256 * o2 + 65536 * o3) o0) by lia.
    symmetry; apply (N.mod_unique _ 256 (o2 + 256 * o3)); lia. }
  assert (E2 : ((n / 65536) mod 256 = o2)%N).
  { rewrite <- (N.div_unique n 65536 (o2 + 256 * o3) (o0 + 256 * o1)) by lia.
    symmetry; apply (N.mod_unique _ 256 o3); lia. }
  assert (E3 : ((n / 16777216) mod 256 = o3)%N).
  { rewrite <- (N.div_unique n 16777216 o3 (o0 + 256 * o1 + 65536 * o2)) by lia.
    apply N.mod_small; lia. }
  now rewrite E0, E1, E2, E3.
Qed.

Lemma struct_pack_octets v p :
  Py.struct_pack_L v = Ret p -> ipv4 p.
Proof.
  unfold Py.struct_pack_L. destruct ((0 <=? v)%Z && _); [|discriminate].
  intros H.
  assert (Hp : match Ret p with Ret q => q | Raise _ => p end = p) by reflexivity.
  rewrite <- H in Hp. cbv beta iota zeta in Hp. subst p. clear H.
  unfold ipv4. rewrite !low_octet.
  repeat split; apply N.mod_lt; discriminate.
Qed.

Lemma hex_octet_value o acc :
  (o < 256)%N ->
  digits_value acc [(o / 16)%N; (o mod 16)%N] = (acc * 256 + Z.of_N o)%Z.
Proof.
  intros Ho. simpl.
  pose proof (N.div_mod o 16 ltac:(discriminate)). lia.
Qed.

Lemma digits_value_app ds es : forall acc,
  digits_value acc (ds ++ es) = digits_value (digits_value acc ds) es.
Proof. induction ds as [|d ds IH]; intros acc; simpl; [reflexivity|apply IH]. Qed.

Lemma inet_ntoa_dotted a : Py.inet_ntoa a = dotted_decimal a.
Proof. destruct a as [[[o0 o1] o2] o3]. reflexivity. Qed.

Lemma decode_little_endian_hex lower a :
  ipv4 a ->
  decode_address (little_endian_hex lower a) = Ret (dotted_decimal a).
Proof.
  intros Ha. pose proof Ha as Hp. destruct a as [[[o0 o1] o2] o3].
  destruct Ha as (H0 & H1 & H2 & H3).
  unfold decode_address, little_endian_hex, hex_octet. cbn [app].
  change [hex_digit lower (o3 / 16); hex_digit lower (o3 mod 16);
          hex_digit lower (o2 / 16); hex_digit lower (o2 mod 16);
          hex_digit lower (o1 / 16); hex_digit lower (o1 mod 16);
          hex_digit lower (o0 / 16); hex_digit lower (o0 mod 16)]%N
    with (map (hex_digit lower)
            [o3 / 16; o3 mod 16; o2 / 16; o2 mod 16;
             o1 / 16; o1 mod 16; o0 / 16; o0 mod 16]%N).
  rewrite int_hex_digits.
  2:{ repeat constructor;
        first [ apply N.mod_lt; discriminate
              | apply N.Div0.div_lt_upper_bound; lia ]. }
  cbn [rbind].
  replace (digits_value 0 _) with (Z.of_N (word_of (o0, o1, o2, o3))).
  2:{ change [o3 / 16; o3 mod 16; o2 / 16; o2 mod 16;
              o1 / 16; o1 mod 16; o0 / 16; o0 mod 16]%N
        with ([o3 / 16; o3 mod 16] ++ [o2 / 16; o2 mod 16]
              ++ [o1 / 16; o1 mod 16] ++ [o0 / 16; o0 mod 16])%N.
      rewrite !digits_value_app, !hex_octet_value by assumption.
      unfold word_of. lia. }
  rewrite struct_pack_word by assumption. cbn [rbind].
  now rewrite inet_ntoa_dotted.
Qed.

Lemma little_endian_hex_no_comma lower a :
  ipv4 a -> ~ In 44%N (little_endian_hex lower a).
Proof.
  destruct a as [[[o0 o1] o2] o3]. intros (H0 & H1 & H2 & H3).
  unfold little_endian_hex, hex_octet. cbn [app In].
  assert (Hc : forall d, (d < 16)%N -> hex_digit lower d <> 44%N).
  { intros d Hd E.
    destruct (hex_digit_props lower Hd) as (_&_&_&_&_&_&_&_&H).
    rewrite E in H. discriminate. }
  assert (Hq : forall o, (o < 256)%N -> (o / 16 < 16)%N)
    by (intros; apply N.Div0.div_lt_upper_bound; lia).
  assert (Hr : forall o, (o mod 16 < 16)%N)
    by (intros; apply N.mod_lt; discriminate).
  intros [E|[E|[E|[E|[E|[E|[E|[E|[]]]]]]]]]; revert E; apply Hc; auto.
Qed.

Lemma decode_address_ipv4 f ip :
  decode_address f = Ret ip -> exists p, ipv4 p /\ ip = Py.inet_ntoa p.
Proof.
  unfold decode_address.
  destruct (Py.int 16 f) as [v|]; [|discriminate]. cbn [rbind].
  destruct (Py.struct_pack_L v) as [p|] eqn:Ep; [|discriminate]. cbn [rbind].
  intros H. exists p. split; [eapply struct_pack_octets; eassumption|].
  congruence.
Qed.

Lemma netmaskbits_inet_ntoa p :
  ipv4 p ->
  rmap ones (Py.split 46%N (Py.inet_ntoa p))
  = Ret [popcount (fst (fst (fst p))); popcount (snd (fst (fst p)));
         popcount (snd (fst p)); popcount (snd p)].
Proof.
  destruct p as [[[a b] c] d]. intros (Ha & Hb & Hc & Hd).
  now apply netmaskbits_dotted.
Qed.

(** C7.  For every IPv4 address, the hexadecimal text of its little-endian
    32-bit word, in upper or in lower case, decodes, by [int(..., base=16)], [struct.pack("<L", ...)] and
    [socket.inet_ntoa], to the dotted-decimal text of that address.  A status
    line whose first six comma-separated fields are such encodings yields a
    lease whose address, netmask, gateway, DHCP server, primary DNS and
    secondary DNS are the six addresses, in that order; the seventh field is
    the receive rate and the first token of the eighth the transmit rate. *)
Theorem lease_addresses_round_trip :
  (forall lower a, ipv4 a ->
     decode_address (little_endian_hex lower a) = Ret (dotted_decimal a))
  /\
  (forall lower label a0 a1 a2 a3 a4 a5 rx f7 more tx toks,
     ipv4 a0 -> ipv4 a1 -> ipv4 a2 -> ipv4 a3 -> ipv4 a4 -> ipv4 a5 ->
     ~ In 58%N label ->
     Forall (fun f => ~ In 44%N f) (rx :: f7 :: more) ->
     Py.split_ws f7 = tx :: toks ->
     DhcpParse
       (label ++ lit ":"
        ++ join 44%N (map (little_endian_hex lower) [a0; a1; a2; a3; a4; a5]
                      ++ rx :: f7 :: more))
     = Ret (Some {| IpAddr := dotted_decimal a0;
                    Netmask := dotted_decimal a1;
                    Gateway := dotted_decimal a2;
                    DhcpServer := dotted_decimal a3;
                    DnsPrimary := dotted_decimal a4;
                    DnsSecondary := dotted_decimal a5;
                    RxMaxBps := rx;
                    TxMaxBps := tx;
                    NetmaskBits := mask_bits a1 |})).
Proof.
  split; [exact decode_little_endian_hex|].
  intros lower label a0 a1 a2 a3 a4 a5 rx f7 more tx toks
    H0 H1 H2 H3 H4 H5 Hlabel Hrest Htx.
  unfold DhcpParse. change (lit ":") with [58%N]. cbn [app].
  rewrite split1_field by assumption.
  rewrite split_join.
  2:{ discriminate. }
  2:{ cbn [map app]. repeat (constructor; [now apply little_endian_hex_no_comma|]).
      assumption. }
  cbn [map app List.length Nat.leb firstn rmap nth].
  rewrite !decode_little_endian_hex by assumption. cbn [rbind nth].
  destruct a1 as [[[m0 m1] m2] m3].
  change (dotted_decimal (m0, m1, m2, m3)) with (Py.inet_ntoa (m0, m1, m2, m3)).
  rewrite netmaskbits_inet_ntoa by assumption.
  cbn [rbind]. rewrite Htx. cbn [fst snd list_sum mask_bits].
  replace (list_sum [popcount m0; popcount m1; popcount m2; popcount m3])
    with (popcount m0 + popcount m1 + popcount m2 + popcount m3)
    by (unfold list_sum; cbn [fold_right]; lia).
  reflexivity.
Qed.

Lemma lease_addresses_round_trip_witness :
  (ipv4 (10, 0, 0, 1)%N /\ ipv4 (255, 255, 255, 0)%N /\ ipv4 (10, 0, 0, 2)%N
   /\ ipv4 (8, 8, 8, 8)%N /\ ipv4 (8, 8, 4, 4)%N
   /\ ~ In 58%N (lit "^DHCP")
   /\ Forall (fun f => ~ In 44%N f) [lit "100000000"; lit "50000000"]
   /\ Py.split_ws (lit "50000000") = [lit "50000000"])
  /\ DhcpParse (lit "^DHCP:0100000A,00FFFFFF,0200000A,0200000A,08080808,04040808,100000000,50000000")
     = Ret (Some sample_lease).
Proof.
  assert (Hlabel : ~ In 58%N (lit "^DHCP"))
    by (vm_compute; intuition discriminate).
  assert (Hrest : Forall (fun f => ~ In 44%N f)
                    [lit "100000000"; lit "50000000"])
    by (repeat constructor; vm_compute; intuition discriminate).
  assert (I1 : ipv4 (10, 0, 0, 1)%N) by (repeat split; reflexivity).
  assert (I2 : ipv4 (255, 255, 255, 0)%N) by (repeat split; reflexivity).
  assert (I3 : ipv4 (10, 0, 0, 2)%N) by (repeat split; reflexivity).
  assert (I4 : ipv4 (8, 8, 8, 8)%N) by (repeat split; reflexivity).
  assert (I5 : ipv4 (8, 8, 4, 4)%N) by (repeat split; reflexivity).
  split; [repeat split; try assumption; reflexivity|].
  exact (proj2 lease_addresses_round_trip false (lit "^DHCP")
           (10, 0, 0, 1)%N (255, 255, 255, 0)%N (10, 0, 0, 2)%N
           (10, 0, 0, 2)%N (8, 8, 8, 8)%N (8, 8, 4, 4)%N
           (lit "100000000") (lit "50000000") [] (lit "50000000") []
           I1 I2 I3 I3 I4 I5 Hlabel Hrest eq_refl).
Defined.

Lemma rmap_cons_inv A B (f : A -> Result B) a l bs :
  rmap f (a :: l) = Ret bs ->
  exists b bs', f a = Ret b /\ rmap f l = Ret bs' /\ bs = b :: bs'.
Proof.
  cbn [rmap]. destruct (f a) as [b|]; [|discriminate]. cbn [rbind].
  destruct (rmap f l) as [bs'|]; [|discriminate]. cbn [rbind].
  intros [= <-]. eauto.
Qed.

(** C6.  Whenever [DhcpParse] returns a lease, its netmask is the
    dotted-decimal text of four octets and [NetmaskBits] is the number of
    bits set in those octets.  For the mask 255.255.255.0 it is 24; for the
    mask 255.0.255.0, whose contiguous prefix has length 8, it is 16. *)
Theorem netmaskbits_is_population_count :
  (forall dhcp lease,
     DhcpParse dhcp = Ret (Some lease) ->
     exists m, ipv4 m /\ Netmask lease = dotted_decimal m
               /\ NetmaskBits lease = mask_bits m)
  /\ (exists lease,
        DhcpParse (lit "^DHCP:0100000A,00FFFFFF,0200000A,0200000A,08080808,04040808,100000000,50000000")
        = Ret (Some lease)
        /\ Netmask lease = lit "255.255.255.0" /\ NetmaskBits lease = 24)
  /\ (exists lease,
        DhcpParse (lit "^DHCP:0100000A,00FF00FF,0200000A,0200000A,08080808,04040808,100000000,50000000")
        = Ret (Some lease)
        /\ Netmask lease = lit "255.0.255.0" /\ NetmaskBits lease = 16
        /\ prefix_length (255, 0, 255, 0)%N = 8).
Proof.
  split; [|split; eexists; repeat split; vm_compute; reflexivity].
  intros dhcp lease. unfold DhcpParse.
  destruct (Py.split1 58%N dhcp) as [|label [|payload [|? ?]]]; try discriminate.
  generalize (Py.split 44%N payload). intros fa.
  destruct (Nat.leb 8 (List.length fa)) eqn:Hlen; [|discriminate].
  apply Nat.leb_le in Hlen.
  destruct fa as [|f0 [|f1 fa']]; cbn [List.length] in Hlen; try lia.
  change (firstn 6 (f0 :: f1 :: fa')) with (f0 :: f1 :: firstn 4 fa').
  destruct (rmap decode_address (f0 :: f1 :: firstn 4 fa')) as [ips|] eqn:Eips;
    [|cbn [rbind]; discriminate].
  apply rmap_cons_inv in Eips as (i0 & ips0 & _ & Eips & ->).
  apply rmap_cons_inv in Eips as (i1 & ips1 & E1 & _ & ->).
  apply decode_address_ipv4 in E1 as (m & Hm & ->).
  cbn [rbind nth]. rewrite netmaskbits_inet_ntoa by assumption. cbn [rbind].
  cbv zeta. cbn [nth].
  destruct (Py.split_ws _) as [|tx toks]; [discriminate|].
  intros H. exists m.
  assert (Hl : match Ret (Some lease) with Ret (Some l) => l | _ => lease end = lease)
    by reflexivity.
  rewrite <- H in Hl. cbv beta iota in Hl. subst lease. cbn [Netmask NetmaskBits].
  split; [assumption|]. split; [apply inet_ntoa_dotted|].
  destruct m as [[[m0 m1] m2] m3]. cbn [fst snd mask_bits]. unfold list_sum; cbn [fold_right]; lia.
Qed.

Lemma netmaskbits_is_population_count_witness :
  DhcpParse (lit "^DHCP:0100000A,00FFFFFF,0200000A,0200000A,08080808,04040808,100000000,50000000")
  = Ret (Some sample_lease)
  /\ exists m, ipv4 m /\ Netmask sample_lease = dotted_decimal m
               /\ NetmaskBits sample_lease = mask_bits m.
Proof.
  assert (H : DhcpParse (lit "^DHCP:0100000A,00FFFFFF,0200000A,0200000A,08080808,04040808,100000000,50000000")
              = Ret (Some sample_lease)) by (vm_compute; reflexivity).
  split; [exact H|].
  exact (proj1 netmaskbits_is_population_count _ _ H).
Defined.

(** ** The lease parser on malformed fields *)

(** C1 (evaluation at the failing inputs).  [DhcpParse] is not total: it
    raises [ValueError] when an address field is not hexadecimal,
    [struct.error] when an address field is wider than 32 bits, and
    [IndexError] when the eighth field holds nothing but white space,
    instead of returning [None]. *)
Theorem lease_parser_raises_on_malformed_fields :
  DhcpParse (lit "^DHCP: 0100000G,00FFFFFF,0200000A,0200000A,08080808,04040808,100000000,50000000")
  = Raise ValueError
  /\ DhcpParse (lit "^DHCP: 10100000A,00FFFFFF,0200000A,0200000A,08080808,04040808,100000000,50000000")
     = Raise StructError
  /\ DhcpParse (lit "^DHCP: 0100000A,00FFFFFF,0200000A,0200000A,08080808,04040808,100000000, ")
     = Raise IndexError
  /\ DhcpParse (lit "^DHCP: 0100000A,00FFFFFF,0200000A,0200000A,08080808,04040808,100000000,")
     = Raise IndexError.
Proof. repeat split; vm_compute; reflexivity. Qed.

(** * The session protocol *)

(** ** Running a computation on a given world *)

Lemma encode_hangup :
  Py.encode (lit "AT^NDISDUP=1,0" ++ [CR]) = Ret hangup_command.
Proof. vm_compute. reflexivity. Qed.

(** Unfold the monad and the primitive operations, once the world is a
    record: what remains are the tests of the source on its inputs. *)
Ltac exec :=
  cbv beta iota zeta delta
    [bind ret raise lift when ser_write ser_read attr log_serial log_os emit
     print decode_if_any load get_timeout set_timeout
     fst snd
     open_script read_script proc_script ser_timeout ser_log os_log stdout].

Lemma heard_some data s :
  heard data = Some s -> data <> [] /\ Py.decode data = Ret s.
Proof.
  unfold heard. destruct data as [|b data]; [discriminate|].
  destruct (Py.decode (b :: data)); [|discriminate].
  intros [= ->]. split; [discriminate|reflexivity].
Qed.

(** Run as far as the known facts allow. *)
Ltac crunch :=
  repeat first
    [ progress exec
    | progress cbn [negb hd tl]
    | match goal with
      | H : ?x = _ |- context [?x] => rewrite H
      end ].

Lemma snoc2 A (l : list A) a b : (l ++ [a]) ++ [b] = l ++ [a; b].
Proof. now rewrite <- app_assoc. Qed.

Lemma snoc3 A (l : list A) a b c : ((l ++ [a]) ++ [b]) ++ [c] = l ++ [a; b; c].
Proof. now rewrite <- !app_assoc. Qed.

(** ** Hangup *)

(** The delayed-completion path, for a first read that delivers text.  When
    that text holds neither [OK] nor [ERROR], [ModemHangup] writes nothing
    more and reads exactly once more, up to 10 octets under a time-out of 20
    seconds.  It returns [True] exactly when that delayed read holds [OK];
    when the delayed read is empty or holds no [OK] it returns [False]. *)
Theorem hangup_delayed_completion verbose w s1 :
  let first := firstn 20 (hd [] (read_script w)) in
  let delayed := firstn 10 (hd [] (tl (read_script w))) in
  heard first = Some s1 ->
  Py.re_search (lit "OK") s1 = false ->
  Py.re_search (lit "ERROR") s1 = false ->
  let '(result, w') := ModemHangup verbose (Some SerialPort) w in
  ser_log w' = ser_log w ++ [SerWrite hangup_command;
                             SerRead 20 (ser_timeout w) first;
                             SerRead 10 20 delayed]
  /\ read_script w' = tl (tl (read_script w))
  /\ (result = Ret true <->
      exists s2, heard delayed = Some s2 /\ Py.re_search (lit "OK") s2 = true)
  /\ (delayed = []
      \/ (exists s2, heard delayed = Some s2
                     /\ Py.re_search (lit "OK") s2 = false) ->
      result = Ret false).
Proof.
  cbv zeta. intros Hheard Hok Herr.
  apply heard_some in Hheard as [Hne Hdec].
  destruct w as [os rs ps t sl ol so]. cbn [read_script] in *.
  unfold ModemHangup. rewrite encode_hangup.
  destruct (firstn 20 (hd [] rs)) as [|b1 d1] eqn:E1; [congruence|].
  destruct (2 <=? verbose) eqn:V2; destruct (1 <=? verbose) eqn:V1;
    (destruct (firstn 10 (hd [] (tl rs))) as [|b2 d2] eqn:E2;
     [ (* nothing arrived: [s] keeps the first response *)
       unfold heard; crunch
     | destruct (Py.decode (b2 :: d2)) as [s2|e] eqn:D2;
       [ destruct (Py.re_search (lit "OK") s2) eqn:Ok2 | ];
       unfold heard; crunch ]);
    rewrite snoc3;
    (split; [reflexivity|]; split; [reflexivity|]; split;
     [ split; [ try discriminate; intros _; eauto
              | intros (s & Hs & Hs'); congruence ]
     | try reflexivity; intros [?|(s & Hs & Hs')]; congruence ]).
Qed.

Lemma hangup_delayed_completion_witness :
  let w := hangup_delayed in
  let first := firstn 20 (hd [] (read_script w)) in
  let delayed := firstn 10 (hd [] (tl (read_script w))) in
  let s1 := lit "AT^NDISDUP=1,0" ++ [CR] in
  (heard first = Some s1
   /\ Py.re_search (lit "OK") s1 = false
   /\ Py.re_search (lit "ERROR") s1 = false)
  /\ let '(result, w') := ModemHangup 0 (Some SerialPort) w in
     ser_log w' = ser_log w ++ [SerWrite hangup_command;
                                SerRead 20 (ser_timeout w) first;
                                SerRead 10 20 delayed]
     /\ read_script w' = tl (tl (read_script w))
     /\ (result = Ret true <->
         exists s2, heard delayed = Some s2
                    /\ Py.re_search (lit "OK") s2 = true)
     /\ (delayed = []
         \/ (exists s2, heard delayed = Some s2
                        /\ Py.re_search (lit "OK") s2 = false) ->
         result = Ret false).
Proof.
  cbv zeta. split; [repeat split; vm_compute; reflexivity|].
  apply (@hangup_delayed_completion 0 hangup_delayed
           (lit "AT^NDISDUP=1,0" ++ [CR]));
    vm_compute; reflexivity.
Defined.

(** C2 (evaluation at the failing inputs).  A first response with neither
    [OK] nor [ERROR] does not always lead to the delayed read and to a
    result.  When the first read delivers nothing, [s] was never bound:
    [ModemHangup] raises [UnboundLocalError] after the one read of 20 octets,
    and the confirmation that arrives afterwards is never read.  When the
    first read is the echo of the command and the delayed read is not UTF-8,
    [ModemHangup] raises [UnicodeDecodeError] instead of returning [False],
    and the time-out stays at 20.  Both hold at every verbosity. *)
Theorem hangup_delayed_read_not_reached_or_raises :
  forall verbose,
    (let '(result, w') :=
       ModemHangup verbose (Some SerialPort) hangup_unanswered in
     result = Raise UnboundLocalError
     /\ ser_log w' = [SerWrite hangup_command; SerRead 20 2 []]
     /\ read_script w' = [reply "OK"])
    /\ (let '(result, w') :=
          ModemHangup verbose (Some SerialPort) hangup_garbled in
        result = Raise UnicodeDecodeError
        /\ ser_log w' = [SerWrite hangup_command;
                         SerRead 20 2 (octets "AT^NDISDUP=1,0" ++ [Byte.x0d]);
                         SerRead 10 20 [Byte.xff]]
        /\ ser_timeout w' = 20%Z).
Proof.
  intros verbose.
  destruct verbose as [|[|v]]; vm_compute; repeat split; reflexivity.
Qed.

(** C3.  When the first response to the hangup command holds [ERROR] and no
    [OK], [ModemHangup] returns [False] at once: the command is written, one
    read of up to 20 octets is made, and no second read follows. *)
Theorem hangup_fast_fail verbose w s1 :
  let data := firstn 20 (hd [] (read_script w)) in
  Py.decode data = Ret s1 ->
  Py.re_search (lit "ERROR") s1 = true ->
  Py.re_search (lit "OK") s1 = false ->
  let '(result, w') := ModemHangup verbose (Some SerialPort) w in
  result = Ret false
  /\ ser_log w' = ser_log w ++ [SerWrite hangup_command;
                                SerRead 20 (ser_timeout w) data]
  /\ read_script w' = tl (read_script w)
  /\ ser_timeout w' = ser_timeout w.
Proof.
  cbv zeta. intros Hdec Herr Hok.
  destruct w as [os rs ps t sl ol so]. cbn [read_script hd] in Hdec.
  unfold ModemHangup. rewrite encode_hangup.
  destruct (firstn 20 (hd [] rs)) as [|b1 d1] eqn:E1.
  { (* an empty read decodes to the empty text, which holds no token *)
    change (Py.decode []) with (@Ret text []) in Hdec.
    assert (s1 = []) by congruence. subst s1. discriminate. }
  destruct (2 <=? verbose) eqn:V2; destruct (1 <=? verbose) eqn:V1;
    crunch; rewrite snoc2; repeat split.
Qed.

Lemma hangup_fast_fail_witness :
  let w := hangup_rejected in
  let s1 := [CR; LF] ++ lit "ERROR" ++ [CR; LF] in
  (Py.decode (firstn 20 (hd [] (read_script w))) = Ret s1
   /\ Py.re_search (lit "ERROR") s1 = true
   /\ Py.re_search (lit "OK") s1 = false)
  /\ let '(result, w') := ModemHangup 0 (Some SerialPort) w in
     result = Ret false
     /\ ser_log w' = ser_log w
                     ++ [SerWrite hangup_command;
                         SerRead 20 (ser_timeout w)
                           (firstn 20 (hd [] (read_script w)))]
     /\ read_script w' = tl (read_script w)
     /\ ser_timeout w' = ser_timeout w.
Proof.
  cbv zeta. split; [repeat split; vm_compute; reflexivity|].
  apply (@hangup_fast_fail 0 hangup_rejected
           ([CR; LF] ++ lit "ERROR" ++ [CR; LF]));
    vm_compute; reflexivity.
Defined.

(** C10.  Whenever [ModemHangup] returns, the time-out of the session is
    what it was before the call: the 20 seconds set for the delayed read are
    replaced by the saved value before the function returns. *)
Theorem hangup_restores_timeout verbose ser w result w' :
  ModemHangup verbose ser w = (Ret result, w') ->
  ser_timeout w' = ser_timeout w.
Proof.
  destruct ser as [port|]; [|discriminate].
  destruct w as [os rs ps t sl ol so].
  unfold ModemHangup. rewrite encode_hangup.
  destruct (firstn 20 (hd [] rs)) as [|b1 d1] eqn:E1;
    [ destruct (2 <=? verbose) eqn:V2; crunch; discriminate | ].
  destruct (Py.decode (b1 :: d1)) as [s1|e1] eqn:D1;
    [ | crunch; discriminate ].
  destruct (Py.re_search (lit "OK") s1) eqn:Ok1;
    destruct (Py.re_search (lit "ERROR") s1) eqn:Err1;
    destruct (2 <=? verbose) eqn:V2; destruct (1 <=? verbose) eqn:V1;
    crunch;
    try (intros H; inversion H; reflexivity);
    (* the delayed read, under the extended time-out *)
    (destruct (firstn 10 (hd [] (tl rs))) as [|b2 d2] eqn:E2;
     [ | destruct (Py.decode (b2 :: d2)) as [s2|e2] eqn:D2;
         [ destruct (Py.re_search (lit "OK") s2) eqn:Ok2 | ] ];
     crunch; intros H; inversion H; reflexivity).
Qed.

Lemma hangup_restores_timeout_witness :
  let w := hangup_delayed in
  let w' := snd (ModemHangup 0 (Some SerialPort) w) in
  ModemHangup 0 (Some SerialPort) w = (Ret true, w')
  /\ ser_timeout w' = 2%Z.
Proof.
  cbv zeta.
  assert (H : ModemHangup 0 (Some SerialPort) hangup_delayed
              = (Ret true, snd (ModemHangup 0 (Some SerialPort) hangup_delayed)))
    by (vm_compute; reflexivity).
  split; [exact H|].
  exact (@hangup_restores_timeout 0 _ _ _ _ H).
Defined.

(** X12.  With nothing received after the hangup command, [s] is unbound
    when it is first read: [ModemHangup] raises [UnboundLocalError], at every
    verbosity. *)
Lemma hangup_raises_on_empty_first_read verbose w :
  firstn 20 (hd [] (read_script w)) = [] ->
  fst (ModemHangup verbose (Some SerialPort) w) = Raise UnboundLocalError.
Proof.
  destruct w as [os rs ps t sl ol so]. cbn [read_script]. intros E.
  unfold ModemHangup. rewrite encode_hangup.
  destruct (2 <=? verbose) eqn:V2; crunch; reflexivity.
Qed.

(** ** The liveness probe *)

Lemma encode_probe : Py.encode (lit "AT" ++ [CR]) = Ret probe_command.
Proof. vm_compute. reflexivity. Qed.

(** What the probe does with each kind of read. *)
Lemma probe_classification verbose w :
  let data := firstn 10 (hd [] (read_script w)) in
  fst (ModemOk verbose (Some SerialPort) w) =
  match data with
  | [] => Raise UnboundLocalError
  | _ :: _ =>
      match Py.decode data with
      | Ret s => Ret (Py.re_search (lit "OK") s)
      | Raise e => Raise e
      end
  end.
Proof.
  cbv zeta. destruct w as [os rs ps t sl ol so]. cbn [read_script].
  unfold ModemOk. rewrite encode_probe.
  destruct (firstn 10 (hd [] rs)) as [|b d] eqn:E;
    [ destruct (2 <=? verbose) eqn:V2; crunch; reflexivity | ].
  destruct (Py.decode (b :: d)) as [s|e] eqn:D; [ | crunch; reflexivity ].
  destruct (Py.re_search (lit "OK") s) eqn:Ok;
    destruct (2 <=? verbose) eqn:V2; crunch; reflexivity.
Qed.

(** C8 (evaluation at the failing input).  When the read of the probe
    returns nothing, [ModemOk] does not return [False]: the name [s] was
    never bound and the function raises [UnboundLocalError], at every
    verbosity. *)
Theorem probe_raises_on_empty_read :
  forall verbose,
    fst (ModemOk verbose (Some SerialPort) silent_line)
    = Raise UnboundLocalError.
Proof. intros verbose. now rewrite probe_classification. Qed.

Lemma bind_run A B (m : M A) (k : A -> M B) w :
  bind m k w = match m w with
               | (Ret a, w') => k a w'
               | (Raise e, w') => (Raise e, w')
               end.
Proof. reflexivity. Qed.

(** ** Frame lemmas: what a computation leaves alone *)

Section Frame.

Variables (T : Type) (f : World -> T).

Lemma preserves_ret A (a : A) : preserves f (ret a).
Proof. intros w. reflexivity. Qed.

Lemma preserves_raise A e : preserves f (@raise A e).
Proof. intros w. reflexivity. Qed.

Lemma preserves_lift A (r : Result A) : preserves f (lift r).
Proof. intros w. reflexivity. Qed.

Lemma preserves_bind A B (m : M A) (k : A -> M B) :
  preserves f m -> (forall a, preserves f (k a)) -> preserves f (bind m k).
Proof.
  intros Hm Hk w. unfold bind. specialize (Hm w).
  destruct (m w) as [[a|e] w1]; cbn [snd] in *; [|assumption].
  now rewrite Hk.
Qed.

Lemma preserves_when b (m : M unit) : preserves f m -> preserves f (when b m).
Proof. destruct b; [trivial|intros _; apply preserves_ret]. Qed.

Lemma preserves_try_except A (m : M A) handled (h : M A) :
  preserves f m -> preserves f h -> preserves f (try_except m handled h).
Proof.
  intros Hm Hh w. unfold try_except. specialize (Hm w).
  destruct (m w) as [[a|e] w1]; cbn [snd] in *; [assumption|].
  destruct (handled e); cbn [snd]; [|assumption]. now rewrite Hh.
Qed.

Lemma preserves_load A (v : option A) : preserves f (load v).
Proof. destruct v; intros w; reflexivity. Qed.

Lemma preserves_attr ser : preserves f (attr ser).
Proof. destruct ser; intros w; reflexivity. Qed.

End Frame.

Create HintDb frame.

#[local] Hint Resolve preserves_ret preserves_raise preserves_lift
  preserves_bind preserves_when preserves_try_except preserves_load
  preserves_attr : frame.

Ltac frame_step :=
  first
    [ apply preserves_bind; [|intros ?]
    | apply preserves_when
    | apply preserves_try_except
    | match goal with
      | |- preserves _ (if ?b then _ else _) => destruct b
      | |- preserves _ (match ?x with _ => _ end) => destruct x
      end
    | solve [auto with frame]
    | (intros ?; reflexivity) ].

Ltac frame := repeat frame_step.

(** The serial exchanges issue no command to the operating system. *)

Lemma OpenModem_os verbose device : preserves os_log (OpenModem verbose device).
Proof.
  unfold OpenModem. apply preserves_try_except; [|frame].
  intros w. unfold bind, serial_Serial.
  destruct (open_script w) as [|[] ?]; reflexivity.
Qed.

Lemma decode_if_any_frame T (f : World -> T) s s2 :
  preserves f (decode_if_any s s2).
Proof. unfold decode_if_any. frame. Qed.

Lemma ser_write_os ser data : preserves os_log (ser_write ser data).
Proof. unfold ser_write. frame. Qed.

Lemma ser_read_os ser size : preserves os_log (ser_read ser size).
Proof.
  unfold ser_read. destruct ser; intros w; reflexivity.
Qed.

Lemma get_timeout_os ser : preserves os_log (get_timeout ser).
Proof. unfold get_timeout. destruct ser; intros w; reflexivity. Qed.

Lemma set_timeout_os ser t : preserves os_log (set_timeout ser t).
Proof. unfold set_timeout. destruct ser; intros w; reflexivity. Qed.

Lemma print_os s : preserves os_log (print s).
Proof. intros w. reflexivity. Qed.

#[local] Hint Resolve decode_if_any_frame ser_write_os ser_read_os
  get_timeout_os set_timeout_os print_os : frame.

Lemma ModemOk_os verbose ser : preserves os_log (ModemOk verbose ser).
Proof. unfold ModemOk. frame. Qed.

Lemma ModemConnect_os verbose ser : preserves os_log (ModemConnect verbose ser).
Proof. unfold ModemConnect. frame. Qed.

Lemma ModemHangup_os verbose ser : preserves os_log (ModemHangup verbose ser).
Proof. unfold ModemHangup. frame. Qed.

Lemma ModemDhcpStatus_os verbose ser :
  preserves os_log (ModemDhcpStatus verbose ser).
Proof. unfold ModemDhcpStatus. frame. Qed.

(** The reconciler does not touch the serial port. *)

Lemma log_os_ser e : preserves ser_log (log_os e).
Proof. intros w. reflexivity. Qed.

Lemma print_ser s : preserves ser_log (print s).
Proof. intros w. reflexivity. Qed.

Lemma next_proc_ser : preserves ser_log next_proc.
Proof. intros w. reflexivity. Qed.

#[local] Hint Resolve log_os_ser print_ser next_proc_ser : frame.

Lemma check_output_ser argv : preserves ser_log (check_output argv).
Proof. unfold check_output. frame. Qed.

Lemma call_shell_ser cmd : preserves ser_log (call_shell cmd).
Proof. unfold call_shell. frame. Qed.

Lemma Popen_ser argv : preserves ser_log (Popen argv).
Proof. unfold Popen. frame. Qed.

Lemma communicate_ser : preserves ser_log communicate.
Proof. unfold communicate. frame. Qed.

#[local] Hint Resolve check_output_ser call_shell_ser Popen_ser
  communicate_ser : frame.

Lemma GetInterface_ser verbose device :
  preserves ser_log (GetInterface verbose device).
Proof. unfold GetInterface. frame. Qed.

Lemma GetGatewayInfo_ser verbose dev :
  preserves ser_log (GetGatewayInfo verbose dev).
Proof. unfold GetGatewayInfo. frame. Qed.

Lemma RemoveGateway_ser verbose gateway dev :
  preserves ser_log (RemoveGateway verbose gateway dev).
Proof. unfold RemoveGateway. frame. Qed.

#[local] Hint Resolve GetInterface_ser GetGatewayInfo_ser RemoveGateway_ser
  : frame.

Lemma UpdateInterfaceIpAddress_ser verbose dev status :
  preserves ser_log (UpdateInterfaceIpAddress verbose dev status).
Proof. unfold UpdateInterfaceIpAddress, GetIpAddr, GetIpMask. frame. Qed.

Lemma SetGateway_ser verbose gateway dev :
  preserves ser_log (SetGateway verbose gateway dev).
Proof. unfold SetGateway. frame. Qed.

Lemma AddDns_ser verbose dns dev : preserves ser_log (AddDns verbose dns dev).
Proof. unfold AddDns. frame. Qed.

Lemma encode_connect :
  Py.encode (lit "AT^NDISDUP=1,1," ++ [DQUOTE] ++ carrier ++ [DQUOTE; CR])
  = Ret connect_command.
Proof. vm_compute. reflexivity. Qed.

Lemma encode_dhcp : Py.encode (lit "AT^DHCP?" ++ [CR]) = Ret dhcp_command.
Proof. vm_compute. reflexivity. Qed.

Lemma ModemDhcpStatus_lease verbose ser w lease w' :
  ModemDhcpStatus verbose ser w = (Ret (Some lease), w') ->
  exists data s,
    ser_log w' = ser_log w ++ [SerWrite dhcp_command;
                               SerRead 100 (ser_timeout w) data]
    /\ heard data = Some s
    /\ Py.re_search (lit "OK") s = true
    /\ DhcpParse s = Ret (Some lease).
Proof.
  destruct ser as [port|]; [|discriminate].
  destruct w as [os rs ps t sl ol so].
  unfold ModemDhcpStatus. rewrite encode_dhcp.
  destruct (firstn 100 (hd [] rs)) as [|b d] eqn:E;
    [ destruct (2 <=? verbose) eqn:V2; crunch; discriminate | ].
  destruct (Py.decode (b :: d)) as [s|e] eqn:D; [ | crunch; discriminate ].
  destruct (Py.re_search (lit "OK") s) eqn:Ok;
    destruct (DhcpParse s) as [[l|]|e] eqn:P;
    destruct (2 <=? verbose) eqn:V2; crunch; try discriminate;
    intros H; inversion H; subst; exists (b :: d), s; cbn [ser_log ser_timeout];
    rewrite snoc2; unfold heard; rewrite D; auto.
Qed.

Lemma connect_flow_reconciles_only_a_lease verbose w :
  let w' := snd (connect_flow verbose w) in
  os_log w' <> os_log w ->
  exists pre t data s lease,
    ser_log w' = pre ++ [SerWrite dhcp_command; SerRead 100 t data]
    /\ heard data = Some s
    /\ Py.re_search (lit "OK") s = true
    /\ DhcpParse s = Ret (Some lease).
Proof.
  cbv zeta. unfold connect_flow. intros Hos.
  rewrite bind_run in *.
  destruct (when (2 <=? verbose) (print (lit "Connecting with modem")) w)
    as [[[]|e] w0] eqn:E0;
    pose proof (preserves_when (2 <=? verbose)
                  (print_os (lit "Connecting with modem")) w) as F0;
    rewrite E0 in F0; cbn [snd] in F0; [|cbn [snd] in Hos; congruence].
  rewrite bind_run in *.
  pose proof (OpenModem_os verbose dev_at w0) as F1.
  destruct (OpenModem verbose dev_at w0) as [[[port|]|e] w1]; cbn [snd] in F1;
    try (cbn [snd ret] in Hos; congruence).
  rewrite bind_run in *.
  pose proof (ModemOk_os verbose (Some port) w1) as F2.
  destruct (ModemOk verbose (Some port) w1) as [[b1|e] w2]; cbn [snd] in F2;
    [|cbn [snd] in Hos; congruence].
  rewrite bind_run in *.
  pose proof (ModemConnect_os verbose (Some port) w2) as F3.
  destruct (ModemConnect verbose (Some port) w2) as [[b2|e] w3]; cbn [snd] in F3;
    [|cbn [snd] in Hos; congruence].
  rewrite bind_run in *.
  pose proof (ModemDhcpStatus_os verbose (Some port) w3) as F4.
  destruct (ModemDhcpStatus verbose (Some port) w3) as [[[lease|]|e] w4] eqn:E4;
    cbn [snd] in F4; try (cbn [snd ret] in Hos; congruence).
  apply ModemDhcpStatus_lease in E4 as (data & s & Hlog & Hs & Hok & Hparse).
  exists (ser_log w3), (ser_timeout w3), data, s, lease.
  split; [|auto].
  rewrite <- Hlog.
  apply (preserves_bind (f := ser_log)); [apply UpdateInterfaceIpAddress_ser|].
  intros _. apply preserves_bind; [apply SetGateway_ser|].
  intros _. apply AddDns_ser.
Qed.

(** ** What each exchange does to the serial port *)

Lemma OpenModem_opens verbose device w os :
  open_script w = true :: os ->
  exists w',
    OpenModem verbose device w = (Ret (Some SerialPort), w')
    /\ ser_log w' = ser_log w ++ [SerOpen device 2]
    /\ read_script w' = read_script w
    /\ ser_timeout w' = 2%Z.
Proof.
  destruct w as [os0 rs ps t sl ol so]. cbn [open_script]. intros ->.
  eexists. unfold OpenModem, try_except, serial_Serial. crunch.
  repeat split.
Qed.

Lemma ModemOk_returns verbose w s :
  heard (firstn 10 (hd [] (read_script w))) = Some s ->
  exists w',
    ModemOk verbose (Some SerialPort) w = (Ret (Py.re_search (lit "OK") s), w')
    /\ ser_log w' = ser_log w ++ [SerWrite probe_command;
                                  SerRead 10 (ser_timeout w)
                                    (firstn 10 (hd [] (read_script w)))]
    /\ read_script w' = tl (read_script w)
    /\ ser_timeout w' = ser_timeout w.
Proof.
  intros H. apply heard_some in H as [Hne Hdec].
  destruct w as [os rs ps t sl ol so]. cbn [read_script] in *.
  unfold ModemOk. rewrite encode_probe.
  destruct (firstn 10 (hd [] rs)) as [|b d] eqn:E; [congruence|].
  destruct (Py.re_search (lit "OK") s) eqn:Ok;
    destruct (2 <=? verbose) eqn:V2; crunch; rewrite snoc2;
    eexists; repeat split.
Qed.

Lemma ModemConnect_returns verbose w s :
  heard (firstn 30 (hd [] (read_script w))) = Some s ->
  exists w',
    ModemConnect verbose (Some SerialPort) w
    = (Ret (Py.re_search (lit "OK") s), w')
    /\ ser_log w' = ser_log w ++ [SerWrite connect_command;
                                  SerRead 30 (ser_timeout w)
                                    (firstn 30 (hd [] (read_script w)))]
    /\ read_script w' = tl (read_script w)
    /\ ser_timeout w' = ser_timeout w.
Proof.
  intros H. apply heard_some in H as [Hne Hdec].
  destruct w as [os rs ps t sl ol so]. cbn [read_script] in *.
  unfold ModemConnect. rewrite encode_connect.
  destruct (firstn 30 (hd [] rs)) as [|b d] eqn:E; [congruence|].
  destruct (Py.re_search (lit "OK") s) eqn:Ok;
    destruct (2 <=? verbose) eqn:V2; destruct (1 <=? verbose) eqn:V1;
    crunch; rewrite snoc2; eexists; repeat split.
Qed.

Lemma ModemDhcpStatus_queries verbose w :
  ser_log (snd (ModemDhcpStatus verbose (Some SerialPort) w))
  = ser_log w ++ [SerWrite dhcp_command;
                  SerRead 100 (ser_timeout w)
                    (firstn 100 (hd [] (read_script w)))].
Proof.
  destruct w as [os rs ps t sl ol so]. cbn [read_script ser_timeout ser_log].
  unfold ModemDhcpStatus. rewrite encode_dhcp.
  destruct (firstn 100 (hd [] rs)) as [|b d] eqn:E;
    [ destruct (2 <=? verbose) eqn:V2; crunch; now rewrite snoc2 | ].
  destruct (Py.decode (b :: d)) as [s|e] eqn:D;
    [ | crunch; now rewrite snoc2 ].
  destruct (Py.re_search (lit "OK") s) eqn:Ok;
    destruct (DhcpParse s) as [[l|]|e] eqn:P;
    destruct (2 <=? verbose) eqn:V2; crunch; now rewrite snoc2.
Qed.

Lemma connect_flow_queries_whatever_the_results verbose w os r1 r2 rest s1 s2 :
  open_script w = true :: os ->
  read_script w = r1 :: r2 :: rest ->
  heard (firstn 10 r1) = Some s1 ->
  heard (firstn 30 r2) = Some s2 ->
  ser_log (snd (connect_flow verbose w))
  = ser_log w ++ [SerOpen dev_at 2;
                  SerWrite probe_command; SerRead 10 2 (firstn 10 r1);
                  SerWrite connect_command; SerRead 30 2 (firstn 30 r2);
                  SerWrite dhcp_command;
                  SerRead 100 2 (firstn 100 (hd [] rest))].
Proof.
  intros Hopen Hreads H1 H2. unfold connect_flow.
  rewrite bind_run.
  destruct (when (2 <=? verbose) (print (lit "Connecting with modem")) w)
    as [[[]|e] w0] eqn:E0.
  2:{ destruct (2 <=? verbose); discriminate. }
  assert (F0 : open_script w0 = open_script w /\ read_script w0 = read_script w
               /\ ser_log w0 = ser_log w).
  { destruct (2 <=? verbose); inversion E0; subst; repeat split. }
  destruct F0 as (Fo & Fr & Fl). rewrite Hopen in Fo. rewrite Hreads in Fr.
  destruct (OpenModem_opens verbose dev_at w0 Fo) as (w1 & E1 & L1 & R1 & T1).
  rewrite bind_run, E1. rewrite Fr in R1.
  destruct (@ModemOk_returns verbose w1 s1) as (w2 & E2 & L2 & R2 & T2);
    [now rewrite R1|].
  rewrite bind_run, E2. rewrite R1 in *. cbn [hd tl] in *.
  destruct (@ModemConnect_returns verbose w2 s2) as (w3 & E3 & L3 & R3 & T3);
    [now rewrite R2|].
  rewrite bind_run, E3. rewrite R2 in *. cbn [hd tl] in *.
  rewrite bind_run.
  pose proof (ModemDhcpStatus_queries verbose w3) as L4.
  rewrite R3 in L4.
  assert (L : ser_log w3 ++ [SerWrite dhcp_command;
                SerRead 100 (ser_timeout w3) (firstn 100 (hd [] rest))]
              = ser_log w ++ [SerOpen dev_at 2;
                  SerWrite probe_command; SerRead 10 2 (firstn 10 r1);
                  SerWrite connect_command; SerRead 30 2 (firstn 30 r2);
                  SerWrite dhcp_command;
                  SerRead 100 2 (firstn 100 (hd [] rest))]).
  { rewrite L3, L2, L1, Fl, T3, T2, T1. now rewrite <- !app_assoc. }
  rewrite <- L, <- L4.
  destruct (ModemDhcpStatus verbose (Some SerialPort) w3) as [[[lease|]|e] w4];
    try reflexivity.
  cbn [snd].
  apply (preserves_bind (f := ser_log)); [apply UpdateInterfaceIpAddress_ser|].
  intros _. apply preserves_bind; [apply SetGateway_ser|].
  intros _. apply AddDns_ser.
Qed.

Ltac exec_os :=
  cbv beta iota zeta delta
    [bind ret raise lift when log_os emit print try_except check_output
     next_proc call_shell Popen communicate
     fst snd
     open_script read_script proc_script ser_timeout ser_log os_log stdout].

Ltac crunch_os :=
  repeat first
    [ progress exec_os
    | progress cbn [negb hd tl]
    | match goal with
      | H : ?x = _ |- context [?x] => rewrite H
      end ].

Lemma teardown_commands verbose w routes :
  let found := hd (false, []) (proc_script w) in
  let listed := hd (false, []) (tl (proc_script w)) in
  Py.decode (snd listed) = Ret routes ->
  exists w',
    teardown verbose w = (Ret tt, w')
    /\ os_log w'
       = os_log w
         ++ [Spawn [ifconfig; dev]]
         ++ (if fst found
             then [Shell (lit "/sbin/ip addr flush dev wwan0")] else [])
         ++ [Spawn [lit "/sbin/route"]; Spawn [lit "/bin/grep"; lit " wwan0$"]]
         ++ match default_gateway routes with
            | Some gw =>
                [Shell (lit "/sbin/route delete default gw " ++ gw
                        ++ lit " wwan0")]
            | None => []
            end
         ++ [Shell (lit "/sbin/resolvconf -d wwan0.modem")].
Proof.
  cbv zeta. destruct w as [os rs ps t sl ol so]. cbn [proc_script os_log].
  intros Hdec.
  assert (Hdev : dev = 119%N :: lit "wan0") by reflexivity.
  unfold teardown, EraseInterfaceIpAddress, GetInterface, GetGatewayInfo,
    RemoveGateway, RmDns, default_gateway.
  rewrite Hdev.
  destruct (hd (false, []) ps) as [found out] eqn:E1.
  destruct (hd (false, []) (tl ps)) as [status listing] eqn:E2.
  cbn [snd] in Hdec.
  destruct found; destruct (Py.find_after (lit "default") routes) as [rest|] eqn:F;
    destruct (2 <=? verbose) eqn:V2; destruct (1 <=? verbose) eqn:V1;
    crunch_os; eexists; (split; [reflexivity|]);
    cbn [os_log]; rewrite <- ?app_assoc; reflexivity.
Qed.

(** ** The connect flow *)

(** C4 (counterexample).  The modem answers the probe, rejects the connect
    command and still reports a lease: the connect exchange returns [False],
    the DHCP query is sent all the same, and the host's address, route and
    DNS entry are changed. *)
Lemma connect_rejected_still_reconciles :
  let w := connect_rejected in
  let w1 := snd (OpenModem 0 dev_at w) in
  let w2 := snd (ModemOk 0 (Some SerialPort) w1) in
  let w' := snd (connect_flow 0 w) in
  fst (ModemConnect 0 (Some SerialPort) w2) = Ret false
  /\ In (SerWrite dhcp_command) (ser_log w')
  /\ os_log w'
     = [Spawn [lit "/sbin/ifconfig"; lit "wwan0"];
        Shell (lit "/sbin/ip addr flush dev wwan0");
        Shell (lit "/sbin/ip address add 10.0.0.1/24 dev wwan0");
        Spawn [lit "/sbin/route"];
        Spawn [lit "/bin/grep"; lit " wwan0$"];
        Shell (lit "/sbin/route delete default gw 10.0.0.254 wwan0");
        Shell (lit "/sbin/ip route add default via 10.0.0.2");
        Spawn [lit "/bin/echo"; lit "nameserver 8.8.8.8"];
        Spawn [lit "/sbin/resolvconf"; lit "-a"; lit "wwan0.modem"]].
Proof.
  cbv zeta. split; [vm_compute; reflexivity|].
  split; [vm_compute; tauto|vm_compute; reflexivity].
Qed.

(** C4 (amended).  In the connect flow neither the probe result nor the
    connect result gates what follows: once the port is open and the probe
    and connect exchanges have each received a response, whatever it says,
    the DHCP query is written and read.  The reconciler runs only when the
    query produced a lease: if any command was issued to the operating
    system, the last serial exchange is the DHCP query and its response
    holds [OK] and parses to a lease; otherwise the host is left alone. *)
Theorem connect_flow_sequencing verbose w :
  (forall os r1 r2 rest s1 s2,
     open_script w = true :: os ->
     read_script w = r1 :: r2 :: rest ->
     heard (firstn 10 r1) = Some s1 ->
     heard (firstn 30 r2) = Some s2 ->
     ser_log (snd (connect_flow verbose w))
     = ser_log w ++ [SerOpen dev_at 2;
                     SerWrite probe_command; SerRead 10 2 (firstn 10 r1);
                     SerWrite connect_command; SerRead 30 2 (firstn 30 r2);
                     SerWrite dhcp_command;
                     SerRead 100 2 (firstn 100 (hd [] rest))])
  /\
  (let w' := snd (connect_flow verbose w) in
   os_log w' <> os_log w ->
   exists pre t data s lease,
     ser_log w' = pre ++ [SerWrite dhcp_command; SerRead 100 t data]
     /\ heard data = Some s
     /\ Py.re_search (lit "OK") s = true
     /\ DhcpParse s = Ret (Some lease)).
Proof.
  split.
  - intros os r1 r2 rest s1 s2.
    apply connect_flow_queries_whatever_the_results.
  - apply connect_flow_reconciles_only_a_lease.
Qed.

Lemma connect_flow_sequencing_witness :
  let w := connect_rejected in
  (open_script w = [true]
   /\ read_script w = [reply "OK"; reply "ERROR"; dhcp_reply good_lease]
   /\ heard (firstn 10 (reply "OK")) = Some ([CR; LF] ++ lit "OK" ++ [CR; LF])
   /\ heard (firstn 30 (reply "ERROR"))
      = Some ([CR; LF] ++ lit "ERROR" ++ [CR; LF])
   /\ os_log (snd (connect_flow 0 w)) <> os_log w)
  /\ ser_log (snd (connect_flow 0 w))
     = ser_log w ++ [SerOpen dev_at 2;
                     SerWrite probe_command;
                     SerRead 10 2 (firstn 10 (reply "OK"));
                     SerWrite connect_command;
                     SerRead 30 2 (firstn 30 (reply "ERROR"));
                     SerWrite dhcp_command;
                     SerRead 100 2 (firstn 100 (dhcp_reply good_lease))]
  /\ exists pre t data s lease,
       ser_log (snd (connect_flow 0 w))
       = pre ++ [SerWrite dhcp_command; SerRead 100 t data]
       /\ heard data = Some s
       /\ Py.re_search (lit "OK") s = true
       /\ DhcpParse s = Ret (Some lease).
Proof.
  cbv zeta.
  assert (Hos : os_log (snd (connect_flow 0 connect_rejected))
                <> os_log connect_rejected)
    by (vm_compute; discriminate).
  split; [repeat split; try (vm_compute; reflexivity); exact Hos|].
  split.
  - apply (proj1 (connect_flow_sequencing 0 connect_rejected)
             [] (reply "OK") (reply "ERROR") [dhcp_reply good_lease]
             ([CR; LF] ++ lit "OK" ++ [CR; LF])
             ([CR; LF] ++ lit "ERROR" ++ [CR; LF]));
      vm_compute; reflexivity.
  - exact (proj2 (connect_flow_sequencing 0 connect_rejected) Hos).
Defined.

(** ** The disconnect flow *)

(** The teardown after a hangup that reports a result.  In the disconnect
    flow the teardown does not depend on what the hangup reported: whenever
    [ModemHangup] returns, with [True] or with [False], the flow goes on to [EraseInterfaceIpAddress] (which queries
    the interface and flushes its address when the interface is there),
    [GetGatewayInfo] and [RemoveGateway] (which deletes the default route
    listed for the interface, if there is one), and [RmDns].  The commands
    issued are the same for both results. *)
Theorem teardown_whatever_hangup_reports verbose w ser w0 result w1 routes :
  OpenModem verbose dev_at w = (Ret ser, w0) ->
  ModemHangup verbose ser w0 = (Ret result, w1) ->
  let found := hd (false, []) (proc_script w1) in
  let listed := hd (false, []) (tl (proc_script w1)) in
  Py.decode (snd listed) = Ret routes ->
  exists w',
    disconnect_flow verbose w = (Ret tt, w')
    /\ os_log w'
       = os_log w
         ++ [Spawn [ifconfig; dev]]
         ++ (if fst found
             then [Shell (lit "/sbin/ip addr flush dev wwan0")] else [])
         ++ [Spawn [lit "/sbin/route"]; Spawn [lit "/bin/grep"; lit " wwan0$"]]
         ++ match default_gateway routes with
            | Some gw =>
                [Shell (lit "/sbin/route delete default gw " ++ gw
                        ++ lit " wwan0")]
            | None => []
            end
         ++ [Shell (lit "/sbin/resolvconf -d wwan0.modem")].
Proof.
  intros Hopen Hhang found listed Hroutes.
  destruct (@teardown_commands verbose w1 routes Hroutes) as (w' & Hrun & Hlog).
  exists w'. split.
  - unfold disconnect_flow. now rewrite bind_run, Hopen, bind_run, Hhang.
  - pose proof (OpenModem_os verbose dev_at w) as F0.
    pose proof (ModemHangup_os verbose ser w0) as F1.
    rewrite Hopen in F0. rewrite Hhang in F1. cbn [snd] in F0, F1.
    rewrite Hlog, F1, F0. reflexivity.
Qed.

Lemma teardown_whatever_hangup_reports_witness :
  let w := hangup_rejected in
  let w0 := snd (OpenModem 0 dev_at w) in
  let w1 := snd (ModemHangup 0 (Some SerialPort) w0) in
  let routes :=
    lit "default         10.0.0.254      0.0.0.0         UG    0      0        0 wwan0"
    ++ [LF] in
  (OpenModem 0 dev_at w = (Ret (Some SerialPort), w0)
   /\ ModemHangup 0 (Some SerialPort) w0 = (Ret false, w1)
   /\ Py.decode (snd (hd (false, []) (tl (proc_script w1)))) = Ret routes)
  /\ exists w',
       disconnect_flow 0 w = (Ret tt, w')
       /\ os_log w'
          = [Spawn [lit "/sbin/ifconfig"; lit "wwan0"];
             Shell (lit "/sbin/ip addr flush dev wwan0");
             Spawn [lit "/sbin/route"];
             Spawn [lit "/bin/grep"; lit " wwan0$"];
             Shell (lit "/sbin/route delete default gw 10.0.0.254 wwan0");
             Shell (lit "/sbin/resolvconf -d wwan0.modem")].
Proof.
  cbv zeta.
  assert (H0 : OpenModem 0 dev_at hangup_rejected
               = (Ret (Some SerialPort), snd (OpenModem 0 dev_at hangup_rejected)))
    by (vm_compute; reflexivity).
  assert (H1 : ModemHangup 0 (Some SerialPort)
                 (snd (OpenModem 0 dev_at hangup_rejected))
               = (Ret false,
                  snd (ModemHangup 0 (Some SerialPort)
                         (snd (OpenModem 0 dev_at hangup_rejected)))))
    by (vm_compute; reflexivity).
  assert (H2 : Py.decode
                 (snd (hd (false, [])
                         (tl (proc_script
                                (snd (ModemHangup 0 (Some SerialPort)
                                        (snd (OpenModem 0 dev_at
                                                hangup_rejected))))))))
               = Ret (lit "default         10.0.0.254      0.0.0.0         UG    0      0        0 wwan0"
                      ++ [LF]))
    by (vm_compute; reflexivity).
  split; [repeat split; assumption|].
  destruct (@teardown_whatever_hangup_reports 0 _ _ _ _ _ _ H0 H1 H2)
    as (w' & Hrun & Hlog).
  exists w'. split; [exact Hrun|].
  rewrite Hlog. vm_compute. reflexivity.
Defined.

(** C9 (evaluation at the failing inputs).  The teardown is not reached
    whatever the outcome of the hangup.  On a host whose interface and
    default route are up, when the port opens and the modem sends nothing
    [ModemHangup] raises [UnboundLocalError], and when the port cannot be
    opened it raises [AttributeError]: in both runs the disconnect flow ends
    there, no command is issued and no program outcome is consumed.  When
    the modem answers [ERROR] on the same host the hangup reports [False] and
    the address flush, the route deletion and the DNS removal are all
    issued.  All three hold at every verbosity. *)
Theorem teardown_skipped_when_hangup_raises :
  forall verbose,
    (let '(result, w') := disconnect_flow verbose disconnect_unanswered in
     result = Raise UnboundLocalError
     /\ os_log w' = []
     /\ proc_script w' = proc_script disconnect_unanswered)
    /\ (let '(result, w') := disconnect_flow verbose disconnect_no_port in
        result = Raise AttributeError
        /\ os_log w' = []
        /\ proc_script w' = proc_script disconnect_no_port)
    /\ (let '(result, w') := disconnect_flow verbose hangup_rejected in
        result = Ret tt
        /\ os_log w'
           = [Spawn [ifconfig; dev];
              Shell (lit "/sbin/ip addr flush dev wwan0");
              Spawn [lit "/sbin/route"];
              Spawn [lit "/bin/grep"; lit " wwan0$"];
              Shell (lit "/sbin/route delete default gw 10.0.0.254 wwan0");
              Shell (lit "/sbin/resolvconf -d wwan0.modem")]).
Proof.
  intros verbose.
  destruct verbose as [|[|v]]; vm_compute; repeat split; reflexivity.
Qed.

(** ** The exit status *)

(** C5 (evaluation at the failing inputs).  The process does not always
    reach [exit(0)]: with [-d] and a serial port that cannot be opened, with
    [-c] and a modem that sends nothing, and with [-c] and a lease whose
    address field is not hexadecimal, an exception goes uncaught and the exit
    status is 1. *)
Theorem exit_status_is_not_always_zero :
  fst (main (mkArgs 0 1 0) no_port) = 1
  /\ fst (script (mkArgs 0 1 0) no_port) = Raise AttributeError
  /\ fst (main (mkArgs 1 0 0) silent_modem) = 1
  /\ fst (script (mkArgs 1 0 0) silent_modem) = Raise UnboundLocalError
  /\ fst (main (mkArgs 1 0 0) garbled_lease) = 1
  /\ fst (script (mkArgs 1 0 0) garbled_lease) = Raise ValueError.
Proof. repeat split; vm_compute; reflexivity. Qed.

(** * Further properties of the code *)

(** ** More on the lease parser *)

Lemma split1_without (sep : char) (s : text) : ~ In sep s -> Py.split1 sep s = [s].
Proof.
  induction s as [|c s IH]; simpl; intros H; [reflexivity|].
  destruct (N.eqb_spec c sep) as [->|_]; [tauto|].
  rewrite IH by tauto. reflexivity.
Qed.

Lemma in_split_first (sep : char) (s : text) :
  In sep s -> exists a b, s = a ++ sep :: b /\ ~ In sep a.
Proof.
  induction s as [|c s IH]; simpl; [tauto|]. intros H.
  destruct (N.eq_dec c sep) as [->|Hc].
  - exists [], s. split; [reflexivity|simpl; tauto].
  - destruct H as [H|H]; [congruence|].
    destruct (IH H) as (a & b & -> & Ha).
    exists (c :: a), b. split; [reflexivity|]. simpl. intros [E|E]; tauto.
Qed.

Lemma split_length (sep : char) (s : text) :
  List.length (Py.split sep s) = S (Py.count sep s).
Proof.
  unfold Py.count. induction s as [|c s IH]; [reflexivity|].
  cbn [Py.split count_occ].
  destruct (N.eqb_spec c sep) as [->|Hc].
  - destruct (N.eq_dec sep sep); [|congruence]. cbn [List.length]. now rewrite IH.
  - destruct (N.eq_dec c sep); [congruence|].
    destruct (Py.split sep s); cbn [List.length] in *; [discriminate|assumption].
Qed.

(** [DhcpParse] on a line with a colon: what the field list decides. *)
Lemma DhcpParse_payload (label payload : text) :
  ~ In 58%N label ->
  DhcpParse (label ++ 58%N :: payload)
  = let field_array := Py.split 44%N payload in
    if Nat.leb 8 (List.length field_array) then
      try! ips <- rmap decode_address (firstn 6 field_array);
      try! bits <- rmap ones (Py.split 46%N (nth 1 ips []));
      match Py.split_ws (nth 7 field_array []) with
      | tx :: _ =>
          Ret (Some {| IpAddr := nth 0 ips [];
                       Netmask := nth 1 ips [];
                       Gateway := nth 2 ips [];
                       DhcpServer := nth 3 ips [];
                       DnsPrimary := nth 4 ips [];
                       DnsSecondary := nth 5 ips [];
                       RxMaxBps := nth 6 field_array [];
                       TxMaxBps := tx;
                       NetmaskBits := list_sum bits |})
      | [] => Raise IndexError
      end
    else Ret None.
Proof.
  intros H. unfold DhcpParse. now rewrite split1_field.
Qed.

(** X1.  [DhcpParse] returns [None] in exactly two cases: the status line
    has no colon, or what follows its first colon has fewer than eight
    comma-separated fields, that is, fewer than seven commas. *)
Theorem DhcpParse_none_iff dhcp :
  DhcpParse dhcp = Ret None <->
  ~ In 58%N dhcp
  \/ exists label payload,
       dhcp = label ++ 58%N :: payload /\ ~ In 58%N label
       /\ Py.count 44%N payload < 7.
Proof.
  destruct (in_dec N.eq_dec 58%N dhcp) as [Hin|Hout].
  - destruct (in_split_first _ _ Hin) as (label & payload & -> & Hlabel).
    rewrite DhcpParse_payload by assumption. cbv zeta.
    rewrite split_length.
    destruct (Nat.leb 8 (S (Py.count 44%N payload))) eqn:Hlen.
    + apply Nat.leb_le in Hlen. split.
      * intros H. exfalso.
        destruct (rmap decode_address _) as [ips|]; [|discriminate].
        cbn [rbind] in H.
        destruct (rmap ones _) as [bits|]; [|discriminate].
        cbn [rbind] in H.
        destruct (Py.split_ws _); discriminate.
      * intros [H|(l & p & E & Hl & Hc)]; [tauto|].
        exfalso.
        assert (l = label /\ p = payload) as [-> ->].
        { clear - E Hl Hlabel. revert l E Hl.
          induction label as [|c label IH]; intros [|d l] E Hl; simpl in *.
          - injection E as <-. auto.
          - injection E as <- _. tauto.
          - injection E as -> _. tauto.
          - injection E as <- E. destruct (IH ltac:(tauto) l E ltac:(tauto)) as [-> ->].
            auto. }
        lia.
    + apply Nat.leb_gt in Hlen. split; [|reflexivity].
      intros _. right. exists label, payload. repeat split; auto. lia.
  - unfold DhcpParse. rewrite split1_without by assumption.
    split; [tauto|reflexivity].
Qed.

Lemma split_fields_clean (sep : char) (s : text) :
  Forall (fun f => ~ In sep f) (Py.split sep s).
Proof.
  induction s as [|c s IH]; cbn [Py.split].
  - constructor; [simpl; tauto|constructor].
  - destruct (N.eqb_spec c sep) as [->|Hc].
    + constructor; [simpl; tauto|assumption].
    + destruct (Py.split sep s) as [|f fs].
      * constructor; [|constructor]. simpl. intros [E|[]]. congruence.
      * inversion IH as [|? ? Hf Hfs]; subst. constructor; [|assumption].
        simpl. intros [E|E]; [congruence|tauto].
Qed.

Lemma split_ws_tokens (s : text) :
  Forall (fun t => t <> []
                   /\ forallb (fun c => negb (Py.Py_UNICODE_ISSPACE c)) t = true)
    (Py.split_ws s).
Proof.
  induction s as [|c s IH]; [constructor|].
  cbn [Py.split_ws].
  destruct (Py.Py_UNICODE_ISSPACE c) eqn:Hc; [assumption|].
  assert (Hone : [c] <> []
                 /\ forallb (fun c => negb (Py.Py_UNICODE_ISSPACE c)) [c] = true)
    by (split; [discriminate|simpl; now rewrite Hc]).
  destruct s as [|d s]; [repeat constructor; apply Hone|].
  destruct (Py.Py_UNICODE_ISSPACE d) eqn:Hd; [constructor; assumption|].
  destruct (Py.split_ws (d :: s)) as [|t ts]; [repeat constructor; apply Hone|].
  inversion IH as [|? ? [Ht Hts] Hrest]; subst.
  constructor; [|assumption].
  split; [discriminate|]. cbn [forallb]. now rewrite Hc, Hts.
Qed.

Lemma int_raises_only base s e : Py.int base s = Raise e -> e = ValueError.
Proof.
  unfold Py.int, Py.PyLong_FromString.
  generalize (Py.TransformDecimalAndSpaceToASCII s). intros t.
  destruct (Py.drop_while Py.Py_ISSPACE t) as [|c r]; cbv beta iota zeta.
  - cbn. congruence.
  - repeat match goal with
           | |- context [if ?b then _ else _] => destruct b
           | |- context [match ?x with _ => _ end] => destruct x
           end; congruence.
Qed.

Lemma decode_address_raises_only f e :
  decode_address f = Raise e -> e = ValueError \/ e = StructError.
Proof.
  unfold decode_address.
  destruct (Py.int 16 f) as [v|e'] eqn:E; cbn [rbind].
  - unfold Py.struct_pack_L. destruct (_ && _)%bool; cbn [rbind]; [discriminate|].
    intros [= <-]. now right.
  - intros [= <-]. left. eapply int_raises_only; eassumption.
Qed.

Lemma rmap_raises A B (f : A -> Result B) (P : exn -> Prop) l e :
  (forall a e, f a = Raise e -> P e) -> rmap f l = Raise e -> P e.
Proof.
  intros Hf. induction l as [|a l IH]; cbn [rmap]; [discriminate|].
  destruct (f a) as [b|e'] eqn:E; cbn [rbind].
  - destruct (rmap f l) as [bs|e'']; cbn [rbind]; [discriminate|].
    intros [= <-]. now apply IH.
  - intros [= <-]. eapply Hf; eassumption.
Qed.

Lemma rmap_forall2 A B (f : A -> Result B) l bs :
  rmap f l = Ret bs -> Forall2 (fun a b => f a = Ret b) l bs.
Proof.
  revert bs. induction l as [|a l IH]; cbn [rmap]; intros bs.
  - intros [= <-]. constructor.
  - destruct (f a) as [b|] eqn:E; cbn [rbind]; [|discriminate].
    destruct (rmap f l) as [bs'|]; cbn [rbind]; [|discriminate].
    intros [= <-]. constructor; auto.
Qed.

(** The six addresses of a line with at least eight fields. *)
Lemma decoded_addresses fa ips :
  8 <= List.length fa ->
  rmap decode_address (firstn 6 fa) = Ret ips ->
  exists p0 p1 p2 p3 p4 p5,
    ips = map Py.inet_ntoa [p0; p1; p2; p3; p4; p5]
    /\ Forall ipv4 [p0; p1; p2; p3; p4; p5].
Proof.
  intros Hlen H. apply rmap_forall2 in H.
  do 8 (destruct fa as [|? fa]; [cbn [List.length] in Hlen; lia|]).
  cbn [firstn] in H.
  repeat match goal with
         | H : Forall2 _ (_ :: _) _ |- _ => inversion H; subst; clear H
         | H : Forall2 _ [] _ |- _ => inversion H; subst; clear H
         | H : decode_address _ = Ret _ |- _ =>
             apply decode_address_ipv4 in H as (? & ? & ->)
         end.
  do 6 eexists. split; [reflexivity|]. repeat constructor; assumption.
Qed.

Lemma popcount_octet o : (o < 256)%N -> popcount o <= 8.
Proof.
  intros Ho. apply Nat.leb_le. revert o Ho.
  apply (@all_below_spec 256 (fun o => Nat.leb (popcount o) 8)).
  vm_compute. reflexivity.
Qed.

(** X2.  Three exceptions, and no other, escape [DhcpParse]: [ValueError]
    for a field that [int] rejects, [struct.error] for a value that does not
    fit 32 bits, and [IndexError] for an eighth field with nothing but white
    space in it. *)
Theorem DhcpParse_raises_only dhcp e :
  DhcpParse dhcp = Raise e ->
  e = ValueError \/ e = StructError \/ e = IndexError.
Proof.
  unfold DhcpParse.
  destruct (Py.split1 58%N dhcp) as [|label [|payload [|? ?]]]; try discriminate.
  generalize (Py.split 44%N payload). intros fa. cbv zeta.
  destruct (Nat.leb 8 (List.length fa)) eqn:Hlen; [|discriminate].
  apply Nat.leb_le in Hlen.
  destruct (rmap decode_address (firstn 6 fa)) as [ips|e'] eqn:Eips; cbn [rbind].
  - destruct (decoded_addresses fa Hlen Eips)
      as (p0 & p1 & p2 & p3 & p4 & p5 & -> & Hp).
    cbn [map nth]. rewrite netmaskbits_inet_ntoa
      by (inversion Hp as [|? ? _ Hp']; now inversion Hp').
    cbn [rbind]. destruct (Py.split_ws _); [|discriminate].
    intros [= <-]. auto.
  - intros [= <-].
    apply (rmap_raises decode_address
             (fun e => e = ValueError \/ e = StructError) (firstn 6 fa))
      in Eips; [tauto|].
    intros a e0. apply decode_address_raises_only.
Qed.

(** X3.  Every lease that [DhcpParse] returns is well formed: its six
    addresses are IPv4 addresses in dotted-decimal notation, its prefix
    length is the population count of its mask and is at most 32, its
    receive rate holds no comma, and its transmit rate is a non-empty token
    free of white space. *)
Theorem lease_well_formed dhcp lease :
  DhcpParse dhcp = Ret (Some lease) ->
  (exists a m g d p s,
     Forall ipv4 [a; m; g; d; p; s]
     /\ IpAddr lease = dotted_decimal a
     /\ Netmask lease = dotted_decimal m
     /\ Gateway lease = dotted_decimal g
     /\ DhcpServer lease = dotted_decimal d
     /\ DnsPrimary lease = dotted_decimal p
     /\ DnsSecondary lease = dotted_decimal s
     /\ NetmaskBits lease = mask_bits m)
  /\ NetmaskBits lease <= 32
  /\ ~ In 44%N (RxMaxBps lease)
  /\ TxMaxBps lease <> []
  /\ forallb (fun c => negb (Py.Py_UNICODE_ISSPACE c)) (TxMaxBps lease) = true.
Proof.
  unfold DhcpParse.
  destruct (Py.split1 58%N dhcp) as [|label [|payload [|? ?]]]; try discriminate.
  pose proof (split_fields_clean 44%N payload) as Hclean. revert Hclean.
  generalize (Py.split 44%N payload). intros fa Hclean. cbv zeta.
  destruct (Nat.leb 8 (List.length fa)) eqn:Hlen; [|discriminate].
  apply Nat.leb_le in Hlen.
  destruct (rmap decode_address (firstn 6 fa)) as [ips|e'] eqn:Eips; cbn [rbind];
    [|discriminate].
  destruct (decoded_addresses fa Hlen Eips) as (a & m & g & d & p & s & -> & Hp).
  assert (Hm : ipv4 m) by (inversion Hp as [|? ? _ Hp']; now inversion Hp').
  cbn [map nth]. rewrite netmaskbits_inet_ntoa by assumption. cbn [rbind].
  pose proof (split_ws_tokens (nth 7 fa [])) as Htok.
  destruct (Py.split_ws (nth 7 fa [])) as [|tx toks]; [discriminate|].
  intros H.
  assert (Hl : match Ret (Some lease) with Ret (Some l) => l | _ => lease end
               = lease) by reflexivity.
  rewrite <- H in Hl. cbv beta iota in Hl. subst lease.
  cbn [IpAddr Netmask Gateway DhcpServer DnsPrimary DnsSecondary RxMaxBps
       TxMaxBps NetmaskBits].
  assert (Hbits : list_sum [popcount (fst (fst (fst m)));
                            popcount (snd (fst (fst m)));
                            popcount (snd (fst m)); popcount (snd m)]
                  = mask_bits m).
  { destruct m as [[[m0 m1] m2] m3]. cbn [fst snd mask_bits].
    unfold list_sum; cbn [fold_right]. lia. }
  rewrite Hbits.
  split; [exists a, m, g, d, p, s; rewrite !inet_ntoa_dotted; auto 10|].
  split.
  { destruct m as [[[m0 m1] m2] m3]. destruct Hm as (H0 & H1 & H2 & H3).
    cbn [mask_bits].
    pose proof (popcount_octet H0). pose proof (popcount_octet H1).
    pose proof (popcount_octet H2). pose proof (popcount_octet H3). lia. }
  split.
  { rewrite Forall_forall in Hclean. apply Hclean. apply nth_In. lia. }
  inversion Htok as [|? ? [Hne Hws] _]; subst. auto.
Qed.

Lemma isspace_props c :
  Py.Py_ISSPACE c = true ->
  (c <? 128)%N = true /\ (c =? 95)%N = false /\ Py.digit_val c = None.
Proof.
  intros H.
  assert (Hc : (c < 33)%N).
  { unfold Py.Py_ISSPACE in H. apply orb_true_iff in H as [H|H].
    - apply andb_true_iff in H as [_ H]. apply N.leb_le in H. lia.
    - apply N.eqb_eq in H. lia. }
  pose proof (@all_below_spec 33
    (fun c => implb (Py.Py_ISSPACE c)
                ((c <? 128)%N && negb (c =? 95)%N
                 && match Py.digit_val c with None => true | Some _ => false end))
    ltac:(vm_compute; reflexivity) c Hc) as P.
  cbv beta in P. rewrite H in P. cbn [implb] in P.
  apply andb_true_iff in P as [P P3]. apply andb_true_iff in P as [P1 P2].
  apply negb_true_iff in P2.
  destruct (Py.digit_val c); [discriminate|]. auto.
Qed.

Lemma drop_blank_prefix pad s :
  blank pad ->
  Py.drop_while Py.Py_ISSPACE (pad ++ s) = Py.drop_while Py.Py_ISSPACE s.
Proof.
  unfold blank. induction pad as [|c pad IH]; cbn [app forallb Py.drop_while];
    [reflexivity|].
  intros H. apply andb_true_iff in H as [Hc H]. rewrite Hc. auto.
Qed.

Lemma drop_blank pad : blank pad -> Py.drop_while Py.Py_ISSPACE pad = [].
Proof.
  intros H. rewrite <- (app_nil_r pad) at 1. now rewrite drop_blank_prefix.
Qed.

Lemma scan_hex_digits_then lower ds pad : forall acc n,
  Forall (fun d => (d < 16)%N) ds -> blank pad ->
  Py.scan_digits 16 false acc n (map (hex_digit lower) ds ++ pad)
  = Some (digits_value acc ds, n + List.length ds, pad).
Proof.
  induction ds as [|d ds IH]; intros acc n Hall Hpad.
  - cbn [map app digits_value List.length]. rewrite Nat.add_0_r.
    destruct pad as [|c pad]; [reflexivity|].
    unfold blank in Hpad. cbn [forallb] in Hpad.
    apply andb_true_iff in Hpad as [Hc _].
    destruct (isspace_props c Hc) as (_ & Hus & Hv).
    cbn [Py.scan_digits]. now rewrite Hus, Hv.
  - inversion Hall as [|? ? Hd Hds]; subst.
    destruct (hex_digit_props lower Hd) as (Hv & _ & _ & _ & _ & Hus & _).
    cbn [map app Py.scan_digits digits_value List.length].
    rewrite Hus, Hv. apply N.ltb_lt in Hd. rewrite Hd.
    rewrite IH by assumption. now rewrite Nat.add_succ_r.
Qed.

Lemma int_hex_digits_padded lower pad d e ds pad' :
  Forall (fun d => (d < 16)%N) (d :: e :: ds) -> blank pad -> blank pad' ->
  Py.int 16 (pad ++ map (hex_digit lower) (d :: e :: ds) ++ pad')
  = Ret (digits_value 0 (d :: e :: ds)).
Proof.
  intros Hall Hpad Hpad'.
  assert (Hascii : forallb (fun c => (c <? 128)%N)
                     (pad ++ map (hex_digit lower) (d :: e :: ds) ++ pad')
                   = true).
  { rewrite !forallb_app. rewrite !andb_true_iff. repeat split.
    - rewrite forallb_forall. intros c Hc. unfold blank in Hpad.
      rewrite forallb_forall in Hpad. apply (isspace_props c (Hpad c Hc)).
    - rewrite forallb_forall. intros c Hc.
      apply in_map_iff in Hc as (x & <- & Hx).
      rewrite Forall_forall in Hall. apply (hex_digit_props lower (Hall x Hx)).
    - rewrite forallb_forall. intros c Hc. unfold blank in Hpad'.
      rewrite forallb_forall in Hpad'. apply (isspace_props c (Hpad' c Hc)). }
  unfold Py.int, Py.TransformDecimalAndSpaceToASCII. rewrite Hascii.
  unfold Py.PyLong_FromString. rewrite drop_blank_prefix by assumption.
  inversion Hall as [|? ? Hd Hrest]; subst.
  inversion Hrest as [|? ? He Hds]; subst.
  destruct (hex_digit_props lower Hd)
    as (_ & _ & Hsp & Hplus & Hminus & Hus & _).
  destruct (hex_digit_props lower He)
    as (_ & _ & _ & _ & _ & _ & Hx & HX & _).
  cbn [map app Py.drop_while]. rewrite Hsp, Hplus, Hminus.
  cbv beta iota zeta. rewrite Hx, HX, andb_false_r.
  cbn [Py.starts_with]. rewrite (N.eqb_sym 95 (hex_digit lower d)), Hus.
  cbn [andb].
  change (hex_digit lower d :: hex_digit lower e :: map (hex_digit lower) ds ++ pad')
    with (map (hex_digit lower) (d :: e :: ds) ++ pad').
  rewrite scan_hex_digits_then by assumption.
  cbn [List.length Nat.add Nat.eqb]. cbn [Py.is_binary_base N.eqb Pos.eqb orb negb andb].
  now rewrite drop_blank.
Qed.

(** White space around the eight hexadecimal digits of an address field
    changes nothing: [int] strips it. *)
Lemma decode_address_padded lower pad a pad' :
  ipv4 a -> blank pad -> blank pad' ->
  decode_address (pad ++ little_endian_hex lower a ++ pad')
  = Ret (dotted_decimal a).
Proof.
  intros Ha Hpad Hpad'. destruct a as [[[o0 o1] o2] o3].
  pose proof Ha as (H0 & H1 & H2 & H3).
  unfold decode_address, little_endian_hex, hex_octet. cbn [app].
  change [hex_digit lower (o3 / 16); hex_digit lower (o3 mod 16);
          hex_digit lower (o2 / 16); hex_digit lower (o2 mod 16);
          hex_digit lower (o1 / 16); hex_digit lower (o1 mod 16);
          hex_digit lower (o0 / 16); hex_digit lower (o0 mod 16)]%N
    with (map (hex_digit lower)
            [o3 / 16; o3 mod 16; o2 / 16; o2 mod 16;
             o1 / 16; o1 mod 16; o0 / 16; o0 mod 16]%N).
  change (hex_digit lower (o3 / 16) :: hex_digit lower (o3 mod 16)
          :: hex_digit lower (o2 / 16) :: hex_digit lower (o2 mod 16)
          :: hex_digit lower (o1 / 16) :: hex_digit lower (o1 mod 16)
          :: hex_digit lower (o0 / 16) :: hex_digit lower (o0 mod 16) :: pad')%N
    with (map (hex_digit lower)
            [o3 / 16; o3 mod 16; o2 / 16; o2 mod 16;
             o1 / 16; o1 mod 16; o0 / 16; o0 mod 16]%N ++ pad').
  rewrite int_hex_digits_padded; try assumption.
  2:{ repeat constructor;
        first [ apply N.mod_lt; discriminate
              | apply N.Div0.div_lt_upper_bound; lia ]. }
  cbn [rbind].
  replace (digits_value 0 _) with (Z.of_N (word_of (o0, o1, o2, o3))).
  2:{ change [o3 / 16; o3 mod 16; o2 / 16; o2 mod 16;
              o1 / 16; o1 mod 16; o0 / 16; o0 mod 16]%N
        with ([o3 / 16; o3 mod 16] ++ [o2 / 16; o2 mod 16]
              ++ [o1 / 16; o1 mod 16] ++ [o0 / 16; o0 mod 16])%N.
      rewrite !digits_value_app, !hex_octet_value by assumption.
      unfold word_of. lia. }
  rewrite struct_pack_word by assumption. cbn [rbind].
  now rewrite inet_ntoa_dotted.
Qed.

Lemma blank_no_comma pad : blank pad -> ~ In 44%N pad.
Proof.
  unfold blank. rewrite forallb_forall. intros H Hin.
  specialize (H _ Hin). vm_compute in H. discriminate.
Qed.

Lemma split_ws_first tx w trailer :
  tx <> [] ->
  forallb (fun c => negb (Py.Py_UNICODE_ISSPACE c)) tx = true ->
  Py.Py_UNICODE_ISSPACE w = true ->
  exists toks, Py.split_ws (tx ++ w :: trailer) = tx :: toks.
Proof.
  induction tx as [|c tx IH]; [congruence|]. intros _ Hall Hw.
  cbn [forallb] in Hall. apply andb_true_iff in Hall as [Hc Hall].
  apply negb_true_iff in Hc.
  cbn [app Py.split_ws]. rewrite Hc.
  destruct tx as [|d tx].
  - cbn [app]. rewrite Hw. eauto.
  - destruct (IH ltac:(discriminate) Hall Hw) as (toks & E).
    cbn [app] in *. cbn [forallb] in Hall.
    apply andb_true_iff in Hall as [Hd _]. apply negb_true_iff in Hd.
    rewrite Hd, E. eauto.
Qed.

(** X4.  The parser on the reply of the modem as it arrives.  The line is
    any label without a colon, a colon, optional white space, six addresses
    as little-endian hexadecimal words, a receive rate, and a transmit rate
    followed by a white-space character and whatever else the modem sent
    (the end of line and the closing OK).  [DhcpParse] returns the lease with
    the six addresses in dotted-decimal notation, the receive rate as sent,
    the transmit rate cut at the white space, and the population count of
    the mask. *)
Theorem DhcpParse_modem_reply lower label pad a0 a1 a2 a3 a4 a5 rx tx w trailer :
  Forall ipv4 [a0; a1; a2; a3; a4; a5] ->
  ~ In 58%N label -> blank pad ->
  ~ In 44%N rx ->
  tx <> [] -> ~ In 44%N tx ->
  forallb (fun c => negb (Py.Py_UNICODE_ISSPACE c)) tx = true ->
  Py.Py_UNICODE_ISSPACE w = true -> ~ In 44%N trailer ->
  DhcpParse
    (label ++ lit ":" ++ pad
     ++ join 44%N (map (little_endian_hex lower) [a0; a1; a2; a3; a4; a5]
                   ++ [rx; tx ++ w :: trailer]))
  = Ret (Some {| IpAddr := dotted_decimal a0;
                 Netmask := dotted_decimal a1;
                 Gateway := dotted_decimal a2;
                 DhcpServer := dotted_decimal a3;
                 DnsPrimary := dotted_decimal a4;
                 DnsSecondary := dotted_decimal a5;
                 RxMaxBps := rx;
                 TxMaxBps := tx;
                 NetmaskBits := mask_bits a1 |}).
Proof.
  intros Hall Hlabel Hpad Hrx Htx Htxc Htxw Hw Htrailer.
  assert (I0 : ipv4 a0 /\ ipv4 a1 /\ ipv4 a2 /\ ipv4 a3 /\ ipv4 a4 /\ ipv4 a5).
  { rewrite Forall_forall in Hall. repeat split; apply Hall; simpl; tauto. }
  destruct I0 as (I0 & I1 & I2 & I3 & I4 & I5).
  destruct (@split_ws_first tx w trailer Htx Htxw Hw) as (toks & Etx).
  assert (Hw44 : w <> 44%N) by (intros ->; discriminate).
  change (lit ":") with [58%N]. cbn [app].
  rewrite DhcpParse_payload by assumption. cbv zeta.
  cbn [map app join].
  change (pad ++ little_endian_hex lower a0
              ++ 44%N :: ?rest)
    with (pad ++ little_endian_hex lower a0 ++ 44%N :: rest).
  rewrite (app_assoc pad).
  rewrite split_field.
  2:{ intros Hin. apply in_app_or in Hin as [Hin|Hin].
      - now apply (blank_no_comma Hpad).
      - now apply (@little_endian_hex_no_comma lower a0 I0). }
  rewrite !split_field by (try apply little_endian_hex_no_comma; assumption).
  rewrite split_last.
  2:{ intros Hin. apply in_app_or in Hin as [Hin|[Hin|Hin]]; tauto. }
  cbn [List.length Nat.leb firstn rmap nth].
  rewrite <- (app_nil_r (little_endian_hex lower a0)).
  rewrite decode_address_padded by (try assumption; reflexivity).
  rewrite !decode_little_endian_hex by assumption. cbn [rbind nth].
  destruct a1 as [[[m0 m1] m2] m3].
  change (dotted_decimal (m0, m1, m2, m3)) with (Py.inet_ntoa (m0, m1, m2, m3)).
  rewrite netmaskbits_inet_ntoa by assumption.
  cbn [rbind]. unfold char, text in *. rewrite Etx. cbn [fst snd mask_bits].
  replace (list_sum [popcount m0; popcount m1; popcount m2; popcount m3])
    with (popcount m0 + popcount m1 + popcount m2 + popcount m3)
    by (unfold list_sum; cbn [fold_right]; lia).
  reflexivity.
Qed.

(** X5.  [DhcpParse] reads neither the label before the first colon nor
    any field after the eighth: another label and no further fields give
    the same result, whether a lease or an exception. *)
Theorem DhcpParse_ignores_label_and_extra_fields label label' fields extra :
  ~ In 58%N label -> ~ In 58%N label' ->
  List.length fields = 8 ->
  Forall (fun f => ~ In 44%N f) (fields ++ extra) ->
  DhcpParse (label ++ lit ":" ++ join 44%N (fields ++ extra))
  = DhcpParse (label' ++ lit ":" ++ join 44%N fields).
Proof.
  intros Hl Hl' Hlen Hclean.
  change (lit ":") with [58%N]. cbn [app].
  rewrite !DhcpParse_payload by assumption. cbv zeta.
  do 8 (destruct fields as [|? fields]; [discriminate|]).
  destruct fields; [|discriminate].
  rewrite !split_join; try discriminate; try assumption.
  2:{ apply Forall_app in Hclean. tauto. }
  cbn [app List.length Nat.leb firstn nth]. reflexivity.
Qed.

(** ** Literal patterns *)

Lemma starts_with_spec (pat s : text) :
  Py.starts_with pat s = true <-> exists r, s = pat ++ r.
Proof.
  revert s. induction pat as [|p pat IH]; intros s; cbn [Py.starts_with app].
  - split; eauto.
  - destruct s as [|c s].
    + split; [discriminate|]. intros (r & E). discriminate.
    + rewrite andb_true_iff, N.eqb_eq, IH. split.
      * intros (-> & r & ->). eauto.
      * intros (r & E). injection E as -> ->. eauto.
Qed.

Lemma skipn_prefix (pat r : text) : skipn (List.length pat) (pat ++ r) = r.
Proof. induction pat; simpl; auto. Qed.

(** [find_after] finds the leftmost occurrence. *)
Lemma find_after_some (pat s r : text) :
  Py.find_after pat s = Some r ->
  exists pre,
    s = pre ++ pat ++ r
    /\ forall pre' post', s = pre' ++ pat ++ post' ->
                          List.length pre <= List.length pre'.
Proof.
  induction s as [|c s IH]; cbn [Py.find_after].
  - destruct (Py.starts_with pat []) eqn:E; [|discriminate].
    apply starts_with_spec in E as (r' & E). intros [= <-].
    exists []. split; [|intros; simpl; lia].
    cbn [app]. rewrite E at 2. now rewrite skipn_prefix.
  - destruct (Py.starts_with pat (c :: s)) eqn:E.
    + apply starts_with_spec in E as (r' & E). intros [= <-].
      exists []. split; [|intros; simpl; lia].
      cbn [app]. rewrite E at 2. now rewrite skipn_prefix.
    + intros H. destruct (IH H) as (pre & -> & Hmin).
      exists (c :: pre). split; [reflexivity|].
      intros [|c' pre'] post' E'.
      * exfalso. cbn [app] in E'.
        assert (Py.starts_with pat (c :: pre ++ pat ++ r) = true)
          by (apply starts_with_spec; eauto).
        congruence.
      * cbn [app] in E'. injection E' as _ E'.
        specialize (Hmin _ _ E'). simpl. lia.
Qed.

Lemma find_after_none (pat s : text) :
  Py.find_after pat s = None -> ~ occurs pat s.
Proof.
  induction s as [|c s IH]; cbn [Py.find_after].
  - destruct (Py.starts_with pat []) eqn:E; [discriminate|]. intros _ (pre & post & H).
    destruct pre; [|discriminate]. cbn [app] in H.
    assert (Py.starts_with pat [] = true) by (apply starts_with_spec; eauto).
    congruence.
  - destruct (Py.starts_with pat (c :: s)) eqn:E; [discriminate|].
    intros H (pre & post & E'). destruct pre as [|c' pre].
    + cbn [app] in E'.
      assert (Py.starts_with pat (c :: s) = true)
        by (apply starts_with_spec; eauto).
      congruence.
    + cbn [app] in E'. injection E' as _ E'.
      apply (IH H). exists pre, post. assumption.
Qed.

Lemma re_search_occurs (pat s : text) :
  Py.re_search pat s = true <-> occurs pat s.
Proof.
  unfold Py.re_search. destruct (Py.find_after pat s) as [r|] eqn:E.
  - split; [|reflexivity]. intros _.
    apply find_after_some in E as (pre & -> & _). now exists pre, r.
  - split; [discriminate|]. intros H. now apply find_after_none in E.
Qed.

Lemma re_search_not_occurs (pat s : text) :
  Py.re_search pat s = false <-> ~ occurs pat s.
Proof.
  rewrite <- re_search_occurs. destruct (Py.re_search pat s); split; congruence.
Qed.

(** ** The exchanges, on every world *)

Lemma utf8_decode_raises_only : forall n bs e,
  List.length bs <= n -> Py.utf8_decode bs = Raise e -> e = UnicodeDecodeError.
Proof.
  induction n as [|n IH]; intros bs e Hlen.
  - destruct bs; [discriminate|simpl in Hlen; lia].
  - destruct bs as [|b0 r0]; [discriminate|]. cbn [List.length] in Hlen.
    cbn [Py.utf8_decode].
    assert (Hk : forall r (f : N), List.length r <= n ->
              rbind (Py.utf8_decode r) (fun t => Ret (f :: t)) = Raise e ->
              e = UnicodeDecodeError).
    { intros r f Hr. destruct (Py.utf8_decode r) eqn:E; cbn [rbind];
        [discriminate|]. intros [= <-]. eapply IH; eassumption. }
    repeat match goal with
           | |- context [if ?b then _ else _] => destruct b
           | |- context [match ?x with [] => _ | _ :: _ => _ end] =>
               destruct x; cbn [List.length] in Hlen
           end;
      try (intros [= <-]; reflexivity);
      apply Hk; lia.
Qed.

Lemma decode_raises_only b e : Py.decode b = Raise e -> e = UnicodeDecodeError.
Proof.
  intros H. unfold Py.decode in H.
  eapply utf8_decode_raises_only; [|exact H]. apply Nat.le_refl.
Qed.

Lemma heard_none data :
  heard data = None -> data = [] \/ Py.decode data = Raise UnicodeDecodeError.
Proof.
  unfold heard. destruct data as [|b d]; [auto|].
  destruct (Py.decode (b :: d)) as [s|e] eqn:E; [discriminate|].
  intros _. right. f_equal. eapply decode_raises_only; eassumption.
Qed.

Ltac token_cases :=
  repeat match goal with
         | H : Py.re_search _ _ = true |- _ => apply re_search_occurs in H
         | H : Py.re_search _ _ = false |- _ => apply re_search_not_occurs in H
         end.

(** X6.  [OpenModem] catches the failure to open the port.  When the port
    opens it returns the port, opened with a timeout of two seconds, and
    prints nothing; when [serial.Serial] raises [SerialException] it returns
    [None], leaves the timeout and the serial log alone, and prints its
    message at verbosity 1 and above only. *)
Theorem OpenModem_outcome verbose device w :
  let '(r, w') := OpenModem verbose device w in
  if hd false (open_script w) then
    r = Ret (Some SerialPort)
    /\ ser_timeout w' = 2%Z
    /\ ser_log w' = ser_log w ++ [SerOpen device 2]
    /\ stdout w' = stdout w
  else
    r = Ret None
    /\ ser_timeout w' = ser_timeout w
    /\ ser_log w' = ser_log w
    /\ stdout w'
       = stdout w ++ (if 1 <=? verbose
                      then [Line (lit "Failed to open serial port")] else []).
Proof.
  destruct w as [os rs ps t sl ol so]. cbn [open_script ser_timeout ser_log stdout].
  unfold OpenModem, try_except, serial_Serial.
  destruct os as [|[|] os]; cbn [hd]; destruct (1 <=? verbose) eqn:V1; crunch;
    repeat split; now rewrite ?app_nil_r.
Qed.

(** X8.  [ModemConnect] at every input.  It writes the connect command
    and reads once, at most 30 octets.  On text it returns [True] exactly
    when OK occurs in the text and [False] exactly when it does not; on an
    empty read it raises [UnboundLocalError], on octets that are not UTF-8
    [UnicodeDecodeError].  In every case the serial log gains the write and
    the read, one scripted read is consumed, and the timeout and the OS log
    are unchanged. *)
Theorem ModemConnect_outcome verbose w :
  let data := firstn 30 (hd [] (read_script w)) in
  let '(r, w') := ModemConnect verbose (Some SerialPort) w in
  (forall s, heard data = Some s ->
             (r = Ret true <-> occurs (lit "OK") s)
             /\ (r = Ret false <-> ~ occurs (lit "OK") s))
  /\ (heard data = None ->
      r = Raise match data with
                | [] => UnboundLocalError
                | _ :: _ => UnicodeDecodeError
                end)
  /\ ser_log w' = ser_log w ++ [SerWrite connect_command;
                                SerRead 30 (ser_timeout w) data]
  /\ read_script w' = tl (read_script w)
  /\ ser_timeout w' = ser_timeout w
  /\ os_log w' = os_log w.
Proof.
  cbv zeta. destruct w as [os rs ps t sl ol so].
  cbn [read_script ser_timeout ser_log os_log].
  unfold ModemConnect. rewrite encode_connect.
  destruct (firstn 30 (hd [] rs)) as [|b d] eqn:E.
  { destruct (2 <=? verbose) eqn:V2; crunch; rewrite snoc2;
      (split; [intros s; discriminate|]); repeat split. }
  pose proof (@heard_none (b :: d)) as Hnone. unfold heard in *.
  destruct (Py.decode (b :: d)) as [s|e] eqn:D.
  - destruct (Py.re_search (lit "OK") s) eqn:Ok;
      destruct (2 <=? verbose) eqn:V2; destruct (1 <=? verbose) eqn:V1;
      crunch; rewrite snoc2; token_cases;
      (split; [intros s' [= <-]; split; split; congruence || tauto|]);
      (split; [discriminate|]); repeat split.
  - destruct (Hnone eq_refl) as [?|[= ->]]; [discriminate|].
    crunch; rewrite snoc2.
    (split; [intros s; discriminate|]); repeat split.
Qed.

(** X9.  [ModemDhcpStatus] at every input.  It writes the DHCP query and
    reads once, at most 100 octets.  On text in which OK occurs it returns
    what [DhcpParse] makes of the whole text, exception included; on text
    without OK it returns [None]; on an empty read it raises
    [UnboundLocalError], on octets that are not UTF-8 [UnicodeDecodeError].
    In every case the serial log gains the write and the read, one scripted
    read is consumed, and the timeout and the OS log are unchanged. *)
Theorem ModemDhcpStatus_outcome verbose w :
  let data := firstn 100 (hd [] (read_script w)) in
  let '(r, w') := ModemDhcpStatus verbose (Some SerialPort) w in
  (forall s, heard data = Some s ->
             (occurs (lit "OK") s -> r = DhcpParse s)
             /\ (~ occurs (lit "OK") s -> r = Ret None))
  /\ (heard data = None ->
      r = Raise match data with
                | [] => UnboundLocalError
                | _ :: _ => UnicodeDecodeError
                end)
  /\ ser_log w' = ser_log w ++ [SerWrite dhcp_command;
                                SerRead 100 (ser_timeout w) data]
  /\ read_script w' = tl (read_script w)
  /\ ser_timeout w' = ser_timeout w
  /\ os_log w' = os_log w.
Proof.
  cbv zeta. destruct w as [os rs ps t sl ol so].
  cbn [read_script ser_timeout ser_log os_log].
  unfold ModemDhcpStatus. rewrite encode_dhcp.
  destruct (firstn 100 (hd [] rs)) as [|b d] eqn:E.
  { destruct (2 <=? verbose) eqn:V2; crunch; rewrite snoc2;
      (split; [intros s; discriminate|]); repeat split. }
  pose proof (@heard_none (b :: d)) as Hnone. unfold heard in *.
  destruct (Py.decode (b :: d)) as [s|e] eqn:D.
  - destruct (Py.re_search (lit "OK") s) eqn:Ok;
      destruct (DhcpParse s) as [[l|]|e] eqn:P;
      destruct (2 <=? verbose) eqn:V2;
      crunch; rewrite snoc2; token_cases;
      (split; [intros s' [= <-]; split; intros; congruence || tauto|]);
      (split; [discriminate|]); repeat split.
  - destruct (Hnone eq_refl) as [?|[= ->]]; [discriminate|].
    crunch; rewrite snoc2.
    (split; [intros s; discriminate|]); repeat split.
Qed.

(** X10.  When OK occurs in the first reply to the hangup command,
    [ModemHangup] returns [True] after that one read: there is no second
    read, the timeout is not touched, and below verbosity 2 nothing is
    printed. *)
Theorem hangup_immediate_success verbose w s1 :
  let first := firstn 20 (hd [] (read_script w)) in
  heard first = Some s1 ->
  occurs (lit "OK") s1 ->
  let '(r, w') := ModemHangup verbose (Some SerialPort) w in
  r = Ret true
  /\ ser_log w' = ser_log w ++ [SerWrite hangup_command;
                                SerRead 20 (ser_timeout w) first]
  /\ read_script w' = tl (read_script w)
  /\ ser_timeout w' = ser_timeout w
  /\ (verbose < 2 -> stdout w' = stdout w).
Proof.
  cbv zeta. intros Hheard Hok.
  apply heard_some in Hheard as [Hne Hdec].
  apply re_search_occurs in Hok.
  destruct w as [os rs ps t sl ol so]. cbn [read_script] in *.
  unfold ModemHangup. rewrite encode_hangup.
  destruct (firstn 20 (hd [] rs)) as [|b1 d1] eqn:E1; [congruence|].
  destruct (2 <=? verbose) eqn:V2; crunch; rewrite snoc2; repeat split.
  apply Nat.leb_le in V2. lia.
Qed.

(** X11.  The serial traffic of [ModemHangup] at every input, whether it
    returns or raises.  It writes the command and reads at most 20 octets; it
    reads a second time, at most 10 octets under a timeout of 20 seconds,
    exactly when the first reply is text with neither OK nor ERROR in it.
    Afterwards the timeout has its old value, except when the second read
    delivered octets that are not UTF-8: the exception is raised before the
    timeout is restored, which stays at 20.  No OS command is issued. *)
Theorem hangup_serial_activity verbose w :
  let first := firstn 20 (hd [] (read_script w)) in
  let delayed := firstn 10 (hd [] (tl (read_script w))) in
  let w' := snd (ModemHangup verbose (Some SerialPort) w) in
  ser_log w'
  = ser_log w
    ++ [SerWrite hangup_command; SerRead 20 (ser_timeout w) first]
    ++ (if awaits_completion first then [SerRead 10 20 delayed] else [])
  /\ read_script w'
     = (if awaits_completion first
        then tl (tl (read_script w)) else tl (read_script w))
  /\ ser_timeout w'
     = match delayed, heard delayed with
       | _ :: _, None =>
           if awaits_completion first then 20%Z else ser_timeout w
       | _, _ => ser_timeout w
       end
  /\ os_log w' = os_log w.
Proof.
  cbv zeta. destruct w as [os rs ps t sl ol so].
  cbn [read_script ser_timeout ser_log os_log].
  unfold ModemHangup, awaits_completion, heard. rewrite encode_hangup.
  destruct (firstn 20 (hd [] rs)) as [|b1 d1] eqn:E1;
    [ | destruct (Py.decode (b1 :: d1)) as [s1|e1] eqn:D1;
        [ destruct (Py.re_search (lit "OK") s1) eqn:Ok1;
          destruct (Py.re_search (lit "ERROR") s1) eqn:Err1 | ] ];
    destruct (2 <=? verbose) eqn:V2; destruct (1 <=? verbose) eqn:V1;
    (destruct (firstn 10 (hd [] (tl rs))) as [|b2 d2] eqn:E2;
     [ | destruct (Py.decode (b2 :: d2)) as [s2|e2] eqn:D2;
         [ destruct (Py.re_search (lit "OK") s2) eqn:Ok2 | ] ];
     crunch; cbn [snd ser_log read_script ser_timeout os_log app negb andb];
     rewrite ?snoc3, ?snoc2; repeat split).
Qed.

(** ** The reconciler *)

Lemma text_eqb_eq (a b : text) : text_eqb a b = true <-> a = b.
Proof.
  unfold text_eqb. destruct (list_eq_dec N.eq_dec a b); split;
    congruence || discriminate.
Qed.

Lemma address_commands_nil d s lease :
  address_commands d s lease = []
  <-> search_address (lit "inet ") s = Some (IpAddr lease)
      /\ search_address (lit "netmask ") s = Some (Netmask lease).
Proof.
  unfold address_commands, up_to_date, shows.
  destruct (search_address (lit "inet ") s) as [a|];
    destruct (search_address (lit "netmask ") s) as [m|]; cbn [andb];
    try (split; [discriminate|intros [? ?]; discriminate]).
  - destruct (text_eqb a (IpAddr lease)) eqn:EA;
      destruct (text_eqb m (Netmask lease)) eqn:EM; cbn [andb];
      rewrite ?text_eqb_eq in *; split;
      try discriminate; try (intros _; split; congruence);
      intros [[= ?] [= ?]]; subst;
      match goal with
      | H : text_eqb ?x ?x = false |- _ =>
          assert (text_eqb x x = true) by (now apply text_eqb_eq); congruence
      end.
  - destruct (text_eqb a (IpAddr lease)); cbn [andb];
      (split; [discriminate|intros [? ?]; discriminate]).
Qed.

Lemma gateway_commands_nil gateway s :
  gateway_commands gateway s = []
  <-> exists cur, gateway_info s = Some cur /\ gw_IpAddr cur = gateway.
Proof.
  unfold gateway_commands, add_route_command.
  destruct (gateway_info s) as [cur|].
  - destruct (text_eqb (gw_IpAddr cur) gateway) eqn:E; split.
    + intros _. exists cur. split; [reflexivity|now apply text_eqb_eq].
    + reflexivity.
    + discriminate.
    + intros (cur' & [= <-] & H). apply text_eqb_eq in H. congruence.
  - split; [discriminate|intros (cur & [=] & _)].
Qed.

(** X13.  [EraseInterfaceIpAddress] returns normally whether or not the
    interface is there.  It queries the interface with ifconfig and flushes
    the addresses of the interface exactly when that query succeeds; it
    starts no other program. *)
Theorem EraseInterfaceIpAddress_commands verbose d w :
  let '(r, w') := EraseInterfaceIpAddress verbose d w in
  r = Ret tt
  /\ os_log w'
     = os_log w ++ Spawn [ifconfig; d]
                   :: (if fst (next_outcome w) then [flush_command d] else [])
  /\ proc_script w' = tl (proc_script w).
Proof.
  destruct w as [os rs ps t sl ol so]. unfold next_outcome.
  cbn [proc_script os_log].
  unfold EraseInterfaceIpAddress, GetInterface, flush_command.
  destruct (hd (false, []) ps) as [found out] eqn:E1.
  destruct found; destruct (2 <=? verbose) eqn:V2;
    destruct (1 <=? verbose) eqn:V1; crunch_os;
    rewrite <- ?app_assoc; repeat split.
Qed.

Lemma GetGatewayInfo_listing verbose d w s :
  d <> [] ->
  Py.decode (snd (next_outcome w)) = Ret s ->
  exists w',
    GetGatewayInfo verbose d w = (Ret (gateway_info s), w')
    /\ os_log w' = os_log w ++ route_query d
    /\ proc_script w' = tl (proc_script w)
    /\ ser_log w' = ser_log w.
Proof.
  intros Hd. destruct d as [|c d]; [congruence|].
  destruct w as [os rs ps t sl ol so]. unfold next_outcome.
  cbn [proc_script os_log ser_log]. intros Hdec.
  unfold GetGatewayInfo, gateway_info, route_query.
  destruct (hd (false, []) ps) as [status listing] eqn:E1.
  cbn [snd] in Hdec.
  destruct (Py.find_after (lit "default") s) as [rest|] eqn:F;
    destruct (2 <=? verbose) eqn:V2; destruct (1 <=? verbose) eqn:V1;
    crunch_os; eexists; (split; [reflexivity|]);
    cbn [os_log proc_script ser_log]; rewrite <- ?app_assoc; repeat split.
Qed.

(** X14.  [UpdateInterfaceIpAddress] with a lease, at every input.  It
    queries the interface with ifconfig.  When the query fails it changes
    nothing.  When the output is not UTF-8 the exception escapes.  Otherwise
    it flushes the interface and adds the address of the lease with its
    prefix length, unless the output already shows both: no command is
    issued exactly when the address found after [inet ] is the address of
    the lease and the mask found after [netmask ] is its mask. *)
Theorem UpdateInterfaceIpAddress_commands verbose d lease w :
  let '(r, w') := UpdateInterfaceIpAddress verbose d (Some lease) w in
  let query := Spawn [ifconfig; d] in
  proc_script w' = tl (proc_script w)
  /\ if fst (next_outcome w) then
       match Py.decode (snd (next_outcome w)) with
       | Ret s =>
           r = Ret tt
           /\ os_log w' = os_log w ++ query :: address_commands d s lease
           /\ (address_commands d s lease = []
               <-> search_address (lit "inet ") s = Some (IpAddr lease)
                   /\ search_address (lit "netmask ") s
                      = Some (Netmask lease))
       | Raise e => r = Raise e /\ os_log w' = os_log w ++ [query]
       end
     else r = Ret tt /\ os_log w' = os_log w ++ [query].
Proof.
  pose proof (fun s => address_commands_nil d s lease) as Hnil.
  destruct w as [os rs ps t sl ol so]. unfold next_outcome.
  cbn [proc_script os_log].
  unfold UpdateInterfaceIpAddress, GetInterface, GetIpAddr, GetIpMask,
    address_commands, up_to_date, shows, flush_command, add_address_command.
  destruct (hd (false, []) ps) as [found out] eqn:E1. cbn [fst snd].
  destruct found.
  - destruct (Py.decode out) as [s|e] eqn:D.
    + destruct (search_address (lit "inet ") s) as [a|] eqn:SA;
        destruct (search_address (lit "netmask ") s) as [m|] eqn:SM;
        try destruct (text_eqb a (IpAddr lease)) eqn:EA;
        try destruct (text_eqb m (Netmask lease)) eqn:EM;
        destruct (2 <=? verbose) eqn:V2; destruct (1 <=? verbose) eqn:V1;
        repeat (crunch_os; cbn [negb orb andb]);
        rewrite <- ?app_assoc;
        (split; [reflexivity|]); (split; [reflexivity|]);
        (split; [reflexivity|]); specialize (Hnil s);
        unfold address_commands, up_to_date, shows, flush_command,
          add_address_command in Hnil;
        rewrite ?SA, ?SM, ?EA, ?EM in Hnil; exact Hnil.
    + destruct (2 <=? verbose) eqn:V2; destruct (1 <=? verbose) eqn:V1;
        crunch_os; repeat split.
  - destruct (2 <=? verbose) eqn:V2; destruct (1 <=? verbose) eqn:V1;
      crunch_os; repeat split.
Qed.

(** X15.  [SetGateway] on a named interface whose route listing is text.
    It lists the routes; when there is no default route it adds one through
    the gateway; when the default route goes through another gateway it
    deletes that route, on the device the listing names, and adds the new
    one; and it issues no command at all exactly when the listing has a
    default route whose gateway is the one asked for. *)
Theorem SetGateway_commands verbose gateway d w s :
  d <> [] ->
  Py.decode (snd (next_outcome w)) = Ret s ->
  let '(r, w') := SetGateway verbose gateway d w in
  r = Ret tt
  /\ os_log w' = os_log w ++ route_query d ++ gateway_commands gateway s
  /\ proc_script w' = tl (proc_script w)
  /\ (gateway_commands gateway s = []
      <-> exists cur, gateway_info s = Some cur /\ gw_IpAddr cur = gateway).
Proof.
  intros Hd Hdec.
  pose proof (gateway_commands_nil gateway s) as Hnil. revert Hnil.
  generalize (gateway_commands gateway s = []
              <-> exists cur, gateway_info s = Some cur
                              /\ gw_IpAddr cur = gateway).
  intros Q HQ. 
  destruct (GetGatewayInfo_listing verbose w Hd Hdec) as (w1 & E & Hos & Hps & _).
  unfold SetGateway. rewrite bind_run, E.
  destruct w1 as [os1 rs1 ps1 t1 sl1 ol1 so1]. cbn [os_log proc_script] in *.
  subst ol1 ps1.
  unfold gateway_commands, RemoveGateway, delete_route_command,
    add_route_command.
  destruct (gateway_info s) as [[gw gdev]|]; cbn [gw_IpAddr gw_Device];
    [destruct (text_eqb gw gateway)|];
    destruct (2 <=? verbose) eqn:V2; crunch_os;
    rewrite <- ?app_assoc, ?app_nil_r; repeat split; exact HQ.
Qed.

Lemma take_while_split (p : char -> bool) (s : text) :
  exists post,
    s = Py.take_while p s ++ post
    /\ forallb p (Py.take_while p s) = true
    /\ match post with c :: _ => p c = false | [] => True end.
Proof.
  induction s as [|c s (post & E & Hall & Hpost)]; cbn [Py.take_while].
  - exists []. auto.
  - destruct (p c) eqn:Hc.
    + exists post. cbn [app forallb]. rewrite Hc, Hall.
      repeat split; [now rewrite <- E|assumption].
    + exists (c :: s). auto.
Qed.

Lemma take_while_prefix (p : char -> bool) (a rest : text) :
  forallb p a = true ->
  match rest with c :: _ => p c = false | [] => True end ->
  Py.take_while p (a ++ rest) = a.
Proof.
  intros Ha Hrest. induction a as [|c a IH]; cbn [app Py.take_while].
  - destruct rest as [|c rest]; [reflexivity|]. cbn [Py.take_while].
    now rewrite Hrest.
  - cbn [forallb] in Ha. apply andb_true_iff in Ha as [Hc Ha].
    rewrite Hc. now rewrite IH.
Qed.

Lemma drop_while_prefix (p : char -> bool) (a rest : text) :
  forallb p a = true ->
  match rest with c :: _ => p c = false | [] => True end ->
  Py.drop_while p (a ++ rest) = rest.
Proof.
  intros Ha Hrest. induction a as [|c a IH]; cbn [app Py.drop_while].
  - destruct rest as [|c rest]; [reflexivity|]. cbn [Py.drop_while].
    now rewrite Hrest.
  - cbn [forallb] in Ha. apply andb_true_iff in Ha as [Hc Ha].
    rewrite Hc. now apply IH.
Qed.

Lemma find_after_prefix (pat r : text) : Py.find_after pat (pat ++ r) = Some r.
Proof.
  assert (H : Py.starts_with pat (pat ++ r) = true)
    by (apply starts_with_spec; eauto).
  destruct (pat ++ r) eqn:E; cbn [Py.find_after]; rewrite H, <- E;
    now rewrite skipn_prefix.
Qed.

Lemma search_address_found label s :
  found_after label s (search_address label s).
Proof.
  unfold search_address.
  destruct (Py.find_after label s) as [rest|] eqn:F; cbn [found_after].
  - apply find_after_some in F as (pre & -> & Hmin).
    destruct (take_while_split is_digit_or_dot rest) as (post & E & Hall & Hpost).
    exists pre, post. rewrite <- E. auto.
  - now apply find_after_none.
Qed.

(** X16.  [GetIpAddr] and [GetIpMask] have no effect.  On UTF-8 output
    they return the run of digits and dots that follows the leftmost
    occurrence of [inet ], respectively [netmask ], a run that stops at the
    first other character, and they return [None] exactly when the label
    does not occur; on other output they raise [UnicodeDecodeError]. *)
Theorem interface_address_lookup ifout w :
  let '(ra, wa) := GetIpAddr ifout w in
  let '(rm, wm) := GetIpMask ifout w in
  wa = w /\ wm = w
  /\ match Py.decode ifout with
     | Ret s =>
         (exists addr, ra = Ret addr /\ found_after (lit "inet ") s addr)
         /\ (exists mask, rm = Ret mask
                          /\ found_after (lit "netmask ") s mask)
     | Raise e =>
         e = UnicodeDecodeError /\ ra = Raise e /\ rm = Raise e
     end.
Proof.
  unfold GetIpAddr, GetIpMask, bind, lift, ret.
  destruct (Py.decode ifout) as [s|e] eqn:D.
  - repeat split; eexists; (split; [reflexivity|]); apply search_address_found.
  - repeat split. eapply decode_raises_only; eassumption.
Qed.

Lemma after_last_space_suffix (a device : text) :
  ~ In SPACE device -> after_last_space (a ++ SPACE :: device) = device.
Proof.
  intros H. unfold after_last_space.
  rewrite rev_app_distr. cbn [rev]. rewrite <- app_assoc. cbn [app].
  rewrite take_while_prefix.
  - apply rev_involutive.
  - rewrite forallb_forall. intros c Hc. apply in_rev in Hc.
    apply negb_true_iff. apply N.eqb_neq. congruence.
  - reflexivity.
Qed.

Lemma gateway_info_default_line pad gw mid device rest :
  forallb (fun c => (c =? SPACE)%N) pad = true ->
  gw <> [] -> forallb is_digit_or_dot gw = true ->
  ~ In LF mid -> ~ In SPACE device -> ~ In LF device ->
  match rest with c :: _ => c = LF | [] => True end ->
  gateway_info (lit "default" ++ pad ++ gw ++ SPACE :: mid
                ++ SPACE :: device ++ rest)
  = Some (mkGatewayInfo gw device).
Proof.
  intros Hpad Hgw Hdig Hmid Hdev Hdevl Hrest.
  unfold gateway_info. rewrite find_after_prefix.
  rewrite drop_while_prefix; [|assumption|].
  2:{ destruct gw as [|c gw]; [congruence|]. cbn [app forallb] in *.
      apply andb_true_iff in Hdig as [Hc _].
      destruct (N.eqb_spec c SPACE) as [->|]; [discriminate|reflexivity]. }
  assert (Hline : Py.take_while (fun c => negb (c =? LF)%N)
                    (gw ++ SPACE :: mid ++ SPACE :: device ++ rest)
                  = gw ++ SPACE :: mid ++ SPACE :: device).
  { replace (gw ++ SPACE :: mid ++ SPACE :: device ++ rest)
      with ((gw ++ SPACE :: mid ++ SPACE :: device) ++ rest)
      by (rewrite <- !app_assoc; cbn [app]; rewrite <- !app_assoc;
          reflexivity).
    apply take_while_prefix.
    - rewrite forallb_forall. intros c Hc. apply negb_true_iff, N.eqb_neq.
      intros ->. apply in_app_or in Hc as [Hc|[Hc|Hc]].
      + rewrite forallb_forall in Hdig. specialize (Hdig _ Hc). discriminate.
      + discriminate.
      + apply in_app_or in Hc as [Hc|[Hc|Hc]]; [tauto|discriminate|tauto].
    - destruct rest as [|c rest]; [exact I|]. subst c. reflexivity. }
  cbv zeta. rewrite Hline. f_equal. f_equal.
  - apply take_while_prefix; [assumption|reflexivity].
  - replace (gw ++ SPACE :: mid ++ SPACE :: device)
      with ((gw ++ SPACE :: mid) ++ SPACE :: device)
      by (rewrite <- !app_assoc; reflexivity).
    now apply after_last_space_suffix.
Qed.

(** X17.  [GetGatewayInfo] for a named interface, on a route listing that
    starts with a default route: the word default, spaces, the gateway address, further columns,
    and the device as the last column of the line.  It returns the gateway
    address and that device. *)
Theorem GetGatewayInfo_reads_default_line
    verbose d w pad gw mid device rest :
  d <> [] ->
  Py.decode (snd (next_outcome w))
  = Ret (lit "default" ++ pad ++ gw ++ SPACE :: mid
         ++ SPACE :: device ++ rest) ->
  forallb (fun c => (c =? SPACE)%N) pad = true ->
  gw <> [] -> forallb is_digit_or_dot gw = true ->
  ~ In LF mid -> ~ In SPACE device -> ~ In LF device ->
  match rest with c :: _ => c = LF | [] => True end ->
  fst (GetGatewayInfo verbose d w) = Ret (Some (mkGatewayInfo gw device)).
Proof.
  intros Hd Hdec Hpad Hgw Hdig Hmid Hdev Hdevl Hrest.
  destruct (GetGatewayInfo_listing verbose w Hd Hdec) as (w' & E & _).
  rewrite E. cbn [fst]. f_equal. now apply gateway_info_default_line.
Qed.

(** ** The connect flow, end to end *)

(** The serial exchanges consume none of the scripted program outcomes. *)

Lemma OpenModem_proc verbose device :
  preserves proc_script (OpenModem verbose device).
Proof.
  unfold OpenModem. apply preserves_try_except; [|frame].
  intros w. unfold bind, serial_Serial.
  destruct (open_script w) as [|[] ?]; reflexivity.
Qed.

Lemma ser_write_proc ser data : preserves proc_script (ser_write ser data).
Proof. unfold ser_write. frame. Qed.

Lemma ser_read_proc ser size : preserves proc_script (ser_read ser size).
Proof. unfold ser_read. destruct ser; intros w; reflexivity. Qed.

Lemma print_proc s : preserves proc_script (print s).
Proof. intros w. reflexivity. Qed.

Lemma get_timeout_proc ser : preserves proc_script (get_timeout ser).
Proof. unfold get_timeout. destruct ser; intros w; reflexivity. Qed.

Lemma set_timeout_proc ser t : preserves proc_script (set_timeout ser t).
Proof. unfold set_timeout. destruct ser; intros w; reflexivity. Qed.

#[local] Hint Resolve ser_write_proc ser_read_proc print_proc
  get_timeout_proc set_timeout_proc : frame.

Lemma ModemOk_proc verbose ser : preserves proc_script (ModemOk verbose ser).
Proof. unfold ModemOk. frame. Qed.

Lemma ModemConnect_proc verbose ser :
  preserves proc_script (ModemConnect verbose ser).
Proof. unfold ModemConnect. frame. Qed.

Lemma ModemDhcpStatus_proc verbose ser :
  preserves proc_script (ModemDhcpStatus verbose ser).
Proof. unfold ModemDhcpStatus. frame. Qed.

Lemma ModemDhcpStatus_returns verbose w s :
  heard (firstn 100 (hd [] (read_script w))) = Some s ->
  fst (ModemDhcpStatus verbose (Some SerialPort) w)
  = if Py.re_search (lit "OK") s then DhcpParse s else Ret None.
Proof.
  intros H. apply heard_some in H as [Hne Hdec].
  destruct w as [os rs ps t sl ol so]. cbn [read_script] in *.
  unfold ModemDhcpStatus. rewrite encode_dhcp.
  destruct (firstn 100 (hd [] rs)) as [|b d] eqn:E; [congruence|].
  destruct (Py.re_search (lit "OK") s) eqn:Ok;
    destruct (DhcpParse s) as [[l|]|e] eqn:P;
    destruct (2 <=? verbose) eqn:V2; crunch; reflexivity.
Qed.

Lemma UpdateInterfaceIpAddress_applies verbose d lease w s :
  fst (next_outcome w) = true ->
  Py.decode (snd (next_outcome w)) = Ret s ->
  exists w',
    UpdateInterfaceIpAddress verbose d (Some lease) w = (Ret tt, w')
    /\ os_log w' = os_log w ++ Spawn [ifconfig; d] :: address_commands d s lease
    /\ proc_script w' = tl (proc_script w).
Proof.
  destruct w as [os rs ps t sl ol so]. unfold next_outcome.
  cbn [proc_script os_log].
  unfold UpdateInterfaceIpAddress, GetInterface, GetIpAddr, GetIpMask,
    address_commands, up_to_date, shows, flush_command, add_address_command.
  destruct (hd (false, []) ps) as [found out] eqn:E1. cbn [fst snd].
  intros -> D.
  destruct (search_address (lit "inet ") s) as [a|] eqn:SA;
    destruct (search_address (lit "netmask ") s) as [m|] eqn:SM;
    try destruct (text_eqb a (IpAddr lease)) eqn:EA;
    try destruct (text_eqb m (Netmask lease)) eqn:EM;
    destruct (2 <=? verbose) eqn:V2; destruct (1 <=? verbose) eqn:V1;
    repeat (crunch_os; cbn [negb orb andb]);
    eexists; (split; [reflexivity|]); cbn [os_log proc_script];
    rewrite <- ?app_assoc; repeat split.
Qed.

Lemma SetGateway_applies verbose gateway d w s :
  d <> [] ->
  Py.decode (snd (next_outcome w)) = Ret s ->
  exists w',
    SetGateway verbose gateway d w = (Ret tt, w')
    /\ os_log w' = os_log w ++ route_query d ++ gateway_commands gateway s
    /\ proc_script w' = tl (proc_script w).
Proof.
  intros Hd Hdec.
  destruct (GetGatewayInfo_listing verbose w Hd Hdec) as (w1 & E & Hos & Hps & _).
  unfold SetGateway. rewrite bind_run, E.
  destruct w1 as [os1 rs1 ps1 t1 sl1 ol1 so1]. cbn [os_log proc_script] in *.
  subst ol1 ps1.
  unfold gateway_commands, RemoveGateway, delete_route_command,
    add_route_command.
  destruct (gateway_info s) as [[gw gdev]|]; cbn [gw_IpAddr gw_Device];
    [destruct (text_eqb gw gateway)|];
    destruct (2 <=? verbose) eqn:V2; crunch_os;
    eexists; (split; [reflexivity|]); cbn [os_log proc_script];
    rewrite <- ?app_assoc, ?app_nil_r; repeat split.
Qed.

Lemma AddDns_applies verbose dns d w :
  exists w',
    AddDns verbose dns d w = (Ret tt, w')
    /\ os_log w' = os_log w ++ add_dns_commands dns d
    /\ proc_script w' = proc_script w.
Proof.
  destruct w as [os rs ps t sl ol so]. cbn [proc_script os_log].
  unfold AddDns, add_dns_commands.
  destruct (2 <=? verbose) eqn:V2; crunch_os;
    eexists; (split; [reflexivity|]); cbn [os_log proc_script];
    rewrite <- ?app_assoc; repeat split.
Qed.

(** X18.  The connect flow from end to end.  The port opens, the modem
    answers the probe and the connect command with text, the reply to the
    DHCP query contains OK and parses to a lease, ifconfig finds the
    interface, and its output and the route listing are text.  Then the flow
    returns, and the commands it issued are, in this order: the interface
    query, the address commands for the lease, the route query, the gateway
    commands for the gateway of the lease, and the two programs that
    register the primary DNS server of the lease. *)
Theorem connect_flow_applies_lease
    verbose w os r1 r2 r3 rest s1 s2 s3 lease ifout st listing prest si sr :
  open_script w = true :: os ->
  read_script w = r1 :: r2 :: r3 :: rest ->
  heard (firstn 10 r1) = Some s1 ->
  heard (firstn 30 r2) = Some s2 ->
  heard (firstn 100 r3) = Some s3 ->
  occurs (lit "OK") s3 ->
  DhcpParse s3 = Ret (Some lease) ->
  proc_script w = (true, ifout) :: (st, listing) :: prest ->
  Py.decode ifout = Ret si ->
  Py.decode listing = Ret sr ->
  let '(r, w') := connect_flow verbose w in
  r = Ret tt
  /\ os_log w'
     = os_log w
       ++ Spawn [ifconfig; dev] :: address_commands dev si lease
       ++ route_query dev ++ gateway_commands (Gateway lease) sr
       ++ add_dns_commands (DnsPrimary lease) dev
  /\ proc_script w' = prest.
Proof.
  intros Hopen Hreads H1 H2 H3 Hok Hparse Hprocs Hsi Hsr.
  apply re_search_occurs in Hok.
  unfold connect_flow. rewrite bind_run.
  destruct (when (2 <=? verbose) (print (lit "Connecting with modem")) w)
    as [[[]|e] w0] eqn:E0.
  2:{ destruct (2 <=? verbose); discriminate. }
  assert (F0 : open_script w0 = open_script w /\ read_script w0 = read_script w
               /\ os_log w0 = os_log w /\ proc_script w0 = proc_script w).
  { destruct (2 <=? verbose); inversion E0; subst; repeat split. }
  destruct F0 as (Fo & Fr & Fl & Fp). rewrite Hopen in Fo. rewrite Hreads in Fr.
  destruct (OpenModem_opens verbose dev_at w0 Fo) as (w1 & E1 & _ & R1 & _).
  pose proof (OpenModem_os verbose dev_at w0) as O1.
  pose proof (OpenModem_proc verbose dev_at w0) as P1.
  rewrite E1 in O1, P1. cbn [snd] in O1, P1.
  rewrite bind_run, E1. rewrite Fr in R1.
  destruct (@ModemOk_returns verbose w1 s1) as (w2 & E2 & _ & R2 & _);
    [now rewrite R1|].
  pose proof (ModemOk_os verbose (Some SerialPort) w1) as O2.
  pose proof (ModemOk_proc verbose (Some SerialPort) w1) as P2.
  rewrite E2 in O2, P2. cbn [snd] in O2, P2.
  rewrite bind_run, E2. rewrite R1 in R2. cbn [tl] in R2.
  destruct (@ModemConnect_returns verbose w2 s2) as (w3 & E3 & _ & R3 & _);
    [now rewrite R2|].
  pose proof (ModemConnect_os verbose (Some SerialPort) w2) as O3.
  pose proof (ModemConnect_proc verbose (Some SerialPort) w2) as P3.
  rewrite E3 in O3, P3. cbn [snd] in O3, P3.
  rewrite bind_run, E3. rewrite R2 in R3. cbn [tl] in R3.
  pose proof (@ModemDhcpStatus_returns verbose w3 s3) as E4.
  rewrite R3, Hok, Hparse in E4. specialize (E4 H3).
  pose proof (ModemDhcpStatus_os verbose (Some SerialPort) w3) as O4.
  pose proof (ModemDhcpStatus_proc verbose (Some SerialPort) w3) as P4.
  rewrite bind_run.
  destruct (ModemDhcpStatus verbose (Some SerialPort) w3) as [r4 w4].
  cbn [fst snd] in E4, O4, P4. subst r4.
  assert (Hos : os_log w4 = os_log w) by congruence.
  assert (Hps : proc_script w4 = (true, ifout) :: (st, listing) :: prest)
    by congruence.
  destruct (@UpdateInterfaceIpAddress_applies verbose dev lease w4 si)
    as (w5 & E5 & O5 & P5);
    [unfold next_outcome; now rewrite Hps..|].
  rewrite bind_run, E5. rewrite Hps in P5. cbn [tl] in P5.
  destruct (@SetGateway_applies verbose (Gateway lease) dev w5 sr)
    as (w6 & E6 & O6 & P6);
    [discriminate|unfold next_outcome; now rewrite P5|].
  rewrite bind_run, E6. rewrite P5 in P6. cbn [tl] in P6.
  destruct (AddDns_applies verbose (DnsPrimary lease) dev w6)
    as (w7 & E7 & O7 & P7).
  rewrite E7. repeat split.
  - rewrite O7, O6, O5, Hos. rewrite <- !app_assoc. cbn [app].
    now rewrite <- ?app_assoc.
  - congruence.
Qed.

(** X7.  [ModemOk] at every input.  It writes the probe and reads once,
    at most 10 octets.  On text it returns [True] exactly when OK occurs in
    the text and [False] exactly when it does not; on an empty read it
    raises [UnboundLocalError], on octets that are not UTF-8
    [UnicodeDecodeError].  In every case the serial log gains the write and
    the read, one scripted read is consumed, and the timeout and the OS log
    are unchanged. *)
Theorem ModemOk_outcome verbose w :
  let data := firstn 10 (hd [] (read_script w)) in
  let '(r, w') := ModemOk verbose (Some SerialPort) w in
  (forall s, heard data = Some s ->
             (r = Ret true <-> occurs (lit "OK") s)
             /\ (r = Ret false <-> ~ occurs (lit "OK") s))
  /\ (heard data = None ->
      r = Raise match data with
                | [] => UnboundLocalError
                | _ :: _ => UnicodeDecodeError
                end)
  /\ ser_log w' = ser_log w ++ [SerWrite probe_command;
                                SerRead 10 (ser_timeout w) data]
  /\ read_script w' = tl (read_script w)
  /\ ser_timeout w' = ser_timeout w
  /\ os_log w' = os_log w.
Proof.
  cbv zeta. destruct w as [os rs ps t sl ol so].
  cbn [read_script ser_timeout ser_log os_log].
  unfold ModemOk. rewrite encode_probe.
  destruct (firstn 10 (hd [] rs)) as [|b d] eqn:E.
  { destruct (2 <=? verbose) eqn:V2; crunch; rewrite snoc2;
      (split; [intros s; discriminate|]); repeat split. }
  pose proof (@heard_none (b :: d)) as Hnone. unfold heard in *.
  destruct (Py.decode (b :: d)) as [s|e] eqn:D.
  - destruct (Py.re_search (lit "OK") s) eqn:Ok;
      destruct (2 <=? verbose) eqn:V2; destruct (1 <=? verbose) eqn:V1;
      crunch; rewrite snoc2; token_cases;
      (split; [intros s' [= <-]; split; split; congruence || tauto|]);
      (split; [discriminate|]); repeat split.
  - destruct (Hnone eq_refl) as [?|[= ->]]; [discriminate|].
    crunch; rewrite snoc2.
    (split; [intros s; discriminate|]); repeat split.
Qed.

(** ** Runs without a serial port, and runs without an option *)

Lemma OpenModem_fails verbose device w :
  hd false (open_script w) = false ->
  exists w',
    OpenModem verbose device w = (Ret None, w')
    /\ ser_log w' = ser_log w /\ os_log w' = os_log w
    /\ read_script w' = read_script w /\ proc_script w' = proc_script w
    /\ stdout w'
       = stdout w ++ (if 1 <=? verbose
                      then [Line (lit "Failed to open serial port")] else []).
Proof.
  destruct w as [os rs ps t sl ol so]. cbn [open_script]. intros H.
  unfold OpenModem, try_except, serial_Serial.
  destruct os as [|[|] os]; cbn [hd] in H; try discriminate;
    destruct (1 <=? verbose) eqn:V1; crunch; eexists;
    (split; [reflexivity|]); cbn [ser_log os_log read_script proc_script stdout];
    rewrite ?app_nil_r; repeat split.
Qed.

(** X19.  When the serial port cannot be opened the connect flow gives
    up quietly: it returns, nothing is written to or read from the modem, no
    program is started, and the only output is the progress line at
    verbosity 2 and the failure message at verbosity 1 and above. *)
Theorem connect_without_port verbose w :
  hd false (open_script w) = false ->
  let '(r, w') := connect_flow verbose w in
  r = Ret tt
  /\ ser_log w' = ser_log w /\ os_log w' = os_log w
  /\ read_script w' = read_script w /\ proc_script w' = proc_script w
  /\ stdout w'
     = stdout w
       ++ (if 2 <=? verbose then [Line (lit "Connecting with modem")] else [])
       ++ (if 1 <=? verbose
           then [Line (lit "Failed to open serial port")] else []).
Proof.
  intros H. unfold connect_flow. rewrite bind_run.
  destruct (when (2 <=? verbose) (print (lit "Connecting with modem")) w)
    as [[[]|e] w0] eqn:E0.
  2:{ destruct (2 <=? verbose); discriminate. }
  assert (F0 : open_script w0 = open_script w /\ read_script w0 = read_script w
               /\ ser_log w0 = ser_log w /\ os_log w0 = os_log w
               /\ proc_script w0 = proc_script w
               /\ stdout w0
                  = stdout w ++ (if 2 <=? verbose
                                 then [Line (lit "Connecting with modem")]
                                 else [])).
  { destruct (2 <=? verbose); inversion E0; subst;
      cbn [stdout]; rewrite ?app_nil_r; repeat split. }
  destruct F0 as (Fo & Fr & Fl & Fos & Fp & Fso).
  rewrite <- Fo in H.
  destruct (OpenModem_fails verbose dev_at w0 H)
    as (w1 & E1 & L1 & O1 & R1 & P1 & S1).
  rewrite bind_run, E1. unfold ret.
  repeat split; try congruence.
  rewrite S1, Fso. now rewrite <- app_assoc.
Qed.

(** X20.  When the serial port cannot be opened the disconnect flow
    does not give up quietly: [ModemHangup] is called on [None] and raises
    [AttributeError], and the teardown that follows it in the script is never
    reached, so no program is started. *)
Theorem disconnect_without_port verbose w :
  hd false (open_script w) = false ->
  let '(r, w') := disconnect_flow verbose w in
  r = Raise AttributeError
  /\ ser_log w' = ser_log w /\ os_log w' = os_log w
  /\ read_script w' = read_script w /\ proc_script w' = proc_script w.
Proof.
  intros H. unfold disconnect_flow.
  destruct (OpenModem_fails verbose dev_at w H)
    as (w1 & E1 & L1 & O1 & R1 & P1 & S1).
  rewrite bind_run, E1.
  destruct w1 as [os rs ps t sl ol so].
  cbn [ser_log os_log read_script proc_script] in *.
  unfold ModemHangup. rewrite encode_hangup. crunch.
  repeat split; assumption.
Qed.

(** X21.  Run with neither [-c] nor [-d], the program prints its help
    and exits with status 0; it opens no port, starts no program and
    consumes nothing. *)
Theorem no_option_prints_help args w :
  given (arg_connect args) = false ->
  given (arg_disconnect args) = false ->
  main args w
  = (0, mkWorld (open_script w) (read_script w) (proc_script w)
          (ser_timeout w) (ser_log w) (os_log w) (stdout w ++ [Usage])).
Proof.
  intros Hc Hd. unfold main, script. rewrite Hc, Hd.
  destruct w as [os rs ps t sl ol so]. reflexivity.
Qed.

(** ** Instances *)

(** Closed side conditions on concrete texts. *)
Ltac absent := cbn; intros H; repeat destruct H as [H|H]; discriminate || exact H.
Ltac octets_ok := cbv [ipv4]; repeat split; reflexivity.

Lemma DhcpParse_raises_only_witness :
  let dhcp := lit "^DHCP: 0100000G,00FFFFFF,0200000A,0200000A,08080808,04040808,100000000,50000000" in
  DhcpParse dhcp = Raise ValueError
  /\ (ValueError = ValueError \/ ValueError = StructError
      \/ ValueError = IndexError).
Proof.
  cbv zeta.
  assert (H : DhcpParse (lit "^DHCP: 0100000G,00FFFFFF,0200000A,0200000A,08080808,04040808,100000000,50000000")
              = Raise ValueError) by (vm_compute; reflexivity).
  split; [exact H|exact (@DhcpParse_raises_only _ _ H)].
Defined.

Lemma lease_well_formed_witness :
  DhcpParse (lit good_lease) = Ret (Some sample_lease)
  /\ (exists a m g d p s,
        Forall ipv4 [a; m; g; d; p; s]
        /\ IpAddr sample_lease = dotted_decimal a
        /\ Netmask sample_lease = dotted_decimal m
        /\ Gateway sample_lease = dotted_decimal g
        /\ DhcpServer sample_lease = dotted_decimal d
        /\ DnsPrimary sample_lease = dotted_decimal p
        /\ DnsSecondary sample_lease = dotted_decimal s
        /\ NetmaskBits sample_lease = mask_bits m)
  /\ NetmaskBits sample_lease <= 32
  /\ ~ In 44%N (RxMaxBps sample_lease)
  /\ TxMaxBps sample_lease <> []
  /\ forallb (fun c => negb (Py.Py_UNICODE_ISSPACE c)) (TxMaxBps sample_lease)
     = true.
Proof.
  assert (H : DhcpParse (lit good_lease) = Ret (Some sample_lease))
    by (vm_compute; reflexivity).
  split; [exact H|exact (@lease_well_formed _ _ H)].
Defined.

Lemma DhcpParse_modem_reply_witness :
  let a0 := (10, 0, 0, 1)%N in
  let a1 := (255, 255, 255, 0)%N in
  let a2 := (10, 0, 0, 2)%N in
  let a4 := (8, 8, 8, 8)%N in
  let a5 := (8, 8, 4, 4)%N in
  let rx := lit "100000000" in
  let tx := lit "50000000" in
  let trailer := [LF; CR; LF] ++ lit "OK" ++ [CR; LF] in
  (Forall ipv4 [a0; a1; a2; a2; a4; a5]
   /\ ~ In 58%N (lit "^DHCP") /\ blank (lit " ")
   /\ ~ In 44%N rx /\ tx <> [] /\ ~ In 44%N tx
   /\ forallb (fun c => negb (Py.Py_UNICODE_ISSPACE c)) tx = true
   /\ Py.Py_UNICODE_ISSPACE CR = true /\ ~ In 44%N trailer)
  /\ DhcpParse
       (lit "^DHCP" ++ lit ":" ++ lit " "
        ++ join 44%N (map (little_endian_hex false) [a0; a1; a2; a2; a4; a5]
                      ++ [rx; tx ++ CR :: trailer]))
     = Ret (Some {| IpAddr := dotted_decimal a0;
                    Netmask := dotted_decimal a1;
                    Gateway := dotted_decimal a2;
                    DhcpServer := dotted_decimal a2;
                    DnsPrimary := dotted_decimal a4;
                    DnsSecondary := dotted_decimal a5;
                    RxMaxBps := rx;
                    TxMaxBps := tx;
                    NetmaskBits := mask_bits a1 |}).
Proof.
  cbv zeta.
  assert (H0 : Forall ipv4 [(10, 0, 0, 1); (255, 255, 255, 0); (10, 0, 0, 2);
                            (10, 0, 0, 2); (8, 8, 8, 8); (8, 8, 4, 4)]%N)
    by (repeat (apply Forall_cons; [octets_ok|]); apply Forall_nil).
  assert (H1 : ~ In 58%N (lit "^DHCP")) by absent.
  assert (H2 : blank (lit " ")) by reflexivity.
  assert (H3 : ~ In 44%N (lit "100000000")) by absent.
  assert (H4 : lit "50000000" <> []) by discriminate.
  assert (H5 : ~ In 44%N (lit "50000000")) by absent.
  assert (H6 : forallb (fun c => negb (Py.Py_UNICODE_ISSPACE c))
                 (lit "50000000") = true) by reflexivity.
  assert (H7 : Py.Py_UNICODE_ISSPACE CR = true) by reflexivity.
  assert (H8 : ~ In 44%N ([LF; CR; LF] ++ lit "OK" ++ [CR; LF])) by absent.
  split; [repeat split; assumption|].
  exact (@DhcpParse_modem_reply false _ _ _ _ _ _ _ _ _ _ _ _
           H0 H1 H2 H3 H4 H5 H6 H7 H8).
Defined.

Lemma DhcpParse_ignores_label_and_extra_fields_witness :
  let extra := [lit "9600"] in
  (~ In 58%N (lit "^DHCP") /\ ~ In 58%N (lit "lease")
   /\ List.length lease_fields = 8
   /\ Forall (fun f => ~ In 44%N f) (lease_fields ++ extra))
  /\ DhcpParse (lit "^DHCP" ++ lit ":" ++ join 44%N (lease_fields ++ extra))
     = DhcpParse (lit "lease" ++ lit ":" ++ join 44%N lease_fields).
Proof.
  cbv zeta.
  assert (H1 : ~ In 58%N (lit "^DHCP")) by absent.
  assert (H2 : ~ In 58%N (lit "lease")) by absent.
  assert (H3 : List.length lease_fields = 8) by reflexivity.
  assert (H4 : Forall (fun f => ~ In 44%N f) (lease_fields ++ [lit "9600"]))
    by (repeat (apply Forall_cons; [absent|]); apply Forall_nil).
  split; [repeat split; assumption|].
  exact (@DhcpParse_ignores_label_and_extra_fields _ _ _ _ H1 H2 H3 H4).
Defined.

Lemma hangup_immediate_success_witness :
  let w := hangup_confirmed in
  let s1 := text_of (reply "OK") in
  (heard (firstn 20 (hd [] (read_script w))) = Some s1
   /\ occurs (lit "OK") s1)
  /\ let '(r, w') := ModemHangup 0 (Some SerialPort) w in
     r = Ret true
     /\ ser_log w' = ser_log w ++ [SerWrite hangup_command;
                                   SerRead 20 (ser_timeout w)
                                     (firstn 20 (hd [] (read_script w)))]
     /\ read_script w' = tl (read_script w)
     /\ ser_timeout w' = ser_timeout w
     /\ (0 < 2 -> stdout w' = stdout w).
Proof.
  cbv zeta.
  assert (H1 : heard (firstn 20 (hd [] (read_script hangup_confirmed)))
               = Some (text_of (reply "OK"))) by (vm_compute; reflexivity).
  assert (H2 : occurs (lit "OK") (text_of (reply "OK")))
    by (exists [CR; LF], [CR; LF]; vm_compute; reflexivity).
  split; [split; assumption|].
  exact (@hangup_immediate_success 0 hangup_confirmed _ H1 H2).
Defined.

Lemma hangup_raises_on_empty_first_read_witness :
  firstn 20 (hd [] (read_script silent_line)) = []
  /\ fst (ModemHangup 0 (Some SerialPort) silent_line)
     = Raise UnboundLocalError.
Proof.
  assert (H : firstn 20 (hd [] (read_script silent_line)) = [])
    by reflexivity.
  split; [exact H|exact (@hangup_raises_on_empty_first_read 0 _ H)].
Defined.

Lemma SetGateway_commands_witness :
  let w := route_listed in
  let s := text_of route_output in
  let gateway := lit "10.0.0.2" in
  (dev <> [] /\ Py.decode (snd (next_outcome w)) = Ret s)
  /\ let '(r, w') := SetGateway 0 gateway dev w in
     r = Ret tt
     /\ os_log w' = os_log w ++ route_query dev ++ gateway_commands gateway s
     /\ proc_script w' = tl (proc_script w)
     /\ (gateway_commands gateway s = []
         <-> exists cur, gateway_info s = Some cur /\ gw_IpAddr cur = gateway).
Proof.
  cbv zeta.
  assert (H1 : dev <> []) by discriminate.
  assert (H2 : Py.decode (snd (next_outcome route_listed))
               = Ret (text_of route_output)) by (vm_compute; reflexivity).
  split; [split; assumption|].
  exact (@SetGateway_commands 0 (lit "10.0.0.2") dev route_listed _ H1 H2).
Defined.

Lemma GetGatewayInfo_reads_default_line_witness :
  let w := route_listed in
  let pad := lit "         " in
  let gw := lit "10.0.0.254" in
  let mid := lit "     0.0.0.0         UG    0      0        0" in
  let device := lit "wwan0" in
  (dev <> []
   /\ Py.decode (snd (next_outcome w))
      = Ret (lit "default" ++ pad ++ gw ++ SPACE :: mid
             ++ SPACE :: device ++ [LF])
   /\ forallb (fun c => (c =? SPACE)%N) pad = true
   /\ gw <> [] /\ forallb is_digit_or_dot gw = true
   /\ ~ In LF mid /\ ~ In SPACE device /\ ~ In LF device
   /\ LF = LF)
  /\ fst (GetGatewayInfo 0 dev w) = Ret (Some (mkGatewayInfo gw device)).
Proof.
  cbv zeta.
  assert (H1 : dev <> []) by discriminate.
  assert (H2 : Py.decode (snd (next_outcome route_listed))
               = Ret (lit "default" ++ lit "         " ++ lit "10.0.0.254"
                      ++ SPACE :: lit "     0.0.0.0         UG    0      0        0"
                      ++ SPACE :: lit "wwan0" ++ [LF]))
    by (vm_compute; reflexivity).
  assert (H3 : forallb (fun c => (c =? SPACE)%N) (lit "         ") = true)
    by reflexivity.
  assert (H4 : lit "10.0.0.254" <> []) by discriminate.
  assert (H5 : forallb is_digit_or_dot (lit "10.0.0.254") = true)
    by reflexivity.
  assert (H6 : ~ In LF (lit "     0.0.0.0         UG    0      0        0"))
    by absent.
  assert (H7 : ~ In SPACE (lit "wwan0")) by absent.
  assert (H8 : ~ In LF (lit "wwan0")) by absent.
  assert (H9 : LF = LF) by reflexivity.
  split; [repeat split; assumption|].
  exact (@GetGatewayInfo_reads_default_line 0 dev route_listed
           _ _ _ _ [LF] H1 H2 H3 H4 H5 H6 H7 H8 H9).
Defined.

Lemma connect_flow_applies_lease_witness :
  let w := connect_accepted in
  let s3 := text_of (dhcp_reply good_lease) in
  let si := text_of ifconfig_output in
  let sr := text_of route_output in
  (open_script w = [true]
   /\ read_script w = [reply "OK"; reply "OK"; dhcp_reply good_lease]
   /\ heard (firstn 10 (reply "OK")) = Some (text_of (reply "OK"))
   /\ heard (firstn 30 (reply "OK")) = Some (text_of (reply "OK"))
   /\ heard (firstn 100 (dhcp_reply good_lease)) = Some s3
   /\ occurs (lit "OK") s3
   /\ DhcpParse s3 = Ret (Some sample_lease)
   /\ proc_script w = [(true, ifconfig_output); (true, route_output)]
   /\ Py.decode ifconfig_output = Ret si
   /\ Py.decode route_output = Ret sr)
  /\ let '(r, w') := connect_flow 0 w in
     r = Ret tt
     /\ os_log w'
        = os_log w
          ++ Spawn [ifconfig; dev] :: address_commands dev si sample_lease
          ++ route_query dev ++ gateway_commands (Gateway sample_lease) sr
          ++ add_dns_commands (DnsPrimary sample_lease) dev
     /\ proc_script w' = [].
Proof.
  cbv zeta.
  assert (H1 : open_script connect_accepted = [true]) by reflexivity.
  assert (H2 : read_script connect_accepted
               = [reply "OK"; reply "OK"; dhcp_reply good_lease])
    by reflexivity.
  assert (H3 : heard (firstn 10 (reply "OK")) = Some (text_of (reply "OK")))
    by (vm_compute; reflexivity).
  assert (H4 : heard (firstn 30 (reply "OK")) = Some (text_of (reply "OK")))
    by (vm_compute; reflexivity).
  assert (H5 : heard (firstn 100 (dhcp_reply good_lease))
               = Some (text_of (dhcp_reply good_lease)))
    by (vm_compute; reflexivity).
  assert (H6 : occurs (lit "OK") (text_of (dhcp_reply good_lease)))
    by (apply re_search_occurs; vm_compute; reflexivity).
  assert (H7 : DhcpParse (text_of (dhcp_reply good_lease))
               = Ret (Some sample_lease)) by (vm_compute; reflexivity).
  assert (H8 : proc_script connect_accepted
               = [(true, ifconfig_output); (true, route_output)])
    by reflexivity.
  assert (H9 : Py.decode ifconfig_output = Ret (text_of ifconfig_output))
    by (vm_compute; reflexivity).
  assert (H10 : Py.decode route_output = Ret (text_of route_output))
    by (vm_compute; reflexivity).
  split; [repeat split; assumption|].
  exact (@connect_flow_applies_lease 0 connect_accepted _ _ _ _ _ _ _ _ _ _ _ _ _
           _ _ H1 H2 H3 H4 H5 H6 H7 H8 H9 H10).
Defined.

Lemma connect_without_port_witness :
  let w := no_port in
  hd false (open_script w) = false
  /\ let '(r, w') := connect_flow 1 w in
     r = Ret tt
     /\ ser_log w' = ser_log w /\ os_log w' = os_log w
     /\ read_script w' = read_script w /\ proc_script w' = proc_script w
     /\ stdout w'
        = stdout w
          ++ (if 2 <=? 1 then [Line (lit "Connecting with modem")] else [])
          ++ (if 1 <=? 1
              then [Line (lit "Failed to open serial port")] else []).
Proof.
  cbv zeta.
  assert (H : hd false (open_script no_port) = false) by reflexivity.
  split; [exact H|exact (@connect_without_port 1 no_port H)].
Defined.

Lemma disconnect_without_port_witness :
  let w := no_port in
  hd false (open_script w) = false
  /\ let '(r, w') := disconnect_flow 0 w in
     r = Raise AttributeError
     /\ ser_log w' = ser_log w /\ os_log w' = os_log w
     /\ read_script w' = read_script w /\ proc_script w' = proc_script w.
Proof.
  cbv zeta.
  assert (H : hd false (open_script no_port) = false) by reflexivity.
  split; [exact H|exact (@disconnect_without_port 0 no_port H)].
Defined.

Lemma no_option_prints_help_witness :
  let args := mkArgs 0 0 2 in
  let w := connect_accepted in
  (given (arg_connect args) = false /\ given (arg_disconnect args) = false)
  /\ main args w
     = (0, mkWorld (open_script w) (read_script w) (proc_script w)
             (ser_timeout w) (ser_log w) (os_log w) (stdout w ++ [Usage])).
Proof.
  cbv zeta.
  assert (H1 : given (arg_connect (mkArgs 0 0 2)) = false) by reflexivity.
  assert (H2 : given (arg_disconnect (mkArgs 0 0 2)) = false) by reflexivity.
  split; [split; assumption|].
  exact (@no_option_prints_help (mkArgs 0 0 2) connect_accepted H1 H2).
Defined.
